(** * shape-puzzle: the puzzle container

    A shallow embedding of the three revisions of the puzzle container
    (generation of pieces, tallies and hints, click handling, reset,
    validity) and the properties of the specification settled on them.

    The three revisions are kept apart as modules:
    - [Assisted]   : the revision with [enableAssist], [reset] and [new];
    - [Unassisted] : what the two other revisions share word for word;
    - [Rotating]   : the revision whose click handler rotates through
                     [Container.SHAPES];
    - [Cycling]    : the revision whose click handler cycles through
                     [SELECTABLE_VALUES] and skips revealed pieces. *)

From Stdlib Require Import ZArith QArith Qround Lia Lqa Ascii String.
From stdpp Require Import base list strings pretty numbers.

Open Scope Z_scope.

(** * JavaScript values used by the program *)

Module JS.

(** A JavaScript number, modelled by an exact rational.  The program
    only adds, multiplies, divides, takes remainders and floors of the
    dimensions and of loop indices, all exact on the integers a double
    holds without rounding; [NaN] and the infinities are left out (the
    one division, by [columns], is only evaluated inside a loop that
    runs when [columns * rows] is positive). *)
Definition number : Type := Q.

Definition of_int (z : Z) : number := inject_Z z.
Definition of_nat (n : nat) : number := inject_Z (Z.of_nat n).

(** [a === b] on numbers. *)
Definition eqb (a b : number) : bool := Qeq_bool a b.

(** [a < b]. *)
Definition ltb (a b : number) : bool :=
  (Qnum a * QDen b <? Qnum b * QDen a)%Z.

(** [Math.floor]. *)
Definition Math_floor (a : number) : number := inject_Z (Qfloor a).

(** Rounding towards zero, as the remainder operator does. *)
Definition trunc (a : number) : Z :=
  if (0 <=? Qnum a)%Z then Qfloor a else Qceiling a.

(** [a % b]: the remainder has the sign of the dividend. *)
Definition rem (a b : number) : number :=
  (a - b * inject_Z (trunc (a / b)))%Q.

(** [Number.isInteger]. *)
Definition is_integer (a : number) : Prop := exists z : Z, (a == inject_Z z)%Q.

(** [Number(val)] on an argument that is already a number. *)
Definition Number (val : number) : number := val.

(** Digits after the decimal point of [r / d], for [0 <= r < d]. *)
Fixpoint fraction_digits (fuel : nat) (r d : Z) : string :=
  match fuel with
  | O => EmptyString
  | S fuel' =>
      if (r =? 0)%Z then EmptyString
      else String (pretty_N_char (Z.to_N ((r * 10) / d)))
                  (fraction_digits fuel' ((r * 10) mod d) d)
  end.

(** The string a template literal puts for a number: the decimal
    digits of an integer (as JavaScript does below 10^21); for a
    fraction the digits of its expansion (JavaScript prints the shortest
    digits that read back as the same double, the same digits for short
    dyadic fractions such as 3.5). *)
Definition toString (a : number) : string :=
  let q := Qred a in
  let d := Zpos (Qden q) in
  if (d =? 1)%Z then pretty (Qnum q)
  else
    let m := Z.abs (Qnum q) in
    (if (Qnum q <? 0)%Z then "-" else "")
      +:+ pretty (m / d) +:+ "." +:+ fraction_digits 17 (m mod d) d.

(** The characters matched by [\s] that can occur in the templates. *)
Definition is_whitespace (c : ascii) : bool :=
  let n := nat_of_ascii c in
  ((n =? 32) || (n =? 9) || (n =? 10) || (n =? 11) || (n =? 12) || (n =? 13))%nat.

(** [s.replace(/\s+/g, '')]. *)
Fixpoint strip_whitespace (s : string) : string :=
  match s with
  | EmptyString => EmptyString
  | String c s' =>
      if is_whitespace c then strip_whitespace s'
      else String c (strip_whitespace s')
  end.

(** [array.indexOf(x)]: the first index holding [x], or [-1]. *)
Fixpoint indexOf {A} `{EqDecision A} (x : A) (l : list A) : Z :=
  match l with
  | [] => -1
  | y :: l' =>
      if decide (x = y) then 0
      else let i := indexOf x l' in if (i <? 0)%Z then -1 else i + 1
  end.

(** [array[i]] for a number [i] that is an index of the array. *)
Definition at_index {A} `{Inhabited A} (l : list A) (i : number) : A :=
  l !!! Z.to_nat (Qfloor i).

(** The number of turns of [for (i = start; i < total; i += 1)]. *)
Definition turns (start total : number) : nat :=
  Z.to_nat (Qceiling (total - start)).

(** The errors the program can raise. *)
Inductive error : Type :=
| TypeError.

(** A value returned by [Math.random()]: a number in [0, 1). *)
Definition in_unit_interval (q : number) : bool :=
  (0 <=? Qnum q)%Z && (Qnum q <? QDen q)%Z.

Record draw : Type := Draw {
  draw_value : number;
  draw_range : in_unit_interval draw_value = true
}.

End JS.


(** * The data model shared by the three revisions *)

(** [type Shape = 'circle' | 'square' | 'triangle'] *)
Inductive Shape : Type := circle | square | triangle.

(** [type SelectableValues = '' | Shape] *)
Inductive SelectableValues : Type :=
| Empty
| Sel (s : Shape).

#[global] Instance Shape_eq_dec : EqDecision Shape.
Proof. solve_decision. Defined.

#[global] Instance SelectableValues_eq_dec : EqDecision SelectableValues.
Proof. solve_decision. Defined.

#[global] Instance Shape_inhabited : Inhabited Shape := populate circle.

#[global] Instance SelectableValues_inhabited : Inhabited SelectableValues :=
  populate Empty.

Record Coordinates : Type := mkCoordinates {
  column : JS.number;
  row : JS.number
}.

(** The argument ['column' | 'row'] of the tally methods. *)
Inductive Axis : Type := Column | Row.

(** [coordinates[columnOrRow]] *)
Definition coordinate_of (columnOrRow : Axis) (c : Coordinates) : JS.number :=
  match columnOrRow with
  | Column => column c
  | Row => row c
  end.

Module PuzzlePiece.
Record t : Type := mk {
  key : string;
  coordinates : Coordinates;
  fill : string;
  revealed : bool;
  style : string;
  value : Shape;
  selectedValue : SelectableValues
}.

(** [piece.selectedValue = v] *)
Definition set_selectedValue (v : SelectableValues) (p : t) : t :=
  {| key := key p; coordinates := coordinates p; fill := fill p;
     revealed := revealed p; style := style p; value := value p;
     selectedValue := v |}.
End PuzzlePiece.

Abbreviation PuzzlePiece := PuzzlePiece.t.

Definition REVEAL_PROBABILITY : JS.number := (1 # 2)%Q.

(** [`[${column},${row}]`] *)
Definition stringifyCoordinates (c : Coordinates) : string :=
  "[" +:+ JS.toString (column c) +:+ "," +:+ JS.toString (row c) +:+ "]".

Definition newline : string := String (ascii_of_nat 10) EmptyString.

(** [computeGridItemStyle(coordinates, width = 1, height = 1)], the same
    text in the three revisions; [size] is [this.size]. *)
Definition computeGridItemStyle
    (size : JS.number) (coordinates : Coordinates) (width height : JS.number)
    : string :=
  let columnStart := (column coordinates + 1)%Q in
  let columnEnd := (column coordinates + 1 + width)%Q in
  let rowStart := (row coordinates + 1)%Q in
  let rowEnd := (row coordinates + 1 + height)%Q in
  JS.strip_whitespace
    (newline
     +:+ "            grid-column: " +:+ JS.toString columnStart
     +:+ " / " +:+ JS.toString columnEnd +:+ ";" +:+ newline
     +:+ "            grid-row: " +:+ JS.toString rowStart
     +:+ " / " +:+ JS.toString rowEnd +:+ ";" +:+ newline
     +:+ "            width: " +:+ JS.toString (size * width)%Q +:+ "px;" +:+ newline
     +:+ "            height: " +:+ JS.toString (size * height)%Q +:+ "px;" +:+ newline
     +:+ "        ").

(** * Effects: the component instance, the random source, exceptions *)

Section Effects.

(** The type of the component instance ([this]). *)
Context {C : Type}.

(** What a method runs in: the instance and the sequence of values
    [Math.random()] is going to return, with the number already drawn. *)
Record World : Type := mkWorld {
  this : C;
  random_source : nat -> JS.draw;
  random_calls : nat
}.

Inductive outcome (A : Type) : Type :=
| Return (a : A)
| Throw (e : JS.error).

#[global] Arguments Return {A} a.
#[global] Arguments Throw {A} e.

Definition M (A : Type) : Type := World -> outcome A * World.

Definition ret {A} (a : A) : M A := fun w => (Return a, w).

Definition bind {A B} (m : M A) (k : A -> M B) : M B :=
  fun w =>
    match m w with
    | (Return a, w') => k a w'
    | (Throw e, w') => (Throw e, w')
    end.

Definition throw {A} (e : JS.error) : M A := fun w => (Throw e, w).

Definition get_this : M C := fun w => (Return (this w), w).

Definition update_this (f : C -> C) : M unit :=
  fun w =>
    (Return tt,
     {| this := f (this w);
        random_source := random_source w;
        random_calls := random_calls w |}).

(** [Math.random()] *)
Definition Math_random : M JS.number :=
  fun w =>
    (Return (JS.draw_value (random_source w (random_calls w))),
     {| this := this w;
        random_source := random_source w;
        random_calls := S (random_calls w) |}).

(** [array.forEach(body)] for a body with effects. *)
Fixpoint forEach {A} (l : list A) (body : A -> M unit) : M unit :=
  match l with
  | [] => ret tt
  | x :: l' => bind (body x) (fun _ => forEach l' body)
  end.

End Effects.

#[global] Arguments World C : clear implicits.
#[global] Arguments M C A : clear implicits.

Notation "'let*' x ':=' m 'in' k" := (bind m (fun x => k))
  (at level 10, x name, m at level 100, k at level 200).
Notation "m1 '>>' m2" := (bind m1 (fun _ => m2))
  (at level 100, m2 at level 200, right associativity).

(** [array.forEach((x, index) => ...)] for a body that updates a local
    variable of type [V]. *)
Fixpoint forEach_indexed {A V} (index : nat) (l : list A)
    (body : A -> nat -> V -> V) (s : V) : V :=
  match l with
  | [] => s
  | x :: l' => forEach_indexed (S index) l' body (body x index s)
  end.

(** A reference to an object held in the array [this.pieces]: the
    objects are created by [_generatePieces], one per slot, and the
    array is only ever replaced by a copy of itself or by a fresh
    generation, so a slot identifies its object. *)
Abbreviation ref := nat.

(** [array.find(p)], returning the reference with the object. *)
Definition find {A} (p : A -> bool) (l : list A) : option (ref * A) :=
  list_find (fun x => p x = true) l.

(** [array.filter(p)] as the references it keeps. *)
Definition filter_refs {A} (p : A -> bool) (l : list A) : list ref :=
  List.filter (fun i => match l !! i with Some x => p x | None => false end)
              (seq 0 (length l)).

(** * The revision with assist mode, [reset] and [new] *)

Module Assisted.

Module PuzzleHint.
Record t : Type := mk {
  key : string;
  coordinates : Coordinates;
  content : nat;
  shape : Shape;
  style : string;
  fill : string
}.
End PuzzleHint.

Abbreviation PuzzleHint := PuzzleHint.t.

(** [FILL_COLORS] *)
Definition REVEALED_FILL : string := "#333333".
Definition SELECTED_FILL : string := "#4D9DE0".
Definition COMPLETE_HINT : string := "#3BB273".
Definition INCOMPLETE_HINT : string := "#CCCCCC".

Definition SHAPES : list Shape := [circle; square; triangle].
Definition SELECTABLE_VALUES : list SelectableValues := Empty :: (Sel <$> SHAPES).

(** [SHAPES.length] where it is used as a number. *)
Definition SHAPES_length : JS.number := JS.of_nat (length SHAPES).

(** ** [class PuzzleTally] *)

Record PuzzleTally : Type := new_PuzzleTally {
  tally_pieces : list PuzzlePiece
}.

Definition getValueCount (self : PuzzleTally)
    (columnOrRow : Axis) (columnOrRowNumber : JS.number) (shape : Shape) : nat :=
  let filtered :=
    List.filter
      (fun p =>
         JS.eqb columnOrRowNumber
                (coordinate_of columnOrRow (PuzzlePiece.coordinates p))
         && bool_decide (shape = PuzzlePiece.value p))
      (tally_pieces self) in
  length filtered.

Definition getSelectedCount (self : PuzzleTally)
    (columnOrRow : Axis) (columnOrRowNumber : JS.number) (shape : Shape) : nat :=
  let filtered :=
    List.filter
      (fun p =>
         JS.eqb columnOrRowNumber
                (coordinate_of columnOrRow (PuzzlePiece.coordinates p))
         && bool_decide (Sel shape = PuzzlePiece.selectedValue p))
      (tally_pieces self) in
  length filtered.

Definition getColumnValueCount (self : PuzzleTally)
    (columnNumber : JS.number) (shape : Shape) : nat :=
  getValueCount self Column columnNumber shape.

Definition getColumnSelectedCount (self : PuzzleTally)
    (columnNumber : JS.number) (shape : Shape) : nat :=
  getSelectedCount self Column columnNumber shape.

Definition getRowTally (self : PuzzleTally)
    (rowNumber : JS.number) (shape : Shape) : nat :=
  getValueCount self Row rowNumber shape.

Definition getValidRowTally (self : PuzzleTally)
    (rowNumber : JS.number) (shape : Shape) : nat :=
  getSelectedCount self Row rowNumber shape.

(** ** [class Container] *)

Record Container : Type := mkContainer {
  enableAssist : bool;
  _columns : JS.number;
  _rows : JS.number;
  _size : JS.number;
  hints : list PuzzleHint;
  pieces : list PuzzlePiece
}.

(** The field initialisers of the class. *)
Definition initial : Container :=
  {| enableAssist := false;
     _columns := JS.of_int 3; _rows := JS.of_int 3; _size := JS.of_int 70;
     hints := []; pieces := [] |}.

Definition with_enableAssist (b : bool) (c : Container) : Container :=
  {| enableAssist := b; _columns := _columns c; _rows := _rows c;
     _size := _size c; hints := hints c; pieces := pieces c |}.

Definition with_columns (n : JS.number) (c : Container) : Container :=
  {| enableAssist := enableAssist c; _columns := n; _rows := _rows c;
     _size := _size c; hints := hints c; pieces := pieces c |}.

Definition with_rows (n : JS.number) (c : Container) : Container :=
  {| enableAssist := enableAssist c; _columns := _columns c; _rows := n;
     _size := _size c; hints := hints c; pieces := pieces c |}.

Definition with_size (n : JS.number) (c : Container) : Container :=
  {| enableAssist := enableAssist c; _columns := _columns c; _rows := _rows c;
     _size := n; hints := hints c; pieces := pieces c |}.

Definition with_hints (h : list PuzzleHint) (c : Container) : Container :=
  {| enableAssist := enableAssist c; _columns := _columns c; _rows := _rows c;
     _size := _size c; hints := h; pieces := pieces c |}.

Definition with_pieces (p : list PuzzlePiece) (c : Container) : Container :=
  {| enableAssist := enableAssist c; _columns := _columns c; _rows := _rows c;
     _size := _size c; hints := hints c; pieces := p |}.

(** [get columns()], [get rows()], [get size()] *)
Definition columns (self : Container) : JS.number := _columns self.
Definition rows (self : Container) : JS.number := _rows self.
Definition size (self : Container) : JS.number := _size self.

(** [set columns(val)], [set rows(val)], [set size(val)] *)
Definition set_columns (val : JS.number) : M Container unit :=
  update_this (with_columns (JS.Number val)).

Definition set_rows (val : JS.number) : M Container unit :=
  update_this (with_rows (JS.Number val)).

Definition set_size (val : JS.number) : M Container unit :=
  update_this (with_size (JS.Number val)).

(** [get gridContainerStyle()] *)
Definition gridContainerStyle (self : Container) : string :=
  let numOptions := SHAPES_length in
  let totalColumns := (columns self + numOptions)%Q in
  let totalRows := (rows self + numOptions)%Q in
  JS.strip_whitespace
    (newline
     +:+ "            grid-template-columns: repeat("
     +:+ JS.toString totalColumns +:+ ", 1fr);" +:+ newline
     +:+ "            grid-template-rows: repeat("
     +:+ JS.toString totalRows +:+ ", 1fr);" +:+ newline
     +:+ "            width: " +:+ JS.toString (totalColumns * size self)%Q
     +:+ "px;" +:+ newline
     +:+ "            height: " +:+ JS.toString (totalRows * size self)%Q
     +:+ "px;" +:+ newline
     +:+ "        ").

(** [get puzzleShapeStyle()] *)
Definition puzzleShapeStyle (self : Container) : string :=
  JS.strip_whitespace
    (newline
     +:+ "            width: " +:+ JS.toString (size self) +:+ "px;" +:+ newline
     +:+ "            height: " +:+ JS.toString (size self) +:+ "px;" +:+ newline
     +:+ "        ").

(** A write to a field of the object a reference points to. *)
Definition update_piece (r : ref) (f : PuzzlePiece -> PuzzlePiece)
    : M Container unit :=
  update_this (fun c => with_pieces (alter f r (pieces c)) c).

Definition checkValidity (self : Container) : bool :=
  negb (existsb
          (fun p =>
             negb (bool_decide
                     (Sel (PuzzlePiece.value p) = PuzzlePiece.selectedValue p)))
          (pieces self)).

(** The body of the loop of [_generateHints], at one [coord]. *)
Definition hint_at (self : Container) (puzzleTally : PuzzleTally)
    (isRow : bool) (shape : Shape) (index : nat) (coord : JS.number)
    : PuzzleHint :=
  let '(valueCount, selectedCount, coordinates) :=
    if isRow then
      (getRowTally puzzleTally coord shape,
       getValidRowTally puzzleTally coord shape,
       {| column := JS.of_nat index; row := coord |})
    else
      (getColumnValueCount puzzleTally coord shape,
       getColumnSelectedCount puzzleTally coord shape,
       {| column := coord; row := JS.of_nat index |}) in
  let fill :=
    if (valueCount =? selectedCount)%nat && enableAssist self
    then COMPLETE_HINT else INCOMPLETE_HINT in
  let key := stringifyCoordinates coordinates in
  let style := computeGridItemStyle (size self) coordinates 1%Q 1%Q in
  {| PuzzleHint.content := valueCount;
     PuzzleHint.coordinates := coordinates;
     PuzzleHint.fill := fill;
     PuzzleHint.key := key;
     PuzzleHint.shape := shape;
     PuzzleHint.style := style |}.

(** [for (let coord = start; coord < total; coord += 1)]: [fuel] bounds
    the number of turns, and the loop leaves through its test with the
    fuel [_generateHints] gives it ([Assisted_generateHints_for_fuel]
    below). *)
Fixpoint _generateHints_for (self : Container) (puzzleTally : PuzzleTally)
    (isRow : bool) (shape : Shape) (index : nat)
    (fuel : nat) (total coord : JS.number) (hints : list PuzzleHint)
    : list PuzzleHint :=
  match fuel with
  | O => hints
  | S fuel' =>
      if JS.ltb coord total then
        let hint := hint_at self puzzleTally isRow shape index coord in
        _generateHints_for self puzzleTally isRow shape index
          fuel' total (coord + 1)%Q (hints ++ [hint])
      else hints
  end.

Definition _generateHints (self : Container)
    (total start : JS.number) (isRow : bool) : list PuzzleHint :=
  let puzzleTally := new_PuzzleTally (pieces self) in
  forEach_indexed 0 SHAPES
    (fun shape index hints =>
       _generateHints_for self puzzleTally isRow shape index
         (JS.turns start total) total start hints)
    [].

Definition generateRowHints (self : Container) : list PuzzleHint :=
  let total := (rows self + SHAPES_length)%Q in
  let start := SHAPES_length in
  let isRow := true in
  _generateHints self total start isRow.

Definition generateColumnHints (self : Container) : list PuzzleHint :=
  let total := (columns self + SHAPES_length)%Q in
  let start := SHAPES_length in
  let isRow := false in
  _generateHints self total start isRow.

Definition generateHints : M Container unit :=
  update_this
    (fun self =>
       with_hints (generateColumnHints self ++ generateRowHints self) self).

(** The body of the loop of [_generatePieces] at one [index], given the
    two values drawn from [Math.random()]. *)
Definition piece_at (self : Container) (index : JS.number)
    (random1 random2 : JS.number) : PuzzlePiece :=
  let coordinates :=
    {| column := (JS.rem index (columns self) + SHAPES_length)%Q;
       row := (JS.Math_floor (index / columns self) + SHAPES_length)%Q |} in
  let key := stringifyCoordinates coordinates in
  let style := computeGridItemStyle (size self) coordinates 1%Q 1%Q in
  let revealed := JS.ltb REVEAL_PROBABILITY random1 in
  let value :=
    JS.at_index SHAPES (JS.Math_floor (random2 * SHAPES_length)%Q) in
  let selectedValue := if revealed then Sel value else Empty in
  let fill := if revealed then REVEALED_FILL else SELECTED_FILL in
  {| PuzzlePiece.coordinates := coordinates;
     PuzzlePiece.fill := fill;
     PuzzlePiece.key := key;
     PuzzlePiece.revealed := revealed;
     PuzzlePiece.selectedValue := selectedValue;
     PuzzlePiece.style := style;
     PuzzlePiece.value := value |}.

(** [for (let index = 0; index < count; index += 1)]: [fuel] bounds the
    number of turns, and the loop leaves through its test with the fuel
    [_generatePieces] gives it ([Assisted_generatePieces_for_fuel]
    below). *)
Fixpoint _generatePieces_for (fuel : nat) (count index : JS.number)
    (pieces : list PuzzlePiece) : M Container (list PuzzlePiece) :=
  match fuel with
  | O => ret pieces
  | S fuel' =>
      if JS.ltb index count then
        let* self := get_this in
        let* random1 := Math_random in
        let* random2 := Math_random in
        let piece := piece_at self index random1 random2 in
        _generatePieces_for fuel' count (index + 1)%Q (pieces ++ [piece])
      else ret pieces
  end.

Definition _generatePieces : M Container (list PuzzlePiece) :=
  let* self := get_this in
  let count := (columns self * rows self)%Q in
  _generatePieces_for (JS.turns 0%Q count) count 0%Q [].

Definition generatePieces : M Container unit :=
  let* pieces := _generatePieces in
  update_this (with_pieces pieces).

Definition reset : M Container unit :=
  let* self := get_this in
  forEach (filter_refs (fun p => negb (PuzzlePiece.revealed p)) (pieces self))
    (fun piece => update_piece piece (PuzzlePiece.set_selectedValue Empty)) >>
  update_this (fun self => with_pieces (pieces self) self) >>
  let* self := get_this in
  if enableAssist self then generateHints else ret tt.

Definition new : M Container unit :=
  generatePieces >> generateHints.

(** [handleClick(event)], with [uid] for [event.target.uid]. *)
Definition handleClick (uid : string) : M Container unit :=
  let* self := get_this in
  match find (fun p => String.eqb (PuzzlePiece.key p) uid) (pieces self) with
  | None =>
      (* [piece] is [undefined]: the destructuring raises *)
      throw JS.TypeError
  | Some (piece, p) =>
      let selectedValue := PuzzlePiece.selectedValue p in
      let index := JS.indexOf selectedValue SELECTABLE_VALUES in
      let nextIndex := Z.rem (index + 1) (Z.of_nat (length SELECTABLE_VALUES)) in
      update_piece piece
        (PuzzlePiece.set_selectedValue
           (JS.at_index SELECTABLE_VALUES (JS.of_int nextIndex))) >>
      update_this (fun self => with_pieces (pieces self) self) >>
      let* self := get_this in
      if enableAssist self then generateHints else ret tt
  end.

Definition handleNewClick : M Container unit := new.

Definition handleResetClick : M Container unit := reset.

Definition handleAssistClick : M Container unit :=
  update_this (fun self => with_enableAssist (negb (enableAssist self)) self) >>
  generateHints.

Definition connectedCallback : M Container unit :=
  generatePieces >> generateHints.

End Assisted.


(** * What the two revisions without assist mode have in common

    Their text agrees word for word on the tally, the hints and the
    generation of pieces (one of them writes [Container.SHAPES] and a
    static [getRandomShape], the other a global [SHAPES] and the same
    expression in line); they differ in [handleClick]. *)

Module Unassisted.

Module PuzzleHint.
Record t : Type := mk {
  key : string;
  coordinates : Coordinates;
  content : nat;
  style : string;
  shape : Shape
}.
End PuzzleHint.

Abbreviation PuzzleHint := PuzzleHint.t.

Definition SHAPES : list Shape := [circle; square; triangle].

Definition SHAPES_length : JS.number := JS.of_nat (length SHAPES).

(** ** [class PuzzleTally] *)

Record PuzzleTally : Type := new_PuzzleTally {
  tally_pieces : list PuzzlePiece
}.

Definition getTally (self : PuzzleTally)
    (columnOrRow : Axis) (columnOrRowNumber : JS.number) (shape : Shape) : nat :=
  let filtered :=
    List.filter
      (fun p =>
         JS.eqb columnOrRowNumber
                (coordinate_of columnOrRow (PuzzlePiece.coordinates p))
         && bool_decide (shape = PuzzlePiece.value p))
      (tally_pieces self) in
  length filtered.

Definition getColumnTally (self : PuzzleTally)
    (columnNumber : JS.number) (shape : Shape) : nat :=
  getTally self Column columnNumber shape.

Definition getRowTally (self : PuzzleTally)
    (rowNumber : JS.number) (shape : Shape) : nat :=
  getTally self Row rowNumber shape.

(** ** [class Container] *)

Record Container : Type := mkContainer {
  _columns : JS.number;
  _rows : JS.number;
  _size : JS.number;
  hints : list PuzzleHint;
  pieces : list PuzzlePiece
}.

Definition initial : Container :=
  {| _columns := JS.of_int 3; _rows := JS.of_int 3; _size := JS.of_int 70;
     hints := []; pieces := [] |}.

Definition with_columns (n : JS.number) (c : Container) : Container :=
  {| _columns := n; _rows := _rows c; _size := _size c;
     hints := hints c; pieces := pieces c |}.

Definition with_rows (n : JS.number) (c : Container) : Container :=
  {| _columns := _columns c; _rows := n; _size := _size c;
     hints := hints c; pieces := pieces c |}.

Definition with_size (n : JS.number) (c : Container) : Container :=
  {| _columns := _columns c; _rows := _rows c; _size := n;
     hints := hints c; pieces := pieces c |}.

Definition with_hints (h : list PuzzleHint) (c : Container) : Container :=
  {| _columns := _columns c; _rows := _rows c; _size := _size c;
     hints := h; pieces := pieces c |}.

Definition with_pieces (p : list PuzzlePiece) (c : Container) : Container :=
  {| _columns := _columns c; _rows := _rows c; _size := _size c;
     hints := hints c; pieces := p |}.

Definition columns (self : Container) : JS.number := _columns self.
Definition rows (self : Container) : JS.number := _rows self.
Definition size (self : Container) : JS.number := _size self.

Definition set_columns (val : JS.number) : M Container unit :=
  update_this (with_columns (JS.Number val)).

Definition set_rows (val : JS.number) : M Container unit :=
  update_this (with_rows (JS.Number val)).

Definition set_size (val : JS.number) : M Container unit :=
  update_this (with_size (JS.Number val)).

(** [get gridContainerStyle()] *)
Definition gridContainerStyle (self : Container) : string :=
  let numOptions := SHAPES_length in
  let totalColumns := (columns self + numOptions)%Q in
  let totalRows := (rows self + numOptions)%Q in
  JS.strip_whitespace
    (newline
     +:+ "            grid-template-columns: repeat("
     +:+ JS.toString totalColumns +:+ ", 1fr);" +:+ newline
     +:+ "            grid-template-rows: repeat("
     +:+ JS.toString totalRows +:+ ", 1fr);" +:+ newline
     +:+ "            width: " +:+ JS.toString (totalColumns * size self)%Q
     +:+ "px;" +:+ newline
     +:+ "            height: " +:+ JS.toString (totalRows * size self)%Q
     +:+ "px;" +:+ newline
     +:+ "        ").

(** [get puzzleShapeStyle()] *)
Definition puzzleShapeStyle (self : Container) : string :=
  JS.strip_whitespace
    (newline
     +:+ "            width: " +:+ JS.toString (size self) +:+ "px;" +:+ newline
     +:+ "            height: " +:+ JS.toString (size self) +:+ "px;" +:+ newline
     +:+ "        ").

Definition update_piece (r : ref) (f : PuzzlePiece -> PuzzlePiece)
    : M Container unit :=
  update_this (fun c => with_pieces (alter f r (pieces c)) c).

Definition checkValidity (self : Container) : bool :=
  negb (existsb
          (fun p =>
             negb (bool_decide
                     (Sel (PuzzlePiece.value p) = PuzzlePiece.selectedValue p)))
          (pieces self)).

(** [getRandomShape()], given the value drawn from [Math.random()]. *)
Definition getRandomShape (random : JS.number) : Shape :=
  let index := JS.Math_floor (random * SHAPES_length)%Q in
  JS.at_index SHAPES index.

Definition piece_at (self : Container) (index : JS.number)
    (random1 random2 : JS.number) : PuzzlePiece :=
  let coordinates :=
    {| column := (JS.rem index (columns self) + SHAPES_length)%Q;
       row := (JS.Math_floor (index / columns self) + SHAPES_length)%Q |} in
  let key := stringifyCoordinates coordinates in
  let style := computeGridItemStyle (size self) coordinates 1%Q 1%Q in
  let revealed := JS.ltb REVEAL_PROBABILITY random1 in
  let value := getRandomShape random2 in
  let selectedValue := if revealed then Sel value else Empty in
  let fill := if revealed then "#333" else "rgb(0 112 210)" in
  {| PuzzlePiece.coordinates := coordinates;
     PuzzlePiece.fill := fill;
     PuzzlePiece.key := key;
     PuzzlePiece.revealed := revealed;
     PuzzlePiece.selectedValue := selectedValue;
     PuzzlePiece.style := style;
     PuzzlePiece.value := value |}.

Fixpoint _generatePieces_for (fuel : nat) (count index : JS.number)
    (pieces : list PuzzlePiece) : M Container (list PuzzlePiece) :=
  match fuel with
  | O => ret pieces
  | S fuel' =>
      if JS.ltb index count then
        let* self := get_this in
        let* random1 := Math_random in
        let* random2 := Math_random in
        let piece := piece_at self index random1 random2 in
        _generatePieces_for fuel' count (index + 1)%Q (pieces ++ [piece])
      else ret pieces
  end.

Definition _generatePieces : M Container (list PuzzlePiece) :=
  let* self := get_this in
  let count := (columns self * rows self)%Q in
  _generatePieces_for (JS.turns 0%Q count) count 0%Q [].

Definition hint_at (self : Container) (tally : PuzzleTally)
    (isRow : bool) (shape : Shape) (index : nat) (coord : JS.number)
    : PuzzleHint :=
  let '(coordinates, content) :=
    if isRow then
      ({| column := JS.of_nat index; row := coord |},
       getRowTally tally coord shape)
    else
      ({| column := coord; row := JS.of_nat index |},
       getColumnTally tally coord shape) in
  let key := stringifyCoordinates coordinates in
  let style := computeGridItemStyle (size self) coordinates 1%Q 1%Q in
  {| PuzzleHint.content := content;
     PuzzleHint.coordinates := coordinates;
     PuzzleHint.key := key;
     PuzzleHint.shape := shape;
     PuzzleHint.style := style |}.

Fixpoint _generateHints_for (self : Container) (tally : PuzzleTally)
    (isRow : bool) (shape : Shape) (index : nat)
    (fuel : nat) (total coord : JS.number) (hints : list PuzzleHint)
    : list PuzzleHint :=
  match fuel with
  | O => hints
  | S fuel' =>
      if JS.ltb coord total then
        let hint := hint_at self tally isRow shape index coord in
        _generateHints_for self tally isRow shape index
          fuel' total (coord + 1)%Q (hints ++ [hint])
      else hints
  end.

Definition _generateHints (self : Container)
    (total start : JS.number) (isRow : bool) : list PuzzleHint :=
  let tally := new_PuzzleTally (pieces self) in
  forEach_indexed 0 SHAPES
    (fun shape index hints =>
       _generateHints_for self tally isRow shape index
         (JS.turns start total) total start hints)
    [].

Definition generateRowHints (self : Container) : list PuzzleHint :=
  let total := (rows self + SHAPES_length)%Q in
  let start := SHAPES_length in
  let isRow := true in
  _generateHints self total start isRow.

Definition generateColumnHints (self : Container) : list PuzzleHint :=
  let total := (columns self + SHAPES_length)%Q in
  let start := SHAPES_length in
  let isRow := false in
  _generateHints self total start isRow.

Definition generateHints : M Container unit :=
  update_this
    (fun self =>
       with_hints (generateColumnHints self ++ generateRowHints self) self).

Definition generatePieces : M Container unit :=
  let* pieces := _generatePieces in
  update_this (with_pieces pieces).

Definition connectedCallback : M Container unit :=
  generatePieces >> generateHints.

End Unassisted.

(** * The revision whose clicks rotate through the shapes *)

Module Rotating.
Export Unassisted.

Definition handleClick (uid : string) : M Container unit :=
  let* self := get_this in
  match find (fun p => String.eqb (PuzzlePiece.key p) uid) (pieces self) with
  | None =>
      (* [piece] is [undefined]: the destructuring raises *)
      throw JS.TypeError
  | Some (piece, p) =>
      if PuzzlePiece.revealed p then ret tt
      else
        (* Initial click selects first shape and subsequent clicks rotate
           through shapes. *)
        match PuzzlePiece.selectedValue p with
        | Empty =>
            update_piece piece
              (PuzzlePiece.set_selectedValue (Sel (JS.at_index SHAPES 0%Q)))
        | Sel selectedValue =>
            let index := JS.indexOf selectedValue SHAPES in
            let nextIndex := Z.rem (index + 1) (Z.of_nat (length SHAPES)) in
            update_piece piece
              (PuzzlePiece.set_selectedValue
                 (Sel (JS.at_index SHAPES (JS.of_int nextIndex))))
        end >>
        update_this (fun self => with_pieces (pieces self) self)
  end.

End Rotating.

(** * The revision whose clicks cycle through the selectable values *)

Module Cycling.
Export Unassisted.

Definition SELECTABLE_VALUES : list SelectableValues := Empty :: (Sel <$> SHAPES).

Definition handleClick (uid : string) : M Container unit :=
  let* self := get_this in
  match find (fun p => String.eqb (PuzzlePiece.key p) uid) (pieces self) with
  | None =>
      (* [piece] is [undefined]: the destructuring raises *)
      throw JS.TypeError
  | Some (piece, p) =>
      if PuzzlePiece.revealed p then ret tt
      else
        let selectedValue := PuzzlePiece.selectedValue p in
        let index := JS.indexOf selectedValue SELECTABLE_VALUES in
        let nextIndex :=
          Z.rem (index + 1) (Z.of_nat (length SELECTABLE_VALUES)) in
        update_piece piece
          (PuzzlePiece.set_selectedValue
             (JS.at_index SELECTABLE_VALUES (JS.of_int nextIndex))) >>
        update_this (fun self => with_pieces (pieces self) self)
  end.

End Cycling.

(** * The shape component

    [class Shape]: [value] has no initialiser, so it is [undefined]
    until the template assigns it. *)

Module ShapeComponent.

Record t : Type := mk {
  value : option Shape;
  fill : string
}.

(** The field initialisers of the class. *)
Definition initial : t := {| value := None; fill := "#000" |}.

(** [get isCircle()], [get isSquare()], [get isTriangle()] *)
Definition isCircle (self : t) : bool := bool_decide (value self = Some circle).

Definition isSquare (self : t) : bool := bool_decide (value self = Some square).

Definition isTriangle (self : t) : bool :=
  bool_decide (value self = Some triangle).

End ShapeComponent.

(** * The vocabulary of the statements

    What the theorems below say about the program is said with the
    definitions of this part: the grid of cells the generators fill, the
    tallies of the specification, the orders the clicks go through, and
    the components the examples run on. *)

Module Grid.
Import Assisted.

(** The world after [n] more calls of [Math.random()]. *)
Definition drawn (n : nat) (w : World Container) : World Container :=
  {| this := this w;
     random_source := random_source w;
     random_calls := random_calls w + n |}.

(** The piece the loop started in world [w] makes at its turn [i]. *)
Definition nth_piece (w : World Container) (i : nat) : PuzzlePiece :=
  piece_at (this w) (JS.of_nat i)
    (JS.draw_value (random_source w (random_calls w + 2 * i)))
    (JS.draw_value (random_source w (random_calls w + 2 * i + 1))).

(** The cell of the linear index [i] in a grid with [c] columns. *)
Definition cell_of_index (c i : Z) : Coordinates :=
  {| column := JS.of_int (i mod c + 3); row := JS.of_int (i / c + 3) |}.

(** [SHAPES.length], the width of the band kept for the hints. *)
Definition numShapes : Z := Z.of_nat (length SHAPES).

(** A source of random values for the examples: 3/4, 1/4, 3/4, ... *)
Definition example_source (n : nat) : JS.draw :=
  if Nat.even n then JS.Draw (3 # 4)%Q eq_refl else JS.Draw (1 # 4)%Q eq_refl.

(** A component with [columns] 2 and [rows] 3, before [connectedCallback]. *)
Definition example_world : World Container :=
  {| this := with_columns (JS.of_int 2) (with_rows (JS.of_int 3) initial);
     random_source := example_source;
     random_calls := 0 |}.

(** The hints of one shape along a range of integer line coordinates. *)
Definition line_hints (self : Container) (isRow : bool)
    (shape : Shape) (index : nat) (start n : Z) : list PuzzleHint :=
  (fun k => hint_at self (new_PuzzleTally (pieces self)) isRow shape index
                    (JS.of_int k)) <$> seqZ start n.

(** Where the hints of one axis go and what they count, in the order of
    the specification: for each shape at index [i], one hint per line
    coordinate [k] in [numShapes, numShapes + n). *)
Definition hint_cells (isRow : bool) (n : Z) : list (Coordinates * Shape) :=
  mjoin (imap
           (fun i shape =>
              (fun k =>
                 (if isRow
                  then {| column := JS.of_nat i; row := JS.of_int k |}
                  else {| column := JS.of_int k; row := JS.of_nat i |},
                  shape)) <$> seqZ numShapes n)
           SHAPES).

Definition hint_cell (h : PuzzleHint) : Coordinates * Shape :=
  (PuzzleHint.coordinates h, PuzzleHint.shape h).

(** The key of the cell with the integer coordinates [cell]. *)
Definition key_of_cell (cell : Z * Z) : string :=
  stringifyCoordinates
    {| column := JS.of_int (fst cell); row := JS.of_int (snd cell) |}.




(** The cells of the pieces of a grid with [c] columns and [r] rows. *)
Definition piece_cells (c r : Z) : list (Z * Z) :=
  (fun i => (i mod c + 3, i / c + 3)) <$> seqZ 0 (c * r).


End Grid.

(** [avoids c s]: the character [c] does not occur in [s]. *)
Fixpoint avoids (c : ascii) (s : string) : Prop :=
  match s with
  | EmptyString => True
  | String c' s' => c' <> c /\ avoids c s'
  end.

Definition separator (c : ascii) : Prop :=
  c <> "-"%char /\ forall d : N, pretty_N_char d <> c.

(** The tally of the specification: the number of pieces on the line
    [coordinate] of [axis] whose ground-truth value is [shape]. *)
Fixpoint tally (pieces : list PuzzlePiece)
    (axis : Axis) (coordinate : JS.number) (shape : Shape) : nat :=
  match pieces with
  | [] => 0
  | p :: pieces' =>
      (if Qeq_dec (coordinate_of axis (PuzzlePiece.coordinates p)) coordinate
       then if decide (PuzzlePiece.value p = shape) then 1 else 0
       else 0)
      + tally pieces' axis coordinate shape
  end%nat.

(** Its second form: the number of pieces on the line whose selected
    value is [shape]. *)
Fixpoint selected_tally (pieces : list PuzzlePiece)
    (axis : Axis) (coordinate : JS.number) (shape : Shape) : nat :=
  match pieces with
  | [] => 0
  | p :: pieces' =>
      (if Qeq_dec (coordinate_of axis (PuzzlePiece.coordinates p)) coordinate
       then if decide (PuzzlePiece.selectedValue p = Sel shape) then 1 else 0
       else 0)
      + selected_tally pieces' axis coordinate shape
  end%nat.

(** The axis a hint counts along. *)
Definition axis_of (isRow : bool) : Axis := if isRow then Row else Column.

(** Selecting other values on the pieces. *)
Definition reselect (choice : PuzzlePiece -> SelectableValues)
    (pieces : list PuzzlePiece) : list PuzzlePiece :=
  (fun p => PuzzlePiece.set_selectedValue (choice p) p) <$> pieces.

(** What the fill of a hint along [isRow] says in the component [self]. *)
Definition fill_rule (self : Assisted.Container) (isRow : bool)
    (h : Assisted.PuzzleHint) : Prop :=
  let axis := axis_of isRow in
  let line := coordinate_of axis (Assisted.PuzzleHint.coordinates h) in
  let shape := Assisted.PuzzleHint.shape h in
  (Assisted.PuzzleHint.fill h = Assisted.COMPLETE_HINT
   <-> tally (Assisted.pieces self) axis line shape
       = selected_tally (Assisted.pieces self) axis line shape
       /\ Assisted.enableAssist self = true) /\
  (Assisted.PuzzleHint.fill h <> Assisted.COMPLETE_HINT
   -> Assisted.PuzzleHint.fill h = Assisted.INCOMPLETE_HINT) /\
  (Assisted.enableAssist self = false
   -> Assisted.PuzzleHint.fill h = Assisted.INCOMPLETE_HINT).

(** What [_generatePieces] gives the selected value of a piece. *)
Definition fresh_selection (p : PuzzlePiece) : Prop :=
  PuzzlePiece.selectedValue p
  = if PuzzlePiece.revealed p then Sel (PuzzlePiece.value p) else Empty.

(** What [reset] does to one piece. *)
Definition reset_piece (p : PuzzlePiece) : PuzzlePiece :=
  if PuzzlePiece.revealed p then p else PuzzlePiece.set_selectedValue Empty p.

(** The test [handleClick] gives to [find]. *)
Definition has_key (uid : string) (p : PuzzlePiece) : bool :=
  String.eqb (PuzzlePiece.key p) uid.

(** A component of the revision with assist mode after
    [connectedCallback]: six pieces, fifteen hints. *)
Definition started_world : World Assisted.Container :=
  snd (Assisted.connectedCallback Grid.example_world).

(** A random source whose every value is 1/4: no piece is revealed and
    every value is the first shape. *)
Definition hidden_source (n : nat) : JS.draw := JS.Draw (1 # 4)%Q eq_refl.

(** A component of the revisions without assist mode with one column
    and one row, after [connectedCallback]: its one piece, at [3,3], is
    not revealed and its value is the circle. *)
Definition single_hidden_world : World Unassisted.Container :=
  snd (Unassisted.connectedCallback
         {| this := Unassisted.with_columns (JS.of_int 1)
                      (Unassisted.with_rows (JS.of_int 1) Unassisted.initial);
            random_source := hidden_source;
            random_calls := 0 |}).

(** The cyclic order [empty, shape1, ..., shapeN], one step. *)
Definition next_in_cycle (v : SelectableValues) : SelectableValues :=
  match v with
  | Empty => Sel circle
  | Sel circle => Sel square
  | Sel square => Sel triangle
  | Sel triangle => Empty
  end.

(** The rotation through the shapes alone, entered from empty. *)
Definition next_in_rotation (v : SelectableValues) : SelectableValues :=
  match v with
  | Empty => Sel circle
  | Sel circle => Sel square
  | Sel square => Sel triangle
  | Sel triangle => Sel circle
  end.

(** [n] clicks on the same key, one after the other. *)
Fixpoint clicks {C} (handleClick : string -> M C unit) (n : nat) (uid : string)
    : M C unit :=
  match n with
  | O => ret tt
  | S n' => handleClick uid >> clicks handleClick n' uid
  end.

(** The world with other pieces in the component. *)
Definition set_world_pieces (pieces : list PuzzlePiece)
    (w : World Unassisted.Container) : World Unassisted.Container :=
  {| this := Unassisted.with_pieces pieces (this w);
     random_source := random_source w;
     random_calls := random_calls w |}.

(** The world after a write of the selected value [v] through [piece]. *)
Definition select (piece : ref) (v : SelectableValues)
    (w : World Unassisted.Container) : World Unassisted.Container :=
  set_world_pieces
    (alter (PuzzlePiece.set_selectedValue v) piece (Unassisted.pieces (this w))) w.

(** What [n] clicks leave, for a handler that writes [next] of the
    selected value of an unrevealed piece. *)
Definition after_clicks (piece : ref) (p : PuzzlePiece) (v : SelectableValues)
    (w w' : World Unassisted.Container) : Prop :=
  Unassisted.pieces (this w') !! piece
  = Some (PuzzlePiece.set_selectedValue v p) /\
  (forall j, j <> piece ->
             Unassisted.pieces (this w') !! j = Unassisted.pieces (this w) !! j) /\
  Unassisted.hints (this w') = Unassisted.hints (this w).

(** The one piece of [single_hidden_world]. *)
Definition single_hidden_piece : PuzzlePiece :=
  Unassisted.piece_at (this single_hidden_world) 0%Q (1 # 4)%Q (1 # 4)%Q.

(** The number of pieces on the line [coordinate] of [axis]. *)
Definition line_length (pieces : list PuzzlePiece)
    (axis : Axis) (coordinate : JS.number) : nat :=
  length
    (List.filter
       (fun p => JS.eqb coordinate
                        (coordinate_of axis (PuzzlePiece.coordinates p)))
       pieces).

(** Two collections with the same cells and the same values, whatever
    is selected on them. *)
Definition same_cells (pieces pieces' : list PuzzlePiece) : Prop :=
  Forall2
    (fun p q =>
       PuzzlePiece.coordinates p = PuzzlePiece.coordinates q /\
       PuzzlePiece.value p = PuzzlePiece.value q)
    pieces pieces'.

(** The hints the component shows are those of its pieces, its
    dimensions and its assist mode. *)
Definition hints_current (self : Assisted.Container) : Prop :=
  Assisted.hints self
  = Assisted.generateColumnHints self ++ Assisted.generateRowHints self.

(** The fill of a piece says whether it is revealed. *)
Definition fill_consistent (p : PuzzlePiece) : Prop :=
  PuzzlePiece.fill p
  = if PuzzlePiece.revealed p
    then Assisted.REVEALED_FILL else Assisted.SELECTED_FILL.

(** The component after [generateHints] when assist mode is on, as it
    is otherwise. *)
Definition refresh (self : Assisted.Container) : Assisted.Container :=
  if Assisted.enableAssist self
  then Assisted.with_hints
         (Assisted.generateColumnHints self ++ Assisted.generateRowHints self)
         self
  else self.

(** The world after a click has written [v] through [piece], in the
    revision with assist mode. *)
Definition assisted_select (piece : ref) (v : SelectableValues)
    (w : World Assisted.Container) : World Assisted.Container :=
  {| this :=
       refresh
         (Assisted.with_pieces
            (alter (PuzzlePiece.set_selectedValue v) piece
                   (Assisted.pieces (this w)))
            (this w));
     random_source := random_source w;
     random_calls := random_calls w |}.

(** A random source whose every value is 3/4: every piece is revealed
    and every value is the third shape. *)
Definition revealed_source (n : nat) : JS.draw := JS.Draw (3 # 4)%Q eq_refl.

(** A component of the revision with assist mode, two columns and three
    rows, after [connectedCallback] on that source: a valid puzzle. *)
Definition revealed_world : World Assisted.Container :=
  snd (Assisted.connectedCallback
         {| this := this Grid.example_world;
            random_source := revealed_source;
            random_calls := 0 |}).

(** Its first piece, at [3,3]. *)
Definition revealed_piece : PuzzlePiece :=
  Assisted.piece_at (this revealed_world) 0%Q (3 # 4)%Q (3 # 4)%Q.

(** An unrevealed piece shows nothing selected. *)
Definition unrevealed_empty (p : PuzzlePiece) : Prop :=
  PuzzlePiece.revealed p = false -> PuzzlePiece.selectedValue p = Empty.

(** A sequence of clicks, one key after the other, as long as none
    raises. *)
Definition click_all {C} (handleClick : string -> M C unit)
    (uids : list string) : M C unit :=
  forEach uids handleClick.

(** What clicks may change of a piece in the revisions that lock the
    revealed pieces: the selected value of an unrevealed piece. *)
Definition locked_frame (p p' : PuzzlePiece) : Prop :=
  (PuzzlePiece.revealed p = true -> p' = p) /\
  PuzzlePiece.key p' = PuzzlePiece.key p /\
  PuzzlePiece.coordinates p' = PuzzlePiece.coordinates p /\
  PuzzlePiece.value p' = PuzzlePiece.value p /\
  PuzzlePiece.revealed p' = PuzzlePiece.revealed p /\
  PuzzlePiece.fill p' = PuzzlePiece.fill p /\
  PuzzlePiece.style p' = PuzzlePiece.style p.

(** Two pieces that differ at most in their fill. *)
Definition same_piece (p q : PuzzlePiece) : Prop :=
  PuzzlePiece.key p = PuzzlePiece.key q /\
  PuzzlePiece.coordinates p = PuzzlePiece.coordinates q /\
  PuzzlePiece.revealed p = PuzzlePiece.revealed q /\
  PuzzlePiece.style p = PuzzlePiece.style q /\
  PuzzlePiece.value p = PuzzlePiece.value q /\
  PuzzlePiece.selectedValue p = PuzzlePiece.selectedValue q.

(** A hint of the revision with assist mode and a hint of the others
    that differ at most in the fill the latter does not have. *)
Definition same_hint (h : Assisted.PuzzleHint) (h' : Unassisted.PuzzleHint)
    : Prop :=
  Assisted.PuzzleHint.key h = Unassisted.PuzzleHint.key h' /\
  Assisted.PuzzleHint.coordinates h = Unassisted.PuzzleHint.coordinates h' /\
  Assisted.PuzzleHint.content h = Unassisted.PuzzleHint.content h' /\
  Assisted.PuzzleHint.shape h = Unassisted.PuzzleHint.shape h' /\
  Assisted.PuzzleHint.style h = Unassisted.PuzzleHint.style h'.

(** Two components of different revisions set up alike: the same
    dimensions and size, the same values to come from [Math.random()]. *)
Definition same_setup (wa : World Assisted.Container)
    (wu : World Unassisted.Container) : Prop :=
  Assisted.columns (this wa) = Unassisted.columns (this wu) /\
  Assisted.rows (this wa) = Unassisted.rows (this wu) /\
  Assisted.size (this wa) = Unassisted.size (this wu) /\
  (forall n, random_source wa n = random_source wu n) /\
  random_calls wa = random_calls wu.

(** The component of the revisions without assist mode set up as
    [Grid.example_world]. *)
Definition unassisted_example_world : World Unassisted.Container :=
  {| this := Unassisted.with_columns (JS.of_int 2)
               (Unassisted.with_rows (JS.of_int 3) Unassisted.initial);
     random_source := Grid.example_source;
     random_calls := 0 |}.

(** What the fill of a hint says right after generation, with assist
    mode on: the hint is complete exactly when every piece of its shape
    on its line is revealed. *)
Definition fresh_fill_rule (self : Assisted.Container) (isRow : bool)
    (h : Assisted.PuzzleHint) : Prop :=
  Assisted.PuzzleHint.fill h = Assisted.COMPLETE_HINT
  <-> forall p : PuzzlePiece,
        p ∈ Assisted.pieces self ->
        (coordinate_of (axis_of isRow) (PuzzlePiece.coordinates p)
         == coordinate_of (axis_of isRow) (Assisted.PuzzleHint.coordinates h))%Q ->
        PuzzlePiece.value p = Assisted.PuzzleHint.shape h ->
        PuzzlePiece.revealed p = true.

(** The example component with assist mode on. *)
Definition assisting_world : World Assisted.Container :=
  {| this := Assisted.with_enableAssist true (this Grid.example_world);
     random_source := Grid.example_source;
     random_calls := 0 |}.

(** [Number.MAX_SAFE_INTEGER] and [Number.isSafeInteger] on an integer.
    Up to this bound every integer is a number of the program, a sum
    or a product of two of them that stays within the bound is the
    exact one, and a template literal prints all its digits; beyond it
    the program rounds. *)
Definition MAX_SAFE_INTEGER : Z := 2 ^ 53 - 1.

Definition isSafeInteger (z : Z) : Prop := Z.abs z <= MAX_SAFE_INTEGER.

(** A value of [Math.random()] that is a multiple of 2^-52.  Its
    product by [SHAPES.length] is exact in the program below 2, and
    above 2 it is rounded to a number that is still between 2 and 3, so
    that the floor of the product is the exact one. *)
Definition multiple_of_2_pow_minus_52 (d : JS.draw) : Prop :=
  (Qnum (JS.draw_value d) * 2 ^ 52) mod QDen (JS.draw_value d) = 0.


(** * Arithmetic of numbers that hold integers *)

Section IntegerNumbers.

Lemma of_int_add (a b : Z) :
  (JS.of_int a + JS.of_int b)%Q = JS.of_int (a + b).
Proof.
  unfold JS.of_int, inject_Z, Qplus; simpl. f_equal. lia.
Qed.

Lemma of_int_mul (a b : Z) :
  (JS.of_int a * JS.of_int b)%Q = JS.of_int (a * b).
Proof. reflexivity. Qed.

Lemma of_int_ltb (a b : Z) :
  JS.ltb (JS.of_int a) (JS.of_int b) = (a <? b).
Proof.
  unfold JS.ltb, JS.of_int; simpl. by rewrite !Z.mul_1_r.
Qed.

Lemma of_int_eqb (a b : Z) :
  JS.eqb (JS.of_int a) (JS.of_int b) = (a =? b).
Proof.
  unfold JS.eqb, Qeq_bool, JS.of_int; simpl. by rewrite !Z.mul_1_r.
Qed.

Lemma of_int_inj (a b : Z) : JS.of_int a = JS.of_int b -> a = b.
Proof. by intros [= ->]. Qed.

Lemma of_int_floor_div (a c : Z) :
  JS.Math_floor (JS.of_int a / JS.of_int c)%Q = JS.of_int (a / c).
Proof.
  unfold JS.Math_floor, JS.of_int. by rewrite <- Zdiv_Qdiv.
Qed.

Lemma of_int_rem (a c : Z) :
  0 <= a -> 0 < c -> JS.rem (JS.of_int a) (JS.of_int c) = JS.of_int (a mod c).
Proof.
  intros Ha Hc. unfold JS.rem, JS.trunc.
  assert (Hnum : (0 <=? Qnum (JS.of_int a / JS.of_int c)%Q) = true).
  { destruct c as [|p|p]; try lia. apply Z.leb_le. simpl. lia. }
  rewrite Hnum. unfold JS.of_int at 3 4. rewrite <- Zdiv_Qdiv.
  unfold JS.of_int, inject_Z, Qminus, Qplus, Qopp, Qmult; simpl.
  f_equal. rewrite Z.mod_eq by lia. lia.
Qed.

Lemma of_int_turns (a b : Z) :
  JS.turns (JS.of_int a) (JS.of_int b) = Z.to_nat (b - a).
Proof.
  unfold JS.turns. f_equal.
  rewrite <- (Qceiling_Z (b - a)). apply Qceiling_comp.
  unfold JS.of_int, Qeq; simpl. lia.
Qed.

End IntegerNumbers.

(** * The number of turns of a [for] loop *)

Section LoopTurns.

Lemma ltb_lt (a b : JS.number) : JS.ltb a b = true <-> (a < b)%Q.
Proof. unfold JS.ltb, Qlt. apply Z.ltb_lt. Qed.

Lemma ltb_ge (a b : JS.number) : JS.ltb a b = false <-> (b <= a)%Q.
Proof. unfold JS.ltb, Qle. apply Z.ltb_ge. Qed.

Lemma Qceiling_unique (x : Q) (z : Z) :
  (inject_Z (z - 1) < x)%Q -> (x <= inject_Z z)%Q -> Qceiling x = z.
Proof.
  intros Hlo Hhi.
  pose proof (Qle_ceiling x) as Hc. pose proof (Qceiling_lt x) as Hc'.
  assert (z - 1 < Qceiling x).
  { rewrite Zlt_Qlt. eapply Qlt_le_trans; eauto. }
  assert (Qceiling x - 1 < z).
  { rewrite Zlt_Qlt. eapply Qlt_le_trans; eauto. }
  lia.
Qed.

Lemma turns_done (index total : JS.number) :
  JS.ltb index total = false -> JS.turns index total = 0%nat.
Proof.
  intros Hge%ltb_ge. unfold JS.turns.
  assert (Qceiling (total - index) <= 0); [|lia].
  rewrite <- (Qceiling_Z 0). apply Qceiling_resp_le.
  change (inject_Z 0) with 0%Q. lra.
Qed.

Lemma turns_step (index total : JS.number) :
  JS.ltb index total = true ->
  JS.turns index total = S (JS.turns (index + 1)%Q total).
Proof.
  intros Hlt%ltb_lt. unfold JS.turns.
  pose proof (Qle_ceiling (total - index)) as Hc.
  pose proof (Qceiling_lt (total - index)) as Hc'.
  set (c := Qceiling (total - index)) in *.
  assert (0 < c).
  { rewrite Zlt_Qlt. change (inject_Z 0) with 0%Q. lra. }
  assert (Qceiling (total - (index + 1)) = c - 1) as ->; [|lia].
  apply Qceiling_unique.
  - replace (c - 1 - 1) with (c - 1 + -1) by lia.
    rewrite inject_Z_plus. change (inject_Z (-1)) with (-1)%Q. lra.
  - replace (c - 1) with (c + -1) by lia.
    rewrite inject_Z_plus. change (inject_Z (-1)) with (-1)%Q. lra.
Qed.

End LoopTurns.

(** * The loops of the generators leave through their test

    The fuel the generators give their loops is the number of turns the
    loop makes: more fuel changes nothing. *)

Section LoopFuel.

Lemma turns_0_ltb (index total : JS.number) :
  JS.turns index total = 0%nat -> JS.ltb index total = false.
Proof.
  intros Hturns. destruct (JS.ltb index total) eqn:Hlt; [|done].
  apply turns_step in Hlt. lia.
Qed.

Lemma turns_S_ltb (index total : JS.number) (n : nat) :
  JS.turns index total = S n ->
  JS.ltb index total = true /\ JS.turns (index + 1)%Q total = n.
Proof.
  intros Hturns. destruct (JS.ltb index total) eqn:Hlt.
  - apply turns_step in Hlt. split; [done|lia].
  - apply turns_done in Hlt. lia.
Qed.

Lemma Assisted_generatePieces_for_fuel (count : JS.number) (extra : nat) :
  forall (n : nat) (index : JS.number) acc (w : World Assisted.Container),
    JS.turns index count = n ->
    Assisted._generatePieces_for (n + extra) count index acc w
    = Assisted._generatePieces_for n count index acc w.
Proof.
  induction n as [|n IH]; intros index acc w Hturns.
  - apply turns_0_ltb in Hturns. destruct extra; [done|].
    cbn [Nat.add Assisted._generatePieces_for]. by rewrite Hturns.
  - apply turns_S_ltb in Hturns as [Hlt Hturns].
    cbn [Nat.add Assisted._generatePieces_for]. rewrite Hlt.
    unfold bind at 1 4, get_this. unfold bind at 1 3, Math_random at 1 3.
    unfold bind at 1 2, Math_random. by apply IH.
Qed.

Lemma Unassisted_generatePieces_for_fuel (count : JS.number) (extra : nat) :
  forall (n : nat) (index : JS.number) acc (w : World Unassisted.Container),
    JS.turns index count = n ->
    Unassisted._generatePieces_for (n + extra) count index acc w
    = Unassisted._generatePieces_for n count index acc w.
Proof.
  induction n as [|n IH]; intros index acc w Hturns.
  - apply turns_0_ltb in Hturns. destruct extra; [done|].
    cbn [Nat.add Unassisted._generatePieces_for]. by rewrite Hturns.
  - apply turns_S_ltb in Hturns as [Hlt Hturns].
    cbn [Nat.add Unassisted._generatePieces_for]. rewrite Hlt.
    unfold bind at 1 4, get_this. unfold bind at 1 3, Math_random at 1 3.
    unfold bind at 1 2, Math_random. by apply IH.
Qed.

Lemma Assisted_generateHints_for_fuel (self : Assisted.Container)
    (tl : Assisted.PuzzleTally) (isRow : bool) (shape : Shape) (index : nat)
    (total : JS.number) (extra : nat) :
  forall (n : nat) (coord : JS.number) acc,
    JS.turns coord total = n ->
    Assisted._generateHints_for self tl isRow shape index (n + extra) total coord acc
    = Assisted._generateHints_for self tl isRow shape index n total coord acc.
Proof.
  induction n as [|n IH]; intros coord acc Hturns.
  - apply turns_0_ltb in Hturns. destruct extra; [done|].
    cbn [Nat.add Assisted._generateHints_for]. by rewrite Hturns.
  - apply turns_S_ltb in Hturns as [Hlt Hturns].
    cbn [Nat.add Assisted._generateHints_for]. rewrite Hlt. by apply IH.
Qed.

Lemma Unassisted_generateHints_for_fuel (self : Unassisted.Container)
    (tl : Unassisted.PuzzleTally) (isRow : bool) (shape : Shape) (index : nat)
    (total : JS.number) (extra : nat) :
  forall (n : nat) (coord : JS.number) acc,
    JS.turns coord total = n ->
    Unassisted._generateHints_for self tl isRow shape index (n + extra) total coord acc
    = Unassisted._generateHints_for self tl isRow shape index n total coord acc.
Proof.
  induction n as [|n IH]; intros coord acc Hturns.
  - apply turns_0_ltb in Hturns. destruct extra; [done|].
    cbn [Nat.add Unassisted._generateHints_for]. by rewrite Hturns.
  - apply turns_S_ltb in Hturns as [Hlt Hturns].
    cbn [Nat.add Unassisted._generateHints_for]. rewrite Hlt. by apply IH.
Qed.

(** The index [getRandomShape] computes from a value of [Math.random()]
    is an index of [SHAPES]. *)
Lemma random_index_in_range (d : JS.draw) :
  0 <= Qfloor (JS.Math_floor (JS.draw_value d * Assisted.SHAPES_length)%Q) < 3.
Proof.
  destruct d as [q Hq]. cbn [JS.draw_value].
  apply andb_true_iff in Hq as [Hlo%Z.leb_le Hhi%Z.ltb_lt].
  unfold JS.Math_floor. rewrite Qfloor_Z.
  change Assisted.SHAPES_length with (inject_Z 3).
  assert (H0 : (0 <= q * inject_Z 3)%Q).
  { unfold Qle; simpl. lia. }
  assert (H3 : (q * inject_Z 3 < inject_Z 3)%Q).
  { unfold Qlt; simpl. lia. }
  split.
  - rewrite <- (Qfloor_Z 0). by apply Qfloor_resp_le.
  - rewrite Zlt_Qlt. eapply Qle_lt_trans; [apply Qfloor_le|done].
Qed.

(** The index a click computes is an index of [SELECTABLE_VALUES], and
    of [SHAPES] in the revision that rotates through the shapes. *)
Lemma next_index_in_range (v : SelectableValues) (s : Shape) :
  0 <= Z.rem (JS.indexOf v Cycling.SELECTABLE_VALUES + 1)
             (Z.of_nat (length Cycling.SELECTABLE_VALUES)) < 4 /\
  0 <= Z.rem (JS.indexOf v Assisted.SELECTABLE_VALUES + 1)
             (Z.of_nat (length Assisted.SELECTABLE_VALUES)) < 4 /\
  0 <= Z.rem (JS.indexOf s Unassisted.SHAPES + 1)
             (Z.of_nat (length Unassisted.SHAPES)) < 3.
Proof. destruct v as [|[]], s; vm_compute; repeat split; discriminate. Qed.

End LoopFuel.

(** * The keys of cells with integer coordinates *)

Section Keys.

Lemma comma_separator : separator ","%char.
Proof.
  split; [discriminate|]. intros d. unfold pretty_N_char.
  repeat case_match; discriminate.
Qed.

Lemma bracket_separator : separator "]"%char.
Proof.
  split; [discriminate|]. intros d. unfold pretty_N_char.
  repeat case_match; discriminate.
Qed.

Lemma pretty_N_go_avoids (c : ascii) (x : N) (s : string) :
  separator c -> avoids c s -> avoids c (pretty_N_go x s).
Proof.
  intros [_ Hc]. revert s.
  induction (N.lt_wf_0 x) as [x _ IH]; intros s Hs.
  destruct (decide (x = 0)%N) as [->|Hx].
  - by rewrite pretty_N_go_0.
  - rewrite pretty_N_go_step by lia.
    apply IH; [apply N.div_lt; lia|]. simpl. split; [apply Hc|done].
Qed.

Lemma pretty_Z_avoids (c : ascii) (z : Z) :
  separator c -> avoids c (pretty z).
Proof.
  intros Hc. pose proof Hc as [Hdash Hdigit].
  assert (HN : forall p : positive, avoids c (pretty p)).
  { intros p. unfold pretty, pretty_positive, pretty, pretty_N.
    case_decide; [lia|]. by apply pretty_N_go_avoids. }
  destruct z as [|p|p]; unfold pretty, pretty_Z.
  - simpl. split; [|done]. apply (Hdigit 0%N).
  - apply HN.
  - simpl. split; [done|]. apply HN.
Qed.

Lemma append_separator_inj (c : ascii) (a a' r r' : string) :
  avoids c a -> avoids c a' ->
  a +:+ String c r = a' +:+ String c r' -> a = a' /\ r = r'.
Proof.
  revert a'. induction a as [|x a IH]; intros [|x' a']; simpl.
  - intros _ _ [= ->]. done.
  - intros _ [Hx' _] [= <- _]. done.
  - intros [Hx _] _ [= -> _]. done.
  - intros [_ Ha] [_ Ha'] [= -> Heq].
    destruct (IH a' Ha Ha' Heq) as [-> ->]. done.
Qed.

Lemma toString_of_int (z : Z) : JS.toString (JS.of_int z) = pretty z.
Proof.
  unfold JS.toString, JS.of_int. rewrite inject_Z_Qred. reflexivity.
Qed.

Lemma stringifyCoordinates_of_int (x y : Z) :
  stringifyCoordinates {| column := JS.of_int x; row := JS.of_int y |}
  = "[" +:+ pretty x +:+ "," +:+ pretty y +:+ "]".
Proof.
  unfold stringifyCoordinates; simpl. by rewrite !toString_of_int.
Qed.

(** Two cells with integer coordinates and the same key are the same
    cell. *)
Lemma stringifyCoordinates_inj (x y x' y' : Z) :
  stringifyCoordinates {| column := JS.of_int x; row := JS.of_int y |}
  = stringifyCoordinates {| column := JS.of_int x'; row := JS.of_int y' |} ->
  x = x' /\ y = y'.
Proof.
  rewrite !stringifyCoordinates_of_int. intros [= Heq].
  apply (append_separator_inj ","%char) in Heq
    as [Hx Hrest]; try (apply pretty_Z_avoids, comma_separator).
  apply (append_separator_inj "]"%char) in Hrest
    as [Hy _]; try (apply pretty_Z_avoids, bracket_separator).
  split; by apply (inj pretty).
Qed.

End Keys.

(** * The revision with assist mode: generation of the pieces *)

Module AssistedPieces.
Import Assisted.
Import Grid.

Lemma of_nat_succ (k : nat) : (JS.of_nat k + 1)%Q = JS.of_nat (S k).
Proof.
  unfold JS.of_nat. change 1%Q with (JS.of_int 1).
  change (inject_Z (Z.of_nat k)) with (JS.of_int (Z.of_nat k)).
  rewrite of_int_add. unfold JS.of_int. f_equal. lia.
Qed.

Lemma _generatePieces_for_integer (w : World Container) (n : nat) :
  forall (fuel k : nat) (acc : list PuzzlePiece),
    (n - k <= fuel)%nat -> (k <= n)%nat ->
    _generatePieces_for fuel (JS.of_nat n) (JS.of_nat k) acc (drawn (2 * k) w)
    = (Return (acc ++ map (nth_piece w) (seq k (n - k))), drawn (2 * n) w).
Proof.
  induction fuel as [|fuel IH]; intros k acc Hfuel Hk.
  - assert (k = n) as -> by lia.
    rewrite Nat.sub_diag, app_nil_r. reflexivity.
  - cbn [_generatePieces_for]. unfold JS.of_nat at 1 2.
    change (inject_Z ?z) with (JS.of_int z). rewrite of_int_ltb.
    destruct (Z.ltb_spec (Z.of_nat k) (Z.of_nat n)) as [Hlt|Hge].
    + unfold bind at 1, get_this at 1. unfold bind at 1, Math_random at 1.
      unfold bind at 1, Math_random at 1. cbn [this random_source random_calls drawn].
      change (JS.of_int (Z.of_nat k)) with (JS.of_nat k).
      rewrite of_nat_succ.
      replace (S (S (random_calls w + 2 * k)))
        with (random_calls w + 2 * S k)%nat by lia.
      change {| this := this w; random_source := random_source w;
                random_calls := random_calls w + 2 * S k |}
        with (drawn (2 * S k) w).
      rewrite IH by lia.
      replace (n - k)%nat with (S (n - S k)) by lia.
      cbn [seq map]. rewrite <- app_assoc. cbn [app].
      unfold nth_piece at 2.
      replace (random_calls w + 2 * k + 1)%nat
        with (S (random_calls w + 2 * k)) by lia.
      reflexivity.
    + assert (k = n) as -> by lia.
      rewrite Nat.sub_diag, app_nil_r. reflexivity.
Qed.

Lemma drawn_0 (w : World Container) : drawn 0 w = w.
Proof. destruct w. unfold drawn; simpl. f_equal. lia. Qed.

(** What [_generatePieces] returns for integer dimensions. *)
Lemma _generatePieces_integer (w : World Container) (c r : Z) :
  0 <= c * r ->
  columns (this w) = JS.of_int c -> rows (this w) = JS.of_int r ->
  _generatePieces w
  = (Return (map (nth_piece w) (seq 0 (Z.to_nat (c * r)))),
     drawn (2 * Z.to_nat (c * r)) w).
Proof.
  intros Hcr Hc Hr. unfold _generatePieces, bind at 1, get_this at 1.
  rewrite Hc, Hr, of_int_mul. change 0%Q with (JS.of_int 0).
  rewrite of_int_turns, Z.sub_0_r.
  replace (JS.of_int (c * r)) with (JS.of_nat (Z.to_nat (c * r)))
    by (unfold JS.of_nat, JS.of_int; f_equal; lia).
  change (JS.of_int 0) with (JS.of_nat 0).
  rewrite <- (drawn_0 w) at 1. change 0%nat with (2 * 0)%nat at 2.
  rewrite _generatePieces_for_integer by lia.
  rewrite Nat.sub_0_r. reflexivity.
Qed.

Lemma nth_piece_coordinates (w : World Container) (c : Z) (i : nat) :
  0 < c -> columns (this w) = JS.of_int c ->
  PuzzlePiece.coordinates (nth_piece w i)
  = {| column := JS.of_int (Z.of_nat i mod c + 3);
       row := JS.of_int (Z.of_nat i / c + 3) |}.
Proof.
  intros Hc Hcols. unfold nth_piece, piece_at. cbn [PuzzlePiece.coordinates].
  rewrite Hcols. change SHAPES_length with (JS.of_int 3).
  change (JS.of_nat i) with (JS.of_int (Z.of_nat i)).
  rewrite of_int_rem, of_int_floor_div, !of_int_add by lia. reflexivity.
Qed.

Lemma nth_piece_key (w : World Container) (i : nat) :
  PuzzlePiece.key (nth_piece w i)
  = stringifyCoordinates (PuzzlePiece.coordinates (nth_piece w i)).
Proof. reflexivity. Qed.

Lemma generated_coordinates (w : World Container) (c : Z) (n : Z) :
  0 < c -> columns (this w) = JS.of_int c ->
  PuzzlePiece.coordinates <$> map (nth_piece w) (seq 0 (Z.to_nat n))
  = cell_of_index c <$> seqZ 0 n.
Proof.
  intros Hc Hcols. unfold seqZ. rewrite <- !list_fmap_compose.
  apply list_fmap_ext. intros _ i _. unfold compose.
  rewrite (nth_piece_coordinates w c) by done.
  unfold cell_of_index. by rewrite Z.add_0_r.
Qed.

Lemma cell_of_index_inj (c i j : Z) :
  0 < c -> cell_of_index c i = cell_of_index c j -> i = j.
Proof.
  intros Hc [= Hm Hd].
  rewrite (Z.div_mod i c), (Z.div_mod j c) by lia. lia.
Qed.

Lemma cell_of_index_range (c r x y : Z) :
  0 < c -> 0 < r ->
  (exists i, 0 <= i < c * r /\
             cell_of_index c i = {| column := JS.of_int x; row := JS.of_int y |})
  <-> 3 <= x < 3 + c /\ 3 <= y < 3 + r.
Proof.
  intros Hc Hr. split.
  - intros (i & Hi & [= <- <-]).
    pose proof (Z.mod_pos_bound i c Hc).
    assert (0 <= i / c) by (apply Z.div_pos; lia).
    assert (i / c < r) by (apply Z.div_lt_upper_bound; lia).
    lia.
  - intros [Hx Hy]. exists ((y - 3) * c + (x - 3)). split; [nia|].
    replace ((y - 3) * c + (x - 3)) with ((x - 3) + (y - 3) * c) by lia.
    unfold cell_of_index. rewrite Z.mod_add, Z.div_add by lia.
    rewrite Z.mod_small, Z.div_small by lia. f_equal; f_equal; lia.
Qed.

(** C1: for integer columns > 0 and rows > 0, [generatePieces] returns
    and leaves exactly columns*rows pieces, whose keys are pairwise
    distinct (each the string of its coordinates), whose coordinates
    are, in order of the linear index i, (numShapes + i mod columns,
    numShapes + i div columns), and whose set of coordinates is the
    cross product of the column range and the row range. *)
Theorem generatePieces_grid (w : World Container) (c r : Z) :
  0 < c -> 0 < r ->
  columns (this w) = JS.of_int c -> rows (this w) = JS.of_int r ->
  exists w' : World Container,
    generatePieces w = (Return tt, w') /\
    Z.of_nat (length (pieces (this w'))) = c * r /\
    NoDup (PuzzlePiece.key <$> pieces (this w')) /\
    Forall (fun p => PuzzlePiece.key p
                     = stringifyCoordinates (PuzzlePiece.coordinates p))
           (pieces (this w')) /\
    PuzzlePiece.coordinates <$> pieces (this w')
    = (fun i => {| column := JS.of_int (i mod c + numShapes);
                   row := JS.of_int (i / c + numShapes) |}) <$> seqZ 0 (c * r) /\
    (forall x y : Z,
       {| column := JS.of_int x; row := JS.of_int y |}
         ∈ (PuzzlePiece.coordinates <$> pieces (this w'))
       <-> numShapes <= x < numShapes + c /\ numShapes <= y < numShapes + r).
Proof.
  intros Hc Hr Hcols Hrows. change numShapes with 3.
  assert (Hcr : 0 <= c * r) by nia.
  eexists. split.
  { unfold generatePieces, bind at 1.
    rewrite (_generatePieces_integer w c r) by done. reflexivity. }
  cbn [this pieces with_pieces update_this drawn].
  pose proof (generated_coordinates w c (c * r) Hc Hcols) as Hcoords.
  fold (cell_of_index c). rewrite Hcoords.
  split; [|split; [|split; [|split; [reflexivity|]]]].
  - rewrite length_map, length_seq. lia.
  - replace (PuzzlePiece.key <$> map (nth_piece w) (seq 0 (Z.to_nat (c * r))))
      with (stringifyCoordinates <$> (cell_of_index c <$> seqZ 0 (c * r))).
    2:{ rewrite <- Hcoords, <- !list_fmap_compose. reflexivity. }
    rewrite <- list_fmap_compose.
    apply NoDup_fmap_2_strong; [|apply NoDup_seqZ].
    intros i j _ _ Heq. unfold compose, cell_of_index in Heq.
    apply stringifyCoordinates_inj in Heq as [Hm Hd].
    rewrite (Z.div_mod i c), (Z.div_mod j c) by lia. lia.
  - apply Forall_forall. intros p (i & <- & _)%in_map_iff. reflexivity.
  - intros x y. rewrite <- (cell_of_index_range c r x y) by done.
    rewrite list_elem_of_fmap. setoid_rewrite elem_of_seqZ.
    split; intros (i & ? & ?); exists i; split; (done || lia).
Qed.

Lemma generatePieces_grid_witness :
  exists w' : World Container,
    generatePieces example_world = (Return tt, w') /\
    Z.of_nat (length (pieces (this w'))) = 2 * 3 /\
    NoDup (PuzzlePiece.key <$> pieces (this w')) /\
    Forall (fun p => PuzzlePiece.key p
                     = stringifyCoordinates (PuzzlePiece.coordinates p))
           (pieces (this w')) /\
    PuzzlePiece.coordinates <$> pieces (this w')
    = (fun i => {| column := JS.of_int (i mod 2 + numShapes);
                   row := JS.of_int (i / 2 + numShapes) |}) <$> seqZ 0 (2 * 3) /\
    (forall x y : Z,
       {| column := JS.of_int x; row := JS.of_int y |}
         ∈ (PuzzlePiece.coordinates <$> pieces (this w'))
       <-> numShapes <= x < numShapes + 2 /\ numShapes <= y < numShapes + 3).
Proof.
  apply (generatePieces_grid example_world 2 3); [lia | lia | reflexivity | reflexivity].
Defined.

End AssistedPieces.

(** * The revision with assist mode: generation of the hints *)

Module AssistedHints.
Import Assisted.
Import Grid.
Import AssistedPieces.

Lemma _generateHints_for_integer (self : Container) (tally : PuzzleTally)
    (isRow : bool) (shape : Shape) (index : nat) (total : Z) :
  forall (fuel : nat) (coord : Z) (acc : list PuzzleHint),
    (Z.to_nat (total - coord) <= fuel)%nat ->
    _generateHints_for self tally isRow shape index fuel
      (JS.of_int total) (JS.of_int coord) acc
    = acc ++ ((fun k => hint_at self tally isRow shape index (JS.of_int k))
                <$> seqZ coord (total - coord)).
Proof.
  induction fuel as [|fuel IH]; intros coord acc Hfuel.
  - rewrite seqZ_nil by lia. by rewrite app_nil_r.
  - cbn [_generateHints_for]. rewrite of_int_ltb.
    destruct (Z.ltb_spec coord total) as [Hlt|Hge].
    + change 1%Q with (JS.of_int 1). rewrite of_int_add, IH by lia.
      rewrite (seqZ_cons coord) by lia. cbn [fmap list_fmap].
      rewrite <- app_assoc. cbn [app].
      replace (Z.pred (total - coord)) with (total - (coord + 1)) by lia.
      reflexivity.
    + rewrite seqZ_nil by lia. by rewrite app_nil_r.
Qed.

Lemma _generateHints_integer (self : Container) (total start : Z) (isRow : bool) :
  _generateHints self (JS.of_int total) (JS.of_int start) isRow
  = line_hints self isRow circle 0 start (total - start)
    ++ line_hints self isRow square 1 start (total - start)
    ++ line_hints self isRow triangle 2 start (total - start).
Proof.
  unfold _generateHints, SHAPES. cbn [forEach_indexed].
  rewrite of_int_turns, !_generateHints_for_integer by lia.
  rewrite app_nil_l, <- app_assoc. reflexivity.
Qed.

Lemma generateColumnHints_integer (self : Container) (c : Z) :
  columns self = JS.of_int c ->
  generateColumnHints self
  = line_hints self false circle 0 3 c
    ++ line_hints self false square 1 3 c
    ++ line_hints self false triangle 2 3 c.
Proof.
  intros Hc. unfold generateColumnHints. rewrite Hc.
  change SHAPES_length with (JS.of_int 3).
  rewrite of_int_add, _generateHints_integer.
  by replace (c + 3 - 3) with c by lia.
Qed.

Lemma generateRowHints_integer (self : Container) (r : Z) :
  rows self = JS.of_int r ->
  generateRowHints self
  = line_hints self true circle 0 3 r
    ++ line_hints self true square 1 3 r
    ++ line_hints self true triangle 2 3 r.
Proof.
  intros Hr. unfold generateRowHints. rewrite Hr.
  change SHAPES_length with (JS.of_int 3).
  rewrite of_int_add, _generateHints_integer.
  by replace (r + 3 - 3) with r by lia.
Qed.

Lemma line_hints_cells (self : Container) (isRow : bool)
    (shape : Shape) (index : nat) (start n : Z) :
  hint_cell <$> line_hints self isRow shape index start n
  = (fun k =>
       (if isRow
        then {| column := JS.of_nat index; row := JS.of_int k |}
        else {| column := JS.of_int k; row := JS.of_nat index |},
        shape)) <$> seqZ start n.
Proof.
  unfold line_hints. rewrite <- list_fmap_compose.
  apply list_fmap_ext. intros _ k _. unfold compose, hint_cell, hint_at.
  by destruct isRow.
Qed.

Lemma length_line_hints (self : Container) (isRow : bool)
    (shape : Shape) (index : nat) (start n : Z) :
  length (line_hints self isRow shape index start n) = Z.to_nat n.
Proof. unfold line_hints. by rewrite length_fmap, length_seqZ. Qed.

(** C3: for integer columns > 0 and rows > 0, [generateHints] returns
    and leaves exactly numShapes*(columns+rows) hints: the column hints
    followed by the row hints, where the column hints are, for each
    shape at index i, one hint of that shape per column coordinate c in
    [numShapes, numShapes+columns) at (column=c, row=i), and the row
    hints, for each shape at index i, one hint of that shape per row
    coordinate r in [numShapes, numShapes+rows) at (column=i, row=r). *)
Theorem generateHints_layout (w : World Container) (c r : Z) :
  0 < c -> 0 < r ->
  columns (this w) = JS.of_int c -> rows (this w) = JS.of_int r ->
  exists w' : World Container,
    generateHints w = (Return tt, w') /\
    Z.of_nat (length (hints (this w'))) = numShapes * (c + r) /\
    hint_cell <$> hints (this w') = hint_cells false c ++ hint_cells true r.
Proof.
  intros Hc Hr Hcols Hrows. eexists. split; [reflexivity|].
  cbn [this hints with_hints].
  rewrite (generateColumnHints_integer _ c), (generateRowHints_integer _ r)
    by done.
  split.
  - rewrite !length_app, !length_line_hints. change numShapes with 3. lia.
  - rewrite !fmap_app, !line_hints_cells.
    unfold hint_cells, SHAPES. cbn [imap mjoin list_join compose].
    rewrite !app_nil_r, <- !app_assoc. reflexivity.
Qed.

Lemma generateHints_layout_witness :
  exists w' : World Container,
    generateHints example_world = (Return tt, w') /\
    Z.of_nat (length (hints (this w'))) = numShapes * (2 + 3) /\
    hint_cell <$> hints (this w') = hint_cells false 2 ++ hint_cells true 3.
Proof.
  apply (generateHints_layout example_world 2 3); [lia | lia | reflexivity | reflexivity].
Defined.

End AssistedHints.

(** * Tallies and what the hints show *)

Section Tallies.

Lemma eqb_Qeq_dec (a b : JS.number) :
  JS.eqb a b = if Qeq_dec b a then true else false.
Proof.
  unfold JS.eqb. destruct (Qeq_dec b a) as [Heq|Hne].
  - apply Qeq_bool_iff. by symmetry.
  - apply not_true_is_false. intros Heq%Qeq_bool_iff. apply Hne. by symmetry.
Qed.

Lemma getValueCount_tally (pieces : list PuzzlePiece)
    (axis : Axis) (coordinate : JS.number) (shape : Shape) :
  Assisted.getValueCount (Assisted.new_PuzzleTally pieces) axis coordinate shape
  = tally pieces axis coordinate shape.
Proof.
  unfold Assisted.getValueCount. cbn [Assisted.tally_pieces].
  induction pieces as [|p pieces IH]; [done|].
  cbn [List.filter tally]. rewrite eqb_Qeq_dec, <- IH.
  destruct (Qeq_dec _ _); [|done].
  cbn [andb]. case_bool_decide; case_decide; simpl; congruence.
Qed.

Lemma getSelectedCount_tally (pieces : list PuzzlePiece)
    (axis : Axis) (coordinate : JS.number) (shape : Shape) :
  Assisted.getSelectedCount (Assisted.new_PuzzleTally pieces) axis coordinate shape
  = selected_tally pieces axis coordinate shape.
Proof.
  unfold Assisted.getSelectedCount. cbn [Assisted.tally_pieces].
  induction pieces as [|p pieces IH]; [done|].
  cbn [List.filter selected_tally]. rewrite eqb_Qeq_dec, <- IH.
  destruct (Qeq_dec _ _); [|done].
  cbn [andb]. case_bool_decide; case_decide; simpl; congruence.
Qed.

Lemma getTally_tally (pieces : list PuzzlePiece)
    (axis : Axis) (coordinate : JS.number) (shape : Shape) :
  Unassisted.getTally (Unassisted.new_PuzzleTally pieces) axis coordinate shape
  = tally pieces axis coordinate shape.
Proof.
  unfold Unassisted.getTally. cbn [Unassisted.tally_pieces].
  induction pieces as [|p pieces IH]; [done|].
  cbn [List.filter tally]. rewrite eqb_Qeq_dec, <- IH.
  destruct (Qeq_dec _ _); [|done].
  cbn [andb]. case_bool_decide; case_decide; simpl; congruence.
Qed.

(** A property of every hint the loop body can make holds of every
    hint [_generateHints] returns, whatever the bounds. *)
Lemma Assisted_generateHints_Forall (P : Assisted.PuzzleHint -> Prop)
    (self : Assisted.Container) (total start : JS.number) (isRow : bool) :
  (forall shape index coord,
     P (Assisted.hint_at self (Assisted.new_PuzzleTally (Assisted.pieces self))
          isRow shape index coord)) ->
  Forall P (Assisted._generateHints self total start isRow).
Proof.
  intros HP.
  assert (Hloop : forall tally shape index fuel coord acc,
             tally = Assisted.new_PuzzleTally (Assisted.pieces self) ->
             Forall P acc ->
             Forall P (Assisted._generateHints_for self tally isRow shape index
                         fuel total coord acc)).
  { intros tl shape index fuel. induction fuel as [|fuel IH]; intros coord acc -> Hacc.
    - done.
    - cbn [Assisted._generateHints_for]. destruct (JS.ltb coord total); [|done].
      apply IH; [done|]. apply Forall_app. split; [done|].
      apply Forall_singleton, HP. }
  unfold Assisted._generateHints, Assisted.SHAPES. cbn [forEach_indexed].
  repeat (apply Hloop; [done|]). constructor.
Qed.

Lemma Unassisted_generateHints_Forall (P : Unassisted.PuzzleHint -> Prop)
    (self : Unassisted.Container) (total start : JS.number) (isRow : bool) :
  (forall shape index coord,
     P (Unassisted.hint_at self
          (Unassisted.new_PuzzleTally (Unassisted.pieces self))
          isRow shape index coord)) ->
  Forall P (Unassisted._generateHints self total start isRow).
Proof.
  intros HP.
  assert (Hloop : forall tally shape index fuel coord acc,
             tally = Unassisted.new_PuzzleTally (Unassisted.pieces self) ->
             Forall P acc ->
             Forall P (Unassisted._generateHints_for self tally isRow shape index
                         fuel total coord acc)).
  { intros tl shape index fuel. induction fuel as [|fuel IH]; intros coord acc -> Hacc.
    - done.
    - cbn [Unassisted._generateHints_for]. destruct (JS.ltb coord total); [|done].
      apply IH; [done|]. apply Forall_app. split; [done|].
      apply Forall_singleton, HP. }
  unfold Unassisted._generateHints, Unassisted.SHAPES. cbn [forEach_indexed].
  repeat (apply Hloop; [done|]). constructor.
Qed.

Lemma tally_reselect (choice : PuzzlePiece -> SelectableValues)
    (pieces : list PuzzlePiece) (axis : Axis) (coordinate : JS.number)
    (shape : Shape) :
  tally (reselect choice pieces) axis coordinate shape
  = tally pieces axis coordinate shape.
Proof.
  induction pieces as [|p pieces IH]; [done|].
  unfold reselect in *. rewrite fmap_cons. cbn [tally]. by rewrite IH.
Qed.

Lemma Assisted_generateHints_content_ext
    (self self' : Assisted.Container) (total start : JS.number) (isRow : bool) :
  (forall shape index coord,
     Assisted.PuzzleHint.content
       (Assisted.hint_at self (Assisted.new_PuzzleTally (Assisted.pieces self))
          isRow shape index coord)
     = Assisted.PuzzleHint.content
         (Assisted.hint_at self' (Assisted.new_PuzzleTally (Assisted.pieces self'))
            isRow shape index coord)) ->
  Assisted.PuzzleHint.content <$> Assisted._generateHints self total start isRow
  = Assisted.PuzzleHint.content <$> Assisted._generateHints self' total start isRow.
Proof.
  intros Hbody.
  assert (Hloop : forall shape index fuel coord acc acc',
             Assisted.PuzzleHint.content <$> acc
             = Assisted.PuzzleHint.content <$> acc' ->
             Assisted.PuzzleHint.content <$>
               Assisted._generateHints_for self
                 (Assisted.new_PuzzleTally (Assisted.pieces self))
                 isRow shape index fuel total coord acc
             = Assisted.PuzzleHint.content <$>
                 Assisted._generateHints_for self'
                   (Assisted.new_PuzzleTally (Assisted.pieces self'))
                   isRow shape index fuel total coord acc').
  { intros shape index fuel. induction fuel as [|fuel IH]; intros coord acc acc' Hacc.
    - done.
    - cbn [Assisted._generateHints_for]. destruct (JS.ltb coord total); [|done].
      apply IH. rewrite !fmap_app, Hacc. cbn [fmap list_fmap].
      by rewrite Hbody. }
  unfold Assisted._generateHints, Assisted.SHAPES. cbn [forEach_indexed].
  by repeat apply Hloop.
Qed.

(** C2: the tally the hints use is the number of pieces on the line
    whose ground-truth value is the shape, and in the revision with
    assist mode as in the revisions without it the content of every
    generated hint is that tally for the hint's line and shape; it does
    not depend on the selected values. *)
Theorem hint_content_is_value_tally :
  (forall pieces axis coordinate shape,
     Assisted.getValueCount (Assisted.new_PuzzleTally pieces) axis coordinate shape
     = tally pieces axis coordinate shape) /\
  (forall pieces axis coordinate shape,
     Unassisted.getTally (Unassisted.new_PuzzleTally pieces) axis coordinate shape
     = tally pieces axis coordinate shape) /\
  (forall (self : Assisted.Container) total start isRow,
     Forall
       (fun h =>
          Assisted.PuzzleHint.content h
          = tally (Assisted.pieces self) (axis_of isRow)
              (coordinate_of (axis_of isRow) (Assisted.PuzzleHint.coordinates h))
              (Assisted.PuzzleHint.shape h))
       (Assisted._generateHints self total start isRow)) /\
  (forall (self : Unassisted.Container) total start isRow,
     Forall
       (fun h =>
          Unassisted.PuzzleHint.content h
          = tally (Unassisted.pieces self) (axis_of isRow)
              (coordinate_of (axis_of isRow) (Unassisted.PuzzleHint.coordinates h))
              (Unassisted.PuzzleHint.shape h))
       (Unassisted._generateHints self total start isRow)) /\
  (forall (self : Assisted.Container) choice total start isRow,
     Assisted.PuzzleHint.content <$>
       Assisted._generateHints
         (Assisted.with_pieces (reselect choice (Assisted.pieces self)) self)
         total start isRow
     = Assisted.PuzzleHint.content <$>
         Assisted._generateHints self total start isRow).
Proof.
  split; [exact getValueCount_tally|]. split; [exact getTally_tally|].
  split; [|split].
  - intros self total start isRow. apply Assisted_generateHints_Forall.
    intros shape index coord. unfold Assisted.hint_at.
    destruct isRow; simpl; apply getValueCount_tally.
  - intros self total start isRow. apply Unassisted_generateHints_Forall.
    intros shape index coord. unfold Unassisted.hint_at.
    destruct isRow; simpl; apply getTally_tally.
  - intros self choice total start isRow.
    apply Assisted_generateHints_content_ext.
    intros shape index coord. unfold Assisted.hint_at.
    destruct isRow; simpl;
      unfold Assisted.getRowTally, Assisted.getColumnValueCount;
      by rewrite !getValueCount_tally, tally_reselect.
Qed.

Lemma hint_at_fill (self : Assisted.Container) (tl : Assisted.PuzzleTally)
    (isRow : bool) (shape : Shape) (index : nat) (coord : JS.number) :
  Assisted.PuzzleHint.fill (Assisted.hint_at self tl isRow shape index coord)
  = if (Assisted.getValueCount tl (axis_of isRow) coord shape
        =? Assisted.getSelectedCount tl (axis_of isRow) coord shape)%nat
       && Assisted.enableAssist self
    then Assisted.COMPLETE_HINT else Assisted.INCOMPLETE_HINT.
Proof. by destruct isRow. Qed.

Lemma hint_at_line (self : Assisted.Container) (tl : Assisted.PuzzleTally)
    (isRow : bool) (shape : Shape) (index : nat) (coord : JS.number) :
  coordinate_of (axis_of isRow)
    (Assisted.PuzzleHint.coordinates
       (Assisted.hint_at self tl isRow shape index coord)) = coord.
Proof. by destruct isRow. Qed.

Lemma hint_at_shape (self : Assisted.Container) (tl : Assisted.PuzzleTally)
    (isRow : bool) (shape : Shape) (index : nat) (coord : JS.number) :
  Assisted.PuzzleHint.shape (Assisted.hint_at self tl isRow shape index coord)
  = shape.
Proof. by destruct isRow. Qed.

Lemma hint_at_fill_rule (self : Assisted.Container) (isRow : bool)
    (shape : Shape) (index : nat) (coord : JS.number) :
  fill_rule self isRow
    (Assisted.hint_at self (Assisted.new_PuzzleTally (Assisted.pieces self))
       isRow shape index coord).
Proof.
  unfold fill_rule. cbv zeta.
  rewrite hint_at_fill, hint_at_line, hint_at_shape.
  rewrite getValueCount_tally, getSelectedCount_tally.
  destruct (Nat.eqb_spec
              (tally (Assisted.pieces self) (axis_of isRow) coord shape)
              (selected_tally (Assisted.pieces self) (axis_of isRow) coord shape))
    as [Heq|Hne];
    destruct (Assisted.enableAssist self); cbn [andb];
    (split; [split|split]); try done; intros []; done.
Qed.

(** C8: every hint [generateHints] leaves (the column hints followed by
    the row hints) has the complete fill exactly when the ground-truth
    tally of its line and shape equals the selected-value tally and
    assist mode is on, and the incomplete fill otherwise; with assist
    mode off every hint has the incomplete fill. *)
Theorem hint_fill_complete_iff (w : World Assisted.Container) :
  exists w' : World Assisted.Container,
    Assisted.generateHints w = (Return tt, w') /\
    Assisted.hints (this w')
    = Assisted.generateColumnHints (this w) ++ Assisted.generateRowHints (this w) /\
    Forall (fill_rule (this w) false) (Assisted.generateColumnHints (this w)) /\
    Forall (fill_rule (this w) true) (Assisted.generateRowHints (this w)).
Proof.
  eexists. split; [reflexivity|]. split; [reflexivity|].
  split; apply Assisted_generateHints_Forall; intros; apply hint_at_fill_rule.
Qed.

End Tallies.

(** * Validity *)

Section Validity.

Lemma checkValidity_Forall (self : Assisted.Container) :
  Assisted.checkValidity self = true
  <-> Forall (fun p => PuzzlePiece.selectedValue p = Sel (PuzzlePiece.value p))
             (Assisted.pieces self).
Proof.
  unfold Assisted.checkValidity. rewrite negb_true_iff.
  induction (Assisted.pieces self) as [|p ps IH]; cbn [existsb].
  - split; [constructor|done].
  - split.
    + intros [Hp Hps]%orb_false_iff. constructor; [|by apply IH].
      revert Hp. case_bool_decide; [done|discriminate].
    + intros [Hp Hps]%list.Forall_cons. apply orb_false_iff. split; [|by apply IH].
      case_bool_decide; [done|congruence].
Qed.

(** Every piece [_generatePieces] returns comes from the body of its
    loop, whatever the dimensions; the call returns and leaves [this]
    as it was. *)
Lemma _generatePieces_Forall (P : PuzzlePiece -> Prop)
    (w : World Assisted.Container) :
  (forall index random1 random2,
     P (Assisted.piece_at (this w) index random1 random2)) ->
  exists pieces w',
    Assisted._generatePieces w = (Return pieces, w') /\
    this w' = this w /\ Forall P pieces.
Proof.
  intros HP.
  assert (Hloop : forall fuel count index acc (w0 : World Assisted.Container),
             this w0 = this w -> Forall P acc ->
             exists pieces w',
               Assisted._generatePieces_for fuel count index acc w0
               = (Return pieces, w') /\
               this w' = this w /\ Forall P pieces).
  { induction fuel as [|fuel IH]; intros count index acc w0 Hthis Hacc.
    - by exists acc, w0.
    - cbn [Assisted._generatePieces_for].
      destruct (JS.ltb index count); [|by exists acc, w0].
      unfold bind at 1, get_this at 1. unfold bind at 1, Math_random at 1.
      unfold bind at 1, Math_random at 1. cbn [this random_source random_calls].
      apply IH; [done|]. apply Forall_app. split; [done|].
      apply Forall_singleton. rewrite Hthis. apply HP. }
  unfold Assisted._generatePieces, bind at 1, get_this at 1.
  apply Hloop; [done|constructor].
Qed.

Lemma piece_at_fresh_selection (self : Assisted.Container)
    (index random1 random2 : JS.number) :
  fresh_selection (Assisted.piece_at self index random1 random2).
Proof. reflexivity. Qed.

(** C4: [checkValidity] is true exactly when the selected value of
    every piece is its value; and right after [generatePieces], which
    returns for all dimensions, it is true exactly when every generated
    piece is revealed. *)
Theorem checkValidity_iff_all_selected :
  (forall self : Assisted.Container,
     Assisted.checkValidity self = true
     <-> forall p, p ∈ Assisted.pieces self ->
                   PuzzlePiece.selectedValue p = Sel (PuzzlePiece.value p)) /\
  (forall w : World Assisted.Container,
     exists w' : World Assisted.Container,
       Assisted.generatePieces w = (Return tt, w') /\
       Forall fresh_selection (Assisted.pieces (this w')) /\
       (Assisted.checkValidity (this w') = true
        <-> forall p, p ∈ Assisted.pieces (this w') ->
                      PuzzlePiece.revealed p = true)).
Proof.
  split.
  - intros self. rewrite checkValidity_Forall. apply list.Forall_forall.
  - intros w.
    destruct (_generatePieces_Forall fresh_selection w
                (piece_at_fresh_selection (this w)))
      as (ps & w1 & Hgen & _ & Hfresh).
    eexists. split.
    { unfold Assisted.generatePieces, bind at 1. rewrite Hgen. reflexivity. }
    cbn [this Assisted.pieces Assisted.with_pieces update_this]. split; [done|].
    rewrite checkValidity_Forall. cbn [Assisted.pieces Assisted.with_pieces].
    rewrite list.Forall_forall in Hfresh. rewrite list.Forall_forall. split.
    + intros Hvalid p Hp. specialize (Hvalid p Hp). specialize (Hfresh p Hp).
      unfold fresh_selection in Hfresh.
      destruct (PuzzlePiece.revealed p); [done|congruence].
    + intros Hrev p Hp. specialize (Hrev p Hp). specialize (Hfresh p Hp).
      unfold fresh_selection in Hfresh. by rewrite Hrev in Hfresh.
Qed.

End Validity.

(** * Reset and clicks *)

Section Interaction.

Lemma foldl_alter_lookup {A} (f : A -> A) (refs : list ref) :
  forall (l : list A) (i : nat),
    NoDup refs ->
    foldl (fun ps r => alter f r ps) l refs !! i
    = if decide (i ∈ refs) then f <$> l !! i else l !! i.
Proof.
  induction refs as [|r refs IH]; intros l i Hnodup.
  - by rewrite decide_False by apply not_elem_of_nil.
  - apply list.NoDup_cons in Hnodup as [Hr Hnodup].
    cbn [foldl]. rewrite IH by done.
    destruct (decide (i = r)) as [->|Hne].
    + rewrite (decide_False _ _ Hr), decide_True by apply list_elem_of_here.
      by rewrite list_lookup_alter, decide_True.
    + rewrite list_lookup_alter_ne by done.
      destruct (decide (i ∈ refs)) as [Hi|Hi].
      * by rewrite decide_True by (by apply list_elem_of_further).
      * rewrite decide_False; [done|].
        intros [?|?]%elem_of_cons; done.
Qed.

Lemma elem_of_filter_refs {A} (q : A -> bool) (l : list A) (i : ref) :
  i ∈ filter_refs q l <-> exists x, l !! i = Some x /\ q x = true.
Proof.
  unfold filter_refs. rewrite list_elem_of_In, filter_In, in_seq.
  split.
  - intros [_ Hq]. destruct (l !! i) as [x|] eqn:Hx; [by exists x|done].
  - intros (x & Hx & Hq). rewrite Hx. split; [|done].
    apply lookup_lt_Some in Hx. lia.
Qed.

Lemma NoDup_filter_refs {A} (q : A -> bool) (l : list A) :
  NoDup (filter_refs q l).
Proof.
  apply NoDup_ListNoDup, List.NoDup_filter, seq_NoDup.
Qed.

(** Writing through every reference [filter] keeps writes to exactly
    the objects that pass the test. *)
Lemma foldl_alter_filter_refs {A} (q : A -> bool) (f : A -> A) (l : list A) :
  foldl (fun ps r => alter f r ps) l (filter_refs q l)
  = (fun x => if q x then f x else x) <$> l.
Proof.
  apply list_eq. intros i.
  rewrite foldl_alter_lookup by apply NoDup_filter_refs.
  rewrite list_lookup_fmap.
  destruct (decide (i ∈ filter_refs q l)) as [Hi|Hi].
  - apply elem_of_filter_refs in Hi as (x & Hx & Hq).
    rewrite Hx; simpl. by rewrite Hq.
  - destruct (l !! i) as [x|] eqn:Hx; [|done]. simpl.
    destruct (q x) eqn:Hq; [|done].
    exfalso. apply Hi, elem_of_filter_refs. by exists x.
Qed.

Lemma forEach_update_piece (f : PuzzlePiece -> PuzzlePiece) (refs : list ref) :
  forall w : World Assisted.Container,
    forEach refs (fun piece => Assisted.update_piece piece f) w
    = (Return tt,
       {| this := Assisted.with_pieces
                    (foldl (fun ps r => alter f r ps)
                           (Assisted.pieces (this w)) refs)
                    (this w);
          random_source := random_source w;
          random_calls := random_calls w |}).
Proof.
  induction refs as [|r refs IH]; intros w.
  - destruct w as [[] ? ?]. reflexivity.
  - cbn [forEach]. unfold bind at 1, Assisted.update_piece at 1, update_this at 1.
    rewrite IH. reflexivity.
Qed.

(** What [reset] leaves: every unrevealed piece with the empty
    selection, everything else of the component but the hints as it
    was. *)
Lemma reset_pieces (w : World Assisted.Container) :
  exists w' : World Assisted.Container,
    Assisted.reset w = (Return tt, w') /\
    Assisted.pieces (this w') = reset_piece <$> Assisted.pieces (this w) /\
    Assisted.enableAssist (this w') = Assisted.enableAssist (this w) /\
    Assisted.columns (this w') = Assisted.columns (this w) /\
    Assisted.rows (this w') = Assisted.rows (this w) /\
    Assisted.size (this w') = Assisted.size (this w).
Proof.
  unfold Assisted.reset, bind at 1, get_this at 1.
  unfold bind at 1. rewrite forEach_update_piece, foldl_alter_filter_refs.
  unfold bind at 1, update_this at 1. unfold bind at 1, get_this at 1.
  cbn [this Assisted.pieces Assisted.with_pieces Assisted.enableAssist].
  replace ((fun x => if negb (PuzzlePiece.revealed x)
                     then PuzzlePiece.set_selectedValue Empty x else x)
             <$> Assisted.pieces (this w))
    with (reset_piece <$> Assisted.pieces (this w)).
  2:{ apply list_fmap_ext. intros _ p _. unfold reset_piece.
      by destruct (PuzzlePiece.revealed p). }
  destruct (Assisted.enableAssist (this w)) eqn:Hassist;
    eexists; (split; [reflexivity|]); cbn; by rewrite ?Hassist.
Qed.

(** C7: [reset] returns; after it every piece that is not revealed has
    the empty selected value, every revealed piece is the piece it was,
    and no piece has changed in its key, coordinates, value, revealed
    flag, fill or style. *)
Theorem reset_frame (w : World Assisted.Container) :
  exists w' : World Assisted.Container,
    Assisted.reset w = (Return tt, w') /\
    Forall2
      (fun p p' =>
         (PuzzlePiece.revealed p = false -> PuzzlePiece.selectedValue p' = Empty) /\
         (PuzzlePiece.revealed p = true -> p' = p) /\
         PuzzlePiece.key p' = PuzzlePiece.key p /\
         PuzzlePiece.coordinates p' = PuzzlePiece.coordinates p /\
         PuzzlePiece.value p' = PuzzlePiece.value p /\
         PuzzlePiece.revealed p' = PuzzlePiece.revealed p /\
         PuzzlePiece.fill p' = PuzzlePiece.fill p /\
         PuzzlePiece.style p' = PuzzlePiece.style p)
      (Assisted.pieces (this w)) (Assisted.pieces (this w')).
Proof.
  destruct (reset_pieces w) as (w' & Hreset & Hpieces & _).
  exists w'. split; [done|]. rewrite Hpieces.
  apply Forall2_fmap_r, Forall_Forall2_diag, list.Forall_forall.
  intros p _. unfold compose, reset_piece.
  destruct (PuzzlePiece.revealed p) eqn:Hrev; repeat split; done.
Qed.

(** ** Clicks on a key no piece has *)

Lemma find_missing (uid : string) (pieces : list PuzzlePiece) :
  Forall (fun p => PuzzlePiece.key p <> uid) pieces ->
  find (has_key uid) pieces = None.
Proof.
  intros Hmiss. unfold find. apply list_find_None.
  eapply list.Forall_impl; [exact Hmiss|].
  intros p Hp Heq. by apply Hp, String.eqb_eq.
Qed.

(** C6, as the code has it: for every piece collection and every key
    that matches no piece in it, the click handler of each revision
    raises a TypeError (the piece it looked up is undefined) before it
    writes anything: the pieces, the hints and the rest of the
    component are left as they were. *)
Theorem handleClick_missing_key_raises
    (uid : string)
    (wa : World Assisted.Container) (wr wc : World Unassisted.Container) :
  Forall (fun p => PuzzlePiece.key p <> uid) (Assisted.pieces (this wa)) ->
  Forall (fun p => PuzzlePiece.key p <> uid) (Unassisted.pieces (this wr)) ->
  Forall (fun p => PuzzlePiece.key p <> uid) (Unassisted.pieces (this wc)) ->
  Assisted.handleClick uid wa = (Throw JS.TypeError, wa) /\
  Rotating.handleClick uid wr = (Throw JS.TypeError, wr) /\
  Cycling.handleClick uid wc = (Throw JS.TypeError, wc).
Proof.
  intros Ha Hr Hc. repeat split.
  - unfold Assisted.handleClick, bind at 1, get_this at 1.
    fold (has_key uid). by rewrite find_missing.
  - unfold Rotating.handleClick, bind at 1, get_this at 1.
    fold (has_key uid). by rewrite find_missing.
  - unfold Cycling.handleClick, bind at 1, get_this at 1.
    fold (has_key uid). by rewrite find_missing.
Qed.

Lemma handleClick_missing_key_raises_witness :
  Assisted.handleClick "[0,0]" started_world
  = (Throw JS.TypeError, started_world) /\
  Rotating.handleClick "[0,0]" single_hidden_world
  = (Throw JS.TypeError, single_hidden_world) /\
  Cycling.handleClick "[0,0]" single_hidden_world
  = (Throw JS.TypeError, single_hidden_world).
Proof.
  apply (handleClick_missing_key_raises "[0,0]");
    vm_compute; repeat constructor; discriminate.
Defined.

(** C6 as stated fails: a click on a key that matches no piece raises. *)
Lemma handleClick_missing_key_not_silent :
  Forall (fun p => PuzzlePiece.key p <> "[0,0]")
         (Assisted.pieces (this started_world)) /\
  fst (Assisted.handleClick "[0,0]" started_world) = Throw JS.TypeError /\
  fst (Cycling.handleClick "[0,0]" single_hidden_world) = Throw JS.TypeError.
Proof.
  split; [|split]; vm_compute; repeat constructor; discriminate.
Qed.

(** ** Clicks on a piece, in the two revisions that lock revealed pieces *)

Lemma find_select (uid : string) (w : World Unassisted.Container)
    (piece : ref) (p : PuzzlePiece) (v : SelectableValues) :
  find (has_key uid) (Unassisted.pieces (this w)) = Some (piece, p) ->
  find (has_key uid) (Unassisted.pieces (this (select piece v w)))
  = Some (piece, PuzzlePiece.set_selectedValue v p).
Proof.
  unfold find. rewrite !list_find_Some. intros (Hp & Hkey & Hfirst).
  cbn [select set_world_pieces this Unassisted.pieces Unassisted.with_pieces].
  split; [|split].
  - by rewrite list_lookup_alter, decide_True, Hp.
  - exact Hkey.
  - intros j y Hy Hj. rewrite list_lookup_alter_ne in Hy by lia. eauto.
Qed.

Lemma Cycling_handleClick_revealed (uid : string)
    (w : World Unassisted.Container) (piece : ref) (p : PuzzlePiece) :
  find (has_key uid) (Unassisted.pieces (this w)) = Some (piece, p) ->
  PuzzlePiece.revealed p = true ->
  Cycling.handleClick uid w = (Return tt, w).
Proof.
  intros Hfind Hrev. unfold Cycling.handleClick, bind at 1, get_this at 1.
  fold (has_key uid). by rewrite Hfind, Hrev.
Qed.

Lemma Rotating_handleClick_revealed (uid : string)
    (w : World Unassisted.Container) (piece : ref) (p : PuzzlePiece) :
  find (has_key uid) (Unassisted.pieces (this w)) = Some (piece, p) ->
  PuzzlePiece.revealed p = true ->
  Rotating.handleClick uid w = (Return tt, w).
Proof.
  intros Hfind Hrev. unfold Rotating.handleClick, bind at 1, get_this at 1.
  fold (has_key uid). by rewrite Hfind, Hrev.
Qed.

Lemma Cycling_handleClick_hidden (uid : string)
    (w : World Unassisted.Container) (piece : ref) (p : PuzzlePiece) :
  find (has_key uid) (Unassisted.pieces (this w)) = Some (piece, p) ->
  PuzzlePiece.revealed p = false ->
  Cycling.handleClick uid w
  = (Return tt, select piece (next_in_cycle (PuzzlePiece.selectedValue p)) w).
Proof.
  intros Hfind Hrev. unfold Cycling.handleClick, bind at 1, get_this at 1.
  fold (has_key uid). rewrite Hfind, Hrev.
  destruct (PuzzlePiece.selectedValue p) as [|[]]; reflexivity.
Qed.

Lemma Rotating_handleClick_hidden (uid : string)
    (w : World Unassisted.Container) (piece : ref) (p : PuzzlePiece) :
  find (has_key uid) (Unassisted.pieces (this w)) = Some (piece, p) ->
  PuzzlePiece.revealed p = false ->
  Rotating.handleClick uid w
  = (Return tt, select piece (next_in_rotation (PuzzlePiece.selectedValue p)) w).
Proof.
  intros Hfind Hrev. unfold Rotating.handleClick, bind at 1, get_this at 1.
  fold (has_key uid). rewrite Hfind, Hrev.
  destruct (PuzzlePiece.selectedValue p) as [|[]]; reflexivity.
Qed.

Lemma clicks_hidden (handleClick : string -> M Unassisted.Container unit)
    (next : SelectableValues -> SelectableValues) (uid : string) (piece : ref) :
  (forall w p,
     find (has_key uid) (Unassisted.pieces (this w)) = Some (piece, p) ->
     PuzzlePiece.revealed p = false ->
     handleClick uid w
     = (Return tt, select piece (next (PuzzlePiece.selectedValue p)) w)) ->
  forall (n : nat) (w : World Unassisted.Container) (p : PuzzlePiece),
    find (has_key uid) (Unassisted.pieces (this w)) = Some (piece, p) ->
    PuzzlePiece.revealed p = false ->
    exists w' : World Unassisted.Container,
      clicks handleClick n uid w = (Return tt, w') /\
      after_clicks piece p (Nat.iter n next (PuzzlePiece.selectedValue p)) w w'.
Proof.
  intros Hstep. induction n as [|n IH]; intros w p Hfind Hrev.
  - exists w. split; [reflexivity|]. split; [|done].
    apply list_find_Some in Hfind as (Hp & _). rewrite Hp. by destruct p.
  - cbn [clicks]. unfold bind at 1. rewrite (Hstep w p) by done.
    set (v := next (PuzzlePiece.selectedValue p)).
    destruct (IH (select piece v w) (PuzzlePiece.set_selectedValue v p))
      as (w' & Hclicks & Hpiece & Hothers & Hhints);
      [by apply find_select|done|].
    exists w'. split; [done|]. rewrite Nat.iter_succ_r. repeat split.
    + exact Hpiece.
    + intros j Hj. rewrite Hothers by done.
      cbn [select set_world_pieces this Unassisted.pieces Unassisted.with_pieces].
      by rewrite list_lookup_alter_ne.
    + exact Hhints.
Qed.

Lemma iter_next_in_cycle (n : nat) :
  Nat.iter n next_in_cycle Empty = Cycling.SELECTABLE_VALUES !!! (n mod 4)%nat.
Proof.
  induction n as [|n IH]; [reflexivity|].
  change (Nat.iter (S n) next_in_cycle Empty)
    with (next_in_cycle (Nat.iter n next_in_cycle Empty)).
  rewrite IH.
  replace (S n) with (n + 1)%nat by lia. rewrite Nat.Div0.add_mod.
  pose proof (Nat.mod_upper_bound n 4).
  destruct (n mod 4)%nat as [|[|[|[|?]]]]; try reflexivity. lia.
Qed.

Lemma iter_next_in_rotation (n : nat) :
  Nat.iter (S n) next_in_rotation Empty
  = Sel (Unassisted.SHAPES !!! (n mod 3)%nat).
Proof.
  induction n as [|n IH]; [reflexivity|].
  change (Nat.iter (S (S n)) next_in_rotation Empty)
    with (next_in_rotation (Nat.iter (S n) next_in_rotation Empty)).
  rewrite IH.
  replace (S n) with (n + 1)%nat by lia. rewrite Nat.Div0.add_mod.
  pose proof (Nat.mod_upper_bound n 3).
  destruct (n mod 3)%nat as [|[|[|?]]]; try reflexivity. lia.
Qed.

(** C5, as the code has it: in both revisions that lock revealed
    pieces a click on a revealed piece changes nothing, and clicks on
    an unrevealed piece only write its selected value.  In the revision
    that cycles through [SELECTABLE_VALUES] the selected value advances
    through [empty, shape1, ..., shapeN] with wrap-around: from empty
    the first click selects the first shape and the selected value is
    empty again exactly after every N+1 clicks.  In the revision that
    rotates through [SHAPES] the first click selects the first shape
    and the later clicks rotate through the shapes alone: click n+1
    selects the shape at index n mod N, never empty. *)
Theorem restricted_clicks (uid : string) (w : World Unassisted.Container)
    (piece : ref) (p : PuzzlePiece) :
  find (has_key uid) (Unassisted.pieces (this w)) = Some (piece, p) ->
  (PuzzlePiece.revealed p = true ->
   Cycling.handleClick uid w = (Return tt, w) /\
   Rotating.handleClick uid w = (Return tt, w)) /\
  (PuzzlePiece.revealed p = false ->
   forall n : nat,
     (exists w' : World Unassisted.Container,
        clicks Cycling.handleClick n uid w = (Return tt, w') /\
        after_clicks piece p
          (Nat.iter n next_in_cycle (PuzzlePiece.selectedValue p)) w w') /\
     (exists w' : World Unassisted.Container,
        clicks Rotating.handleClick n uid w = (Return tt, w') /\
        after_clicks piece p
          (Nat.iter n next_in_rotation (PuzzlePiece.selectedValue p)) w w')) /\
  (forall n : nat,
     Nat.iter n next_in_cycle Empty
     = Cycling.SELECTABLE_VALUES
         !!! (n mod length Cycling.SELECTABLE_VALUES)%nat) /\
  (forall n : nat,
     Nat.iter n next_in_cycle Empty = Empty
     <-> (n mod length Cycling.SELECTABLE_VALUES = 0)%nat) /\
  (forall n : nat,
     Nat.iter (S n) next_in_rotation Empty
     = Sel (Unassisted.SHAPES !!! (n mod length Unassisted.SHAPES)%nat)).
Proof.
  intros Hfind. split; [|split; [|split; [|split]]].
  - intros Hrev. split.
    + by eapply Cycling_handleClick_revealed.
    + by eapply Rotating_handleClick_revealed.
  - intros Hrev n. split.
    + apply (clicks_hidden Cycling.handleClick next_in_cycle uid piece); try done.
      intros; by apply Cycling_handleClick_hidden.
    + apply (clicks_hidden Rotating.handleClick next_in_rotation uid piece);
        try done.
      intros; by apply Rotating_handleClick_hidden.
  - exact iter_next_in_cycle.
  - intros n. rewrite iter_next_in_cycle.
    change (length Cycling.SELECTABLE_VALUES) with 4%nat.
    pose proof (Nat.mod_upper_bound n 4).
    destruct (n mod 4)%nat as [|[|[|[|?]]]]; try (split; [discriminate|lia]).
    + done.
    + lia.
  - exact iter_next_in_rotation.
Qed.

Lemma restricted_clicks_witness :
  (PuzzlePiece.revealed single_hidden_piece = true ->
   Cycling.handleClick "[3,3]" single_hidden_world
   = (Return tt, single_hidden_world) /\
   Rotating.handleClick "[3,3]" single_hidden_world
   = (Return tt, single_hidden_world)) /\
  (PuzzlePiece.revealed single_hidden_piece = false ->
   forall n : nat,
     (exists w' : World Unassisted.Container,
        clicks Cycling.handleClick n "[3,3]" single_hidden_world
        = (Return tt, w') /\
        after_clicks 0%nat single_hidden_piece
          (Nat.iter n next_in_cycle
             (PuzzlePiece.selectedValue single_hidden_piece))
          single_hidden_world w') /\
     (exists w' : World Unassisted.Container,
        clicks Rotating.handleClick n "[3,3]" single_hidden_world
        = (Return tt, w') /\
        after_clicks 0%nat single_hidden_piece
          (Nat.iter n next_in_rotation
             (PuzzlePiece.selectedValue single_hidden_piece))
          single_hidden_world w')) /\
  (forall n : nat,
     Nat.iter n next_in_cycle Empty
     = Cycling.SELECTABLE_VALUES
         !!! (n mod length Cycling.SELECTABLE_VALUES)%nat) /\
  (forall n : nat,
     Nat.iter n next_in_cycle Empty = Empty
     <-> (n mod length Cycling.SELECTABLE_VALUES = 0)%nat) /\
  (forall n : nat,
     Nat.iter (S n) next_in_rotation Empty
     = Sel (Unassisted.SHAPES !!! (n mod length Unassisted.SHAPES)%nat)).
Proof.
  apply (restricted_clicks "[3,3]" single_hidden_world 0%nat single_hidden_piece).
  vm_compute. reflexivity.
Defined.

(** C5 as stated fails on the revision that rotates through [SHAPES]:
    its one piece is not revealed and starts empty, and the fourth
    click leaves the first shape selected, not empty. *)
Lemma rotating_fourth_click_not_empty :
  PuzzlePiece.revealed <$> Unassisted.pieces (this single_hidden_world) = [false] /\
  PuzzlePiece.selectedValue <$> Unassisted.pieces (this single_hidden_world)
  = [Empty] /\
  fst (clicks Rotating.handleClick 4 "[3,3]" single_hidden_world) = Return tt /\
  PuzzlePiece.selectedValue <$>
    Unassisted.pieces
      (this (snd (clicks Rotating.handleClick 4 "[3,3]" single_hidden_world)))
  = [Sel circle].
Proof. repeat split; vm_compute; reflexivity. Qed.

End Interaction.

(** * The dimensions the setters store *)

Section Dimensions.

Lemma five_halves_not_integer : ~ JS.is_integer (5 # 2)%Q.
Proof. intros [z Hz]. unfold Qeq in Hz; simpl in Hz. lia. Qed.

(** C9, as the code has it: the setters store [Number(val)], which for
    a numeric input is the input itself, so the stored dimension is an
    integer exactly when the input is one; [_generatePieces] and the
    hint generators read that stored number as it is. *)
Theorem setters_store_the_number (val : JS.number) (w : World Assisted.Container) :
  (exists w' : World Assisted.Container,
     Assisted.set_columns val w = (Return tt, w') /\
     Assisted.columns (this w') = val /\
     (JS.is_integer (Assisted.columns (this w')) <-> JS.is_integer val) /\
     Assisted._generatePieces w'
     = Assisted._generatePieces_for
         (JS.turns 0%Q (val * Assisted.rows (this w))%Q)
         (val * Assisted.rows (this w))%Q 0%Q [] w' /\
     Assisted.generateColumnHints (this w')
     = Assisted._generateHints (this w')
         (val + Assisted.SHAPES_length)%Q Assisted.SHAPES_length false) /\
  (exists w' : World Assisted.Container,
     Assisted.set_rows val w = (Return tt, w') /\
     Assisted.rows (this w') = val /\
     (JS.is_integer (Assisted.rows (this w')) <-> JS.is_integer val) /\
     Assisted._generatePieces w'
     = Assisted._generatePieces_for
         (JS.turns 0%Q (Assisted.columns (this w) * val)%Q)
         (Assisted.columns (this w) * val)%Q 0%Q [] w' /\
     Assisted.generateRowHints (this w')
     = Assisted._generateHints (this w')
         (val + Assisted.SHAPES_length)%Q Assisted.SHAPES_length true).
Proof.
  split; eexists; (split; [reflexivity|]); repeat split; done.
Qed.

(** C9 as stated fails: 5/2 assigned to [columns] is stored as 5/2, and
    with two rows [generatePieces] then makes five pieces, two of them
    at fractional columns. *)
Lemma fractional_columns_are_stored :
  Assisted.columns
    (this (snd (Assisted.set_columns (5 # 2)%Q Grid.example_world)))
  = (5 # 2)%Q /\
  ~ JS.is_integer
      (Assisted.columns
         (this (snd (Assisted.set_columns (5 # 2)%Q Grid.example_world)))) /\
  PuzzlePiece.key <$>
    Assisted.pieces
      (this (snd ((Assisted.set_columns (5 # 2)%Q >>
                   Assisted.set_rows (JS.of_int 2) >>
                   Assisted.generatePieces) Grid.example_world)))
  = ["[3,3]"; "[4,3]"; "[5,3]"; "[3.5,4]"; "[4.5,4]"].
Proof.
  split; [reflexivity|]. split; [apply five_halves_not_integer|].
  vm_compute. reflexivity.
Qed.

End Dimensions.

(** * Hints and pieces never share a cell *)

Module HintBand.
Import Assisted.
Import Grid.
Import AssistedPieces.
Import AssistedHints.

#[local] Instance key_of_cell_inj : Inj (=) (=) key_of_cell.
Proof.
  intros [x y] [x' y'] Heq. unfold key_of_cell in Heq. simpl in Heq.
  by apply stringifyCoordinates_inj in Heq as [-> ->].
Qed.






Lemma NoDup_piece_cells (c r : Z) : 0 < c -> NoDup (piece_cells c r).
Proof.
  intros Hc. apply NoDup_fmap_2_strong; [|apply NoDup_seqZ].
  intros i j _ _ [= Hm Hd].
  rewrite (Z.div_mod i c), (Z.div_mod j c) by lia. lia.
Qed.

Lemma generated_keys (w : World Container) (c n : Z) :
  0 < c -> columns (this w) = JS.of_int c ->
  PuzzlePiece.key <$> map (nth_piece w) (seq 0 (Z.to_nat n))
  = key_of_cell <$> ((fun i => (i mod c + 3, i / c + 3)) <$> seqZ 0 n).
Proof.
  intros Hc Hcols.
  transitivity (stringifyCoordinates <$>
                  (PuzzlePiece.coordinates <$>
                     map (nth_piece w) (seq 0 (Z.to_nat n)))).
  { rewrite <- !list_fmap_compose. reflexivity. }
  rewrite (generated_coordinates w c n Hc Hcols), <- !list_fmap_compose.
  reflexivity.
Qed.










End HintBand.

(** * More on the generation of the pieces *)

Module Generation.
Import Assisted.
Import Grid.
Import AssistedPieces.
Import AssistedHints.
Import HintBand.

(** X1: the key of a cell with integer coordinates identifies the
    cell: two such cells have the same key exactly when they have the
    same column and the same row. *)
Theorem key_identifies_cell (x y x' y' : Z) :
  stringifyCoordinates {| column := JS.of_int x; row := JS.of_int y |}
  = stringifyCoordinates {| column := JS.of_int x'; row := JS.of_int y' |}
  <-> x = x' /\ y = y'.
Proof.
  split.
  - apply stringifyCoordinates_inj.
  - by intros [-> ->].
Qed.

Lemma find_by_own_key (l : list PuzzlePiece) (i : nat) (p : PuzzlePiece) :
  NoDup (PuzzlePiece.key <$> l) -> l !! i = Some p ->
  find (has_key (PuzzlePiece.key p)) l = Some (i, p).
Proof.
  intros Hnodup Hp. unfold find. apply list_find_Some.
  split; [done|]. split; [by apply String.eqb_eq|].
  intros j y Hy Hj Hkey. apply String.eqb_eq in Hkey.
  assert (j = i); [|lia].
  eapply NoDup_lookup; [exact Hnodup| |].
  - rewrite list_lookup_fmap, Hy. reflexivity.
  - rewrite list_lookup_fmap, Hp. simpl. by rewrite Hkey.
Qed.

Lemma generated_keys_NoDup (w : World Container) (c r : Z) :
  0 < c -> columns (this w) = JS.of_int c ->
  NoDup (PuzzlePiece.key <$> map (nth_piece w) (seq 0 (Z.to_nat (c * r)))).
Proof.
  intros Hc Hcols. rewrite (generated_keys w c) by done.
  fold (piece_cells c r).
  apply NoDup_fmap_2_strong; [|by apply NoDup_piece_cells].
  intros x y _ _. apply key_of_cell_inj.
Qed.

(** X2: in a puzzle generated for integer columns > 0 and rows > 0 the
    lookup a click makes with the key of a piece finds that piece, at
    its own place in the collection. *)
Theorem find_generated_piece (w : World Container) (c r : Z) :
  0 < c -> 0 < r ->
  columns (this w) = JS.of_int c -> rows (this w) = JS.of_int r ->
  exists w' : World Container,
    connectedCallback w = (Return tt, w') /\
    forall (i : nat) (p : PuzzlePiece),
      pieces (this w') !! i = Some p ->
      find (has_key (PuzzlePiece.key p)) (pieces (this w')) = Some (i, p).
Proof.
  intros Hc Hr Hcols Hrows. assert (0 <= c * r) by nia.
  eexists. split.
  { unfold connectedCallback, bind at 1, generatePieces, bind at 1.
    rewrite (_generatePieces_integer w c r) by done. reflexivity. }
  cbn [this pieces with_pieces with_hints update_this drawn].
  intros i p Hp. apply find_by_own_key; [|done].
  by apply (generated_keys_NoDup w c r).
Qed.

Lemma find_generated_piece_witness :
  exists w' : World Container,
    connectedCallback example_world = (Return tt, w') /\
    forall (i : nat) (p : PuzzlePiece),
      pieces (this w') !! i = Some p ->
      find (has_key (PuzzlePiece.key p)) (pieces (this w')) = Some (i, p).
Proof.
  apply (find_generated_piece example_world 2 3);
    [lia | lia | reflexivity | reflexivity].
Defined.

(** X3: when the product of the dimensions is not positive,
    [generatePieces] leaves no piece and calls [Math.random()] not
    once. *)
Theorem generatePieces_nothing (w : World Container) :
  (columns (this w) * rows (this w) <= 0)%Q ->
  exists w' : World Container,
    generatePieces w = (Return tt, w') /\
    pieces (this w') = [] /\
    random_calls w' = random_calls w /\
    hints (this w') = hints (this w).
Proof.
  intros Hcount%ltb_ge. apply turns_done in Hcount.
  unfold generatePieces, bind at 1, _generatePieces, bind at 1, get_this at 1.
  rewrite Hcount. eexists. split; [reflexivity|]. done.
Qed.

Lemma generatePieces_nothing_witness :
  exists w' : World Container,
    generatePieces
      {| this := with_columns (JS.of_int 0) initial;
         random_source := example_source; random_calls := 0 |}
    = (Return tt, w') /\
    pieces (this w') = [] /\
    random_calls w' = 0%nat /\
    hints (this w') = [].
Proof.
  apply (generatePieces_nothing
           {| this := with_columns (JS.of_int 0) initial;
              random_source := example_source; random_calls := 0 |}).
  vm_compute. discriminate.
Defined.

(** X4: for integer dimensions whose product is not negative,
    [generatePieces] leaves exactly columns*rows pieces and has called
    [Math.random()] exactly twice per piece; two negative dimensions
    give a puzzle as well. *)
Theorem generatePieces_draws (w : World Container) (c r : Z) :
  0 <= c * r ->
  columns (this w) = JS.of_int c -> rows (this w) = JS.of_int r ->
  exists w' : World Container,
    generatePieces w = (Return tt, w') /\
    Z.of_nat (length (pieces (this w'))) = c * r /\
    Z.of_nat (random_calls w') = Z.of_nat (random_calls w) + 2 * (c * r).
Proof.
  intros Hcr Hcols Hrows. eexists. split.
  { unfold generatePieces, bind at 1.
    rewrite (_generatePieces_integer w c r) by done. reflexivity. }
  cbn [this pieces with_pieces update_this drawn random_calls].
  rewrite length_map, length_seq. lia.
Qed.

Lemma generatePieces_draws_witness :
  exists w' : World Container,
    generatePieces
      {| this := with_columns (JS.of_int (-2)) (with_rows (JS.of_int (-3)) initial);
         random_source := example_source; random_calls := 0 |}
    = (Return tt, w') /\
    Z.of_nat (length (pieces (this w'))) = (-2) * (-3) /\
    Z.of_nat (random_calls w') = Z.of_nat 0 + 2 * ((-2) * (-3)).
Proof.
  apply (generatePieces_draws
           {| this := with_columns (JS.of_int (-2))
                        (with_rows (JS.of_int (-3)) initial);
              random_source := example_source; random_calls := 0 |} (-2) (-3));
    [lia | reflexivity | reflexivity].
Defined.

End Generation.

(** * More on tallies and hints *)

Module Lines.
Import Assisted.
Import Grid.
Import AssistedPieces.
Import AssistedHints.

(** X5: an axis whose dimension is not positive gets no hint. *)
Theorem no_hints_for_empty_axis (self : Container) (isRow : bool) :
  ((if isRow then rows self else columns self) <= 0)%Q ->
  (if isRow then generateRowHints self else generateColumnHints self) = [].
Proof.
  intros Hdim.
  assert (Hturns : forall dim : JS.number,
             (dim <= 0)%Q ->
             JS.turns SHAPES_length (dim + SHAPES_length)%Q = 0%nat).
  { intros dim Hle. apply turns_done, ltb_ge. lra. }
  destruct isRow.
  - unfold generateRowHints, _generateHints, SHAPES.
    rewrite (Hturns _ Hdim). reflexivity.
  - unfold generateColumnHints, _generateHints, SHAPES.
    rewrite (Hturns _ Hdim). reflexivity.
Qed.

Lemma no_hints_for_empty_axis_witness :
  generateRowHints (with_rows (JS.of_int 0) initial) = [].
Proof.
  apply (no_hints_for_empty_axis (with_rows (JS.of_int 0) initial) true).
  vm_compute. discriminate.
Defined.

(** X6: on a value of [Math.random()] that is a multiple of 2^-52 the
    shape of a piece is read off the value by thirds: the circle below
    1/3, the square from 1/3 to below 2/3, the triangle from 2/3 on; the
    three revisions compute it alike. *)
Theorem random_shape_by_thirds (d : JS.draw) :
  multiple_of_2_pow_minus_52 d ->
  (Unassisted.getRandomShape (JS.draw_value d) = circle
   <-> (JS.draw_value d < 1 # 3)%Q) /\
  (Unassisted.getRandomShape (JS.draw_value d) = square
   <-> (1 # 3 <= JS.draw_value d)%Q /\ (JS.draw_value d < 2 # 3)%Q) /\
  (Unassisted.getRandomShape (JS.draw_value d) = triangle
   <-> (2 # 3 <= JS.draw_value d)%Q) /\
  (forall self index random1,
     PuzzlePiece.value (piece_at self index random1 (JS.draw_value d))
     = Unassisted.getRandomShape (JS.draw_value d)).
Proof.
  intros _.
  assert (Halike : forall self index random1,
             PuzzlePiece.value (piece_at self index random1 (JS.draw_value d))
             = Unassisted.getRandomShape (JS.draw_value d)) by reflexivity.
  pose proof (random_index_in_range d) as Hrange.
  unfold Unassisted.getRandomShape, JS.at_index in *.
  change Unassisted.SHAPES_length with SHAPES_length in *.
  unfold JS.Math_floor in *. rewrite Qfloor_Z in *.
  pose proof (Qfloor_le (JS.draw_value d * SHAPES_length)) as Hlo.
  pose proof (Qlt_floor (JS.draw_value d * SHAPES_length)) as Hhi.
  change SHAPES_length with (3 # 1)%Q in *.
  rewrite inject_Z_plus in Hhi.
  destruct (Qfloor (JS.draw_value d * (3 # 1))) as [|[p|[p|p|]|]|p] eqn:Hz;
    try lia; unfold inject_Z in Hlo, Hhi.
  - change (Unassisted.SHAPES !!! Z.to_nat 0) with circle in *.
    repeat split; intros; try done; try destruct_and!;
      first [lra | exfalso; lra].
  - change (Unassisted.SHAPES !!! Z.to_nat 2) with triangle in *.
    repeat split; intros; try done; try destruct_and!;
      first [lra | exfalso; lra].
  - change (Unassisted.SHAPES !!! Z.to_nat 1) with square in *.
    repeat split; intros; try done; try destruct_and!;
      first [lra | exfalso; lra].
Qed.

Lemma random_shape_by_thirds_witness :
  (Unassisted.getRandomShape (3 # 4)%Q = circle <-> (3 # 4 < 1 # 3)%Q) /\
  (Unassisted.getRandomShape (3 # 4)%Q = square
   <-> (1 # 3 <= 3 # 4)%Q /\ (3 # 4 < 2 # 3)%Q) /\
  (Unassisted.getRandomShape (3 # 4)%Q = triangle <-> (2 # 3 <= 3 # 4)%Q) /\
  (forall self index random1,
     PuzzlePiece.value (piece_at self index random1 (3 # 4)%Q)
     = Unassisted.getRandomShape (3 # 4)%Q).
Proof.
  apply (random_shape_by_thirds (JS.Draw (3 # 4)%Q eq_refl)).
  reflexivity.
Defined.

Lemma filter_none {A} (f : A -> bool) (l : list A) :
  (forall x, x ∈ l -> f x = false) -> List.filter f l = [].
Proof.
  induction l as [|x l IH]; intros Hf; [done|].
  cbn [List.filter]. rewrite (Hf x) by apply list_elem_of_here.
  apply IH. intros y Hy. by apply Hf, list_elem_of_further.
Qed.

Lemma filter_all {A} (f : A -> bool) (l : list A) :
  (forall x, x ∈ l -> f x = true) -> List.filter f l = l.
Proof.
  induction l as [|x l IH]; intros Hf; [done|].
  cbn [List.filter]. rewrite (Hf x) by apply list_elem_of_here.
  f_equal. apply IH. intros y Hy. by apply Hf, list_elem_of_further.
Qed.

Lemma length_filter_fmap {A B} (g : A -> B) (f : B -> bool) (l : list A) :
  length (List.filter f (g <$> l)) = length (List.filter (fun x => f (g x)) l).
Proof.
  induction l as [|x l IH]; [done|].
  cbn [fmap list_fmap List.filter]. destruct (f (g x)); simpl; by rewrite <- IH.
Qed.

(** The indices of a grid with [c] columns that fall in the row [j]. *)
Lemma count_row (c r j : Z) :
  0 < c -> 0 <= j < r ->
  length (List.filter (fun i => j =? i / c) (seqZ 0 (c * r))) = Z.to_nat c.
Proof.
  intros Hc Hj.
  replace (seqZ 0 (c * r)) with (seqZ 0 (c * j + (c + c * (r - j - 1))))
    by (f_equal; lia).
  rewrite seqZ_app, seqZ_app, !List.filter_app by nia.
  rewrite filter_none, (filter_all _ (seqZ (0 + c * j) c)), filter_none.
  - rewrite app_nil_l, app_nil_r. apply length_seqZ.
  - intros i Hi%elem_of_seqZ. apply Z.eqb_neq.
    assert (j + 1 <= i / c) by (apply Z.div_le_lower_bound; lia). lia.
  - intros i Hi%elem_of_seqZ. apply Z.eqb_eq.
    assert (j <= i / c) by (apply Z.div_le_lower_bound; lia).
    assert (i / c < j + 1) by (apply Z.div_lt_upper_bound; lia). lia.
  - intros i Hi%elem_of_seqZ. apply Z.eqb_neq.
    assert (i / c < j) by (apply Z.div_lt_upper_bound; lia). lia.
Qed.

(** The indices of one row of the grid that fall in the column [k]. *)
Lemma count_column_block (c k n : Z) :
  0 < c -> 0 <= k < c ->
  length (List.filter (fun i => k =? i mod c) (seqZ (c * n) c)) = 1%nat.
Proof.
  intros Hc Hk.
  assert (Hmod : forall i t, i = c * n + t -> 0 <= t < c -> i mod c = t).
  { intros i t -> Ht. symmetry. by apply (Z.mod_unique_pos _ c n t). }
  replace (seqZ (c * n) c) with (seqZ (c * n) (k + (1 + (c - k - 1))))
    by (f_equal; lia).
  rewrite seqZ_app, seqZ_app, !List.filter_app by lia.
  rewrite filter_none, (filter_all _ (seqZ (c * n + k) 1)), filter_none.
  - reflexivity.
  - intros i Hi%elem_of_seqZ. apply Z.eqb_neq.
    rewrite (Hmod i (i - c * n)); lia.
  - intros i Hi%elem_of_seqZ. apply Z.eqb_eq.
    rewrite (Hmod i (i - c * n)); lia.
  - intros i Hi%elem_of_seqZ. apply Z.eqb_neq.
    rewrite (Hmod i (i - c * n)); lia.
Qed.

Lemma count_column (c k : Z) (n : nat) :
  0 < c -> 0 <= k < c ->
  length (List.filter (fun i => k =? i mod c) (seqZ 0 (c * Z.of_nat n))) = n.
Proof.
  intros Hc Hk. induction n as [|n IH].
  - by rewrite Z.mul_0_r.
  - replace (c * Z.of_nat (S n)) with (c * Z.of_nat n + c) by lia.
    rewrite seqZ_app, List.filter_app, length_app, IH by lia.
    rewrite Z.add_0_l, count_column_block by done. lia.
Qed.

Lemma tally_sum (pieces : list PuzzlePiece) (axis : Axis) (line : JS.number) :
  (tally pieces axis line circle + tally pieces axis line square
   + tally pieces axis line triangle)%nat
  = line_length pieces axis line.
Proof.
  unfold line_length.
  induction pieces as [|p ps IH]; [done|].
  cbn [tally List.filter]. rewrite eqb_Qeq_dec.
  destruct (Qeq_dec _ _); [|cbn; lia].
  cbn [length]. rewrite <- IH.
  destruct (PuzzlePiece.value p); repeat case_decide; try congruence; lia.
Qed.

(** X7: on every line the tallies of the three shapes add up to the
    number of pieces on that line, in the revision with assist mode and
    in the revisions without it. *)
Theorem tallies_add_up (pieces : list PuzzlePiece) (axis : Axis)
    (line : JS.number) :
  (getValueCount (new_PuzzleTally pieces) axis line circle
   + getValueCount (new_PuzzleTally pieces) axis line square
   + getValueCount (new_PuzzleTally pieces) axis line triangle)%nat
  = line_length pieces axis line /\
  (Unassisted.getTally (Unassisted.new_PuzzleTally pieces) axis line circle
   + Unassisted.getTally (Unassisted.new_PuzzleTally pieces) axis line square
   + Unassisted.getTally (Unassisted.new_PuzzleTally pieces) axis line triangle)%nat
  = line_length pieces axis line.
Proof.
  rewrite !getValueCount_tally, !getTally_tally. split; apply tally_sum.
Qed.

Lemma generated_line_length (w : World Container) (c r : Z) (axis : Axis)
    (t : Z) :
  0 < c -> 0 < r -> columns (this w) = JS.of_int c ->
  0 <= t < (match axis with Row => r | Column => c end) ->
  line_length (map (nth_piece w) (seq 0 (Z.to_nat (c * r)))) axis
    (JS.of_int (numShapes + t))
  = Z.to_nat (match axis with Row => c | Column => r end).
Proof.
  intros Hc Hr Hcols Ht. unfold line_length.
  rewrite <- (length_filter_fmap PuzzlePiece.coordinates
                (fun cell => JS.eqb (JS.of_int (numShapes + t))
                                    (coordinate_of axis cell))).
  rewrite (generated_coordinates w c (c * r) Hc Hcols), length_filter_fmap.
  change numShapes with 3. destruct axis; cbn [coordinate_of cell_of_index column row].
  - rewrite <- (count_column c t (Z.to_nat r)), Z2Nat.id by lia.
    f_equal. apply List.filter_ext. intros i. rewrite of_int_eqb.
    destruct (Z.eqb_spec (3 + t) (i mod c + 3)), (Z.eqb_spec t (i mod c)); lia.
  - rewrite <- (count_row c r t) by lia.
    f_equal. apply List.filter_ext. intros i. rewrite of_int_eqb.
    destruct (Z.eqb_spec (3 + t) (i / c + 3)), (Z.eqb_spec t (i / c)); lia.
Qed.

(** X8: in a puzzle generated for integer columns > 0 and rows > 0 the
    three tallies of every row add up to columns and the three tallies
    of every column add up to rows. *)
Theorem generated_tallies_add_up (w : World Container) (c r : Z) :
  0 < c -> 0 < r ->
  columns (this w) = JS.of_int c -> rows (this w) = JS.of_int r ->
  exists w' : World Container,
    connectedCallback w = (Return tt, w') /\
    (forall j : Z, 0 <= j < r ->
       Z.of_nat
         (getRowTally (new_PuzzleTally (pieces (this w')))
            (JS.of_int (numShapes + j)) circle
          + getRowTally (new_PuzzleTally (pieces (this w')))
              (JS.of_int (numShapes + j)) square
          + getRowTally (new_PuzzleTally (pieces (this w')))
              (JS.of_int (numShapes + j)) triangle) = c) /\
    (forall k : Z, 0 <= k < c ->
       Z.of_nat
         (getColumnValueCount (new_PuzzleTally (pieces (this w')))
            (JS.of_int (numShapes + k)) circle
          + getColumnValueCount (new_PuzzleTally (pieces (this w')))
              (JS.of_int (numShapes + k)) square
          + getColumnValueCount (new_PuzzleTally (pieces (this w')))
              (JS.of_int (numShapes + k)) triangle) = r).
Proof.
  intros Hc Hr Hcols Hrows. assert (0 <= c * r) by nia.
  eexists. split.
  { unfold connectedCallback, bind at 1, generatePieces, bind at 1.
    rewrite (_generatePieces_integer w c r) by done. reflexivity. }
  cbn [this pieces with_pieces with_hints update_this drawn].
  unfold getRowTally, getColumnValueCount.
  split; intros t Ht; rewrite !getValueCount_tally, tally_sum.
  - rewrite (generated_line_length w c r Row) by done. lia.
  - rewrite (generated_line_length w c r Column) by done. lia.
Qed.

Lemma generated_tallies_add_up_witness :
  exists w' : World Container,
    connectedCallback example_world = (Return tt, w') /\
    (forall j : Z, 0 <= j < 3 ->
       Z.of_nat
         (getRowTally (new_PuzzleTally (pieces (this w')))
            (JS.of_int (numShapes + j)) circle
          + getRowTally (new_PuzzleTally (pieces (this w')))
              (JS.of_int (numShapes + j)) square
          + getRowTally (new_PuzzleTally (pieces (this w')))
              (JS.of_int (numShapes + j)) triangle) = 2) /\
    (forall k : Z, 0 <= k < 2 ->
       Z.of_nat
         (getColumnValueCount (new_PuzzleTally (pieces (this w')))
            (JS.of_int (numShapes + k)) circle
          + getColumnValueCount (new_PuzzleTally (pieces (this w')))
              (JS.of_int (numShapes + k)) square
          + getColumnValueCount (new_PuzzleTally (pieces (this w')))
              (JS.of_int (numShapes + k)) triangle) = 3).
Proof.
  apply (generated_tallies_add_up example_world 2 3);
    [lia | lia | reflexivity | reflexivity].
Defined.

End Lines.

(** * More on clicks, reset and assist mode *)

Section MoreInteraction.

Lemma tally_same_cells (ps qs : list PuzzlePiece) (axis : Axis)
    (line : JS.number) (shape : Shape) :
  same_cells ps qs -> tally ps axis line shape = tally qs axis line shape.
Proof.
  induction 1 as [|p q ps qs [Hc Hv] _ IH]; [done|].
  cbn [tally]. by rewrite Hc, Hv, IH.
Qed.

Lemma same_cells_fmap (f : PuzzlePiece -> PuzzlePiece) (ps : list PuzzlePiece) :
  (forall p, PuzzlePiece.coordinates (f p) = PuzzlePiece.coordinates p /\
             PuzzlePiece.value (f p) = PuzzlePiece.value p) ->
  same_cells (f <$> ps) ps.
Proof.
  intros Hf. unfold same_cells.
  apply Forall2_fmap_l, Forall_Forall2_diag, list.Forall_forall.
  intros p _. apply Hf.
Qed.

Lemma same_cells_alter (v : SelectableValues) (i : nat) (ps : list PuzzlePiece) :
  same_cells (alter (PuzzlePiece.set_selectedValue v) i ps) ps.
Proof.
  revert i. induction ps as [|p ps IH]; intros [|i]; cbn.
  - constructor.
  - constructor.
  - constructor; [done|]. apply Forall_Forall2_diag, list.Forall_forall. done.
  - constructor; [done|]. apply IH.
Qed.

Lemma Assisted_generateHints_ext (self self' : Assisted.Container)
    (total start : JS.number) (isRow : bool) :
  (forall shape index coord,
     Assisted.hint_at self (Assisted.new_PuzzleTally (Assisted.pieces self))
       isRow shape index coord
     = Assisted.hint_at self' (Assisted.new_PuzzleTally (Assisted.pieces self'))
         isRow shape index coord) ->
  Assisted._generateHints self total start isRow
  = Assisted._generateHints self' total start isRow.
Proof.
  intros Hbody.
  assert (Hloop : forall shape index fuel coord acc,
             Assisted._generateHints_for self
               (Assisted.new_PuzzleTally (Assisted.pieces self))
               isRow shape index fuel total coord acc
             = Assisted._generateHints_for self'
                 (Assisted.new_PuzzleTally (Assisted.pieces self'))
                 isRow shape index fuel total coord acc).
  { intros shape index fuel. induction fuel as [|fuel IH]; intros coord acc.
    - done.
    - cbn [Assisted._generateHints_for]. destruct (JS.ltb coord total); [|done].
      by rewrite Hbody, IH. }
  unfold Assisted._generateHints, Assisted.SHAPES. cbn [forEach_indexed].
  by rewrite !Hloop.
Qed.

Lemma hint_at_cong (self self' : Assisted.Container) (isRow : bool)
    (shape : Shape) (index : nat) (coord : JS.number) :
  Assisted.enableAssist self = Assisted.enableAssist self' ->
  Assisted.size self = Assisted.size self' ->
  (Assisted.pieces self = Assisted.pieces self'
   \/ (Assisted.enableAssist self = false
       /\ same_cells (Assisted.pieces self) (Assisted.pieces self'))) ->
  Assisted.hint_at self (Assisted.new_PuzzleTally (Assisted.pieces self))
    isRow shape index coord
  = Assisted.hint_at self' (Assisted.new_PuzzleTally (Assisted.pieces self'))
      isRow shape index coord.
Proof.
  intros Hassist Hsize [Hpieces|[Hoff Hcells]]; unfold Assisted.hint_at.
  - by rewrite Hassist, Hsize, Hpieces.
  - rewrite <- Hassist, Hoff, <- Hsize.
    unfold Assisted.getRowTally, Assisted.getColumnValueCount.
    rewrite !getValueCount_tally.
    rewrite !(tally_same_cells _ _ _ _ _ Hcells).
    destruct isRow; cbv zeta; by rewrite !andb_false_r.
Qed.

Lemma generators_cong (self self' : Assisted.Container) :
  Assisted.columns self = Assisted.columns self' ->
  Assisted.rows self = Assisted.rows self' ->
  Assisted.enableAssist self = Assisted.enableAssist self' ->
  Assisted.size self = Assisted.size self' ->
  (Assisted.pieces self = Assisted.pieces self'
   \/ (Assisted.enableAssist self = false
       /\ same_cells (Assisted.pieces self) (Assisted.pieces self'))) ->
  Assisted.generateColumnHints self ++ Assisted.generateRowHints self
  = Assisted.generateColumnHints self' ++ Assisted.generateRowHints self'.
Proof.
  intros Hcols Hrows Hassist Hsize Hpieces.
  unfold Assisted.generateColumnHints, Assisted.generateRowHints.
  rewrite Hcols, Hrows.
  f_equal; apply Assisted_generateHints_ext; intros; by apply hint_at_cong.
Qed.

Lemma hints_current_with_hints (self : Assisted.Container) :
  hints_current
    (Assisted.with_hints
       (Assisted.generateColumnHints self ++ Assisted.generateRowHints self)
       self).
Proof.
  unfold hints_current. cbn [Assisted.hints Assisted.with_hints].
  apply generators_cong; try reflexivity. by left.
Qed.

Lemma generatePieces_returns (w : World Assisted.Container) :
  exists w' : World Assisted.Container,
    Assisted.generatePieces w = (Return tt, w').
Proof.
  destruct (_generatePieces_Forall (fun _ => True) w) as (ps & w1 & Hgen & _);
    [done|].
  eexists. unfold Assisted.generatePieces, bind at 1. rewrite Hgen. reflexivity.
Qed.

(** X9: after [connectedCallback], after [new] and after
    [handleAssistClick], whatever the dimensions, the hints of the
    component are the hints of its pieces: the column hints followed by
    the row hints, as [generateHints] makes them from the state left. *)
Theorem hints_made_current (w : World Assisted.Container) :
  (exists w', Assisted.connectedCallback w = (Return tt, w')
              /\ hints_current (this w')) /\
  (exists w', Assisted.new w = (Return tt, w') /\ hints_current (this w')) /\
  (exists w', Assisted.handleAssistClick w = (Return tt, w')
              /\ hints_current (this w')
              /\ Assisted.enableAssist (this w')
                 = negb (Assisted.enableAssist (this w))
              /\ Assisted.pieces (this w') = Assisted.pieces (this w)).
Proof.
  destruct (generatePieces_returns w) as (w1 & Hgen).
  repeat split.
  - eexists. split.
    + unfold Assisted.connectedCallback, bind at 1. rewrite Hgen. reflexivity.
    + apply hints_current_with_hints.
  - eexists. split.
    + unfold Assisted.new, bind at 1. rewrite Hgen. reflexivity.
    + apply hints_current_with_hints.
  - eexists. split; [reflexivity|]. split; [|done].
    apply hints_current_with_hints.
Qed.

Lemma Assisted_handleClick_found (uid : string) (w : World Assisted.Container)
    (piece : ref) (p : PuzzlePiece) :
  find (has_key uid) (Assisted.pieces (this w)) = Some (piece, p) ->
  Assisted.handleClick uid w
  = (Return tt,
     assisted_select piece (next_in_cycle (PuzzlePiece.selectedValue p)) w).
Proof.
  intros Hfind. unfold Assisted.handleClick, bind at 1, get_this at 1.
  fold (has_key uid). rewrite Hfind.
  unfold assisted_select, refresh.
  cbn [Assisted.enableAssist Assisted.with_pieces].
  destruct (PuzzlePiece.selectedValue p) as [|[]];
    destruct (Assisted.enableAssist (this w)) eqn:Hassist;
    unfold bind, Assisted.update_piece, update_this, get_this;
    cbn [this random_source random_calls Assisted.enableAssist
         Assisted.with_pieces Assisted.pieces];
    rewrite ?Hassist; reflexivity.
Qed.

Lemma hints_current_refresh (self self0 : Assisted.Container) :
  hints_current self0 ->
  Assisted.hints self = Assisted.hints self0 ->
  Assisted.columns self = Assisted.columns self0 ->
  Assisted.rows self = Assisted.rows self0 ->
  Assisted.enableAssist self = Assisted.enableAssist self0 ->
  Assisted.size self = Assisted.size self0 ->
  same_cells (Assisted.pieces self) (Assisted.pieces self0) ->
  hints_current (refresh self).
Proof.
  intros Hcur Hhints Hcols Hrows Hassist Hsize Hcells. unfold refresh.
  destruct (Assisted.enableAssist self) eqn:Hon.
  - apply hints_current_with_hints.
  - unfold hints_current. rewrite Hhints, Hcur. symmetry.
    apply generators_cong; [done|done|congruence|done|].
    right. split; [congruence|done].
Qed.

(** X10: a click on a key some piece has, and [reset], keep the hints
    those of the pieces: with assist mode on they are made anew, and
    with assist mode off the hints do not depend on what is selected. *)
Theorem hints_kept_current (uid : string) (w : World Assisted.Container)
    (piece : ref) (p : PuzzlePiece) :
  hints_current (this w) ->
  find (has_key uid) (Assisted.pieces (this w)) = Some (piece, p) ->
  (exists w', Assisted.handleClick uid w = (Return tt, w')
              /\ hints_current (this w')) /\
  (exists w', Assisted.reset w = (Return tt, w') /\ hints_current (this w')).
Proof.
  intros Hcur Hfind. split.
  - eexists. split; [by apply Assisted_handleClick_found|].
    cbn [this assisted_select].
    apply (hints_current_refresh _ (this w)); try done.
    apply same_cells_alter.
  - unfold Assisted.reset, bind at 1, get_this at 1.
    unfold bind at 1. rewrite forEach_update_piece, foldl_alter_filter_refs.
    unfold bind at 1, update_this at 1. unfold bind at 1, get_this at 1.
    cbn [this Assisted.pieces Assisted.with_pieces Assisted.enableAssist].
    set (self := Assisted.with_pieces _ _).
    assert (Hself : hints_current (refresh self)).
    { apply (hints_current_refresh _ (this w)); try done.
      apply same_cells_fmap. intros q.
      by destruct (negb (PuzzlePiece.revealed q)). }
    unfold refresh in Hself.
    change (Assisted.enableAssist self) with (Assisted.enableAssist (this w))
      in Hself.
    destruct (Assisted.enableAssist (this w)); eexists; (split; [reflexivity|]);
      exact Hself.
Qed.

Lemma hints_kept_current_witness :
  (exists w', Assisted.handleClick "[3,3]" started_world = (Return tt, w')
              /\ hints_current (this w')) /\
  (exists w', Assisted.reset started_world = (Return tt, w')
              /\ hints_current (this w')).
Proof.
  apply (hints_kept_current "[3,3]" started_world 0%nat
           (Grid.nth_piece Grid.example_world 0));
    vm_compute; reflexivity.
Defined.

(** X11: two clicks on the assist button, from a state whose hints are
    those of its pieces, leave the component exactly as it was. *)
Theorem handleAssistClick_twice (w : World Assisted.Container) :
  hints_current (this w) ->
  (Assisted.handleAssistClick >> Assisted.handleAssistClick) w = (Return tt, w).
Proof.
  intros Hcur. unfold bind, Assisted.handleAssistClick, bind, update_this,
    Assisted.generateHints, update_this.
  cbn [this random_source random_calls]. f_equal.
  destruct w as [self src calls]. cbn [this random_source random_calls] in *.
  f_equal.
  set (self1 := Assisted.with_hints _ (Assisted.with_enableAssist _ self)).
  set (self2 := Assisted.with_enableAssist _ self1).
  assert (Hgen : Assisted.generateColumnHints self2
                 ++ Assisted.generateRowHints self2
                 = Assisted.hints self).
  { rewrite Hcur. apply generators_cong; try reflexivity.
    - cbn. apply negb_involutive.
    - by left. }
  rewrite Hgen. clear Hgen Hcur. subst self2 self1.
  destruct self as [a c r s h ps].
  unfold Assisted.with_hints, Assisted.with_enableAssist.
  cbn [Assisted.enableAssist Assisted._columns Assisted._rows Assisted._size
       Assisted.hints Assisted.pieces].
  by rewrite negb_involutive.
Qed.

Lemma handleAssistClick_twice_witness :
  (Assisted.handleAssistClick >> Assisted.handleAssistClick) started_world
  = (Return tt, started_world).
Proof.
  apply (handleAssistClick_twice started_world). vm_compute. reflexivity.
Defined.

End MoreInteraction.

(** * More on clicks in the revision with assist mode *)

Section AssistedClicks.

Lemma find_alter (uid : string) (l : list PuzzlePiece) (piece : ref)
    (p : PuzzlePiece) (v : SelectableValues) :
  find (has_key uid) l = Some (piece, p) ->
  find (has_key uid) (alter (PuzzlePiece.set_selectedValue v) piece l)
  = Some (piece, PuzzlePiece.set_selectedValue v p).
Proof.
  unfold find. rewrite !list_find_Some. intros (Hp & Hkey & Hfirst).
  split; [|split].
  - by rewrite list_lookup_alter, decide_True, Hp.
  - exact Hkey.
  - intros j y Hy Hj. rewrite list_lookup_alter_ne in Hy by lia. eauto.
Qed.

Lemma refresh_pieces (self : Assisted.Container) :
  Assisted.pieces (refresh self) = Assisted.pieces self.
Proof. unfold refresh. by destruct (Assisted.enableAssist self). Qed.

Lemma refresh_frame (self : Assisted.Container) :
  Assisted.enableAssist (refresh self) = Assisted.enableAssist self /\
  Assisted.columns (refresh self) = Assisted.columns self /\
  Assisted.rows (refresh self) = Assisted.rows self /\
  Assisted.size (refresh self) = Assisted.size self.
Proof.
  unfold refresh. destruct (Assisted.enableAssist self) eqn:Hassist; [|done].
  cbn. by rewrite Hassist.
Qed.

(** X12: in the revision with assist mode a click on a key some piece
    has returns and writes the next value of the cyclic order [empty,
    shape1, ..., shapeN] on the first piece with that key, revealed or
    not; the other pieces, the dimensions, assist mode and the random
    source are left as they were. *)
Theorem Assisted_click_advances (uid : string) (w : World Assisted.Container)
    (piece : ref) (p : PuzzlePiece) :
  find (has_key uid) (Assisted.pieces (this w)) = Some (piece, p) ->
  exists w' : World Assisted.Container,
    Assisted.handleClick uid w = (Return tt, w') /\
    Assisted.pieces (this w')
    = alter (PuzzlePiece.set_selectedValue
               (next_in_cycle (PuzzlePiece.selectedValue p)))
            piece (Assisted.pieces (this w)) /\
    Assisted.enableAssist (this w') = Assisted.enableAssist (this w) /\
    Assisted.columns (this w') = Assisted.columns (this w) /\
    Assisted.rows (this w') = Assisted.rows (this w) /\
    Assisted.size (this w') = Assisted.size (this w) /\
    random_calls w' = random_calls w.
Proof.
  intros Hfind. eexists. split; [by apply Assisted_handleClick_found|].
  cbn [this assisted_select random_calls].
  rewrite refresh_pieces. split; [reflexivity|].
  pose proof (refresh_frame
                (Assisted.with_pieces
                   (alter (PuzzlePiece.set_selectedValue
                             (next_in_cycle (PuzzlePiece.selectedValue p)))
                          piece (Assisted.pieces (this w)))
                   (this w))) as (Ha & Hc & Hr & Hs).
  by rewrite Ha, Hc, Hr, Hs.
Qed.

Lemma Assisted_click_advances_witness :
  exists w' : World Assisted.Container,
    Assisted.handleClick "[3,3]" started_world = (Return tt, w') /\
    Assisted.pieces (this w')
    = alter (PuzzlePiece.set_selectedValue
               (next_in_cycle
                  (PuzzlePiece.selectedValue
                     (Grid.nth_piece Grid.example_world 0))))
            0%nat (Assisted.pieces (this started_world)) /\
    Assisted.enableAssist (this w') = Assisted.enableAssist (this started_world) /\
    Assisted.columns (this w') = Assisted.columns (this started_world) /\
    Assisted.rows (this w') = Assisted.rows (this started_world) /\
    Assisted.size (this w') = Assisted.size (this started_world) /\
    random_calls w' = random_calls started_world.
Proof.
  apply (Assisted_click_advances "[3,3]" started_world 0%nat
           (Grid.nth_piece Grid.example_world 0)).
  vm_compute. reflexivity.
Defined.

Lemma Assisted_clicks (uid : string) (piece : ref) :
  forall (n : nat) (w : World Assisted.Container) (p : PuzzlePiece),
    find (has_key uid) (Assisted.pieces (this w)) = Some (piece, p) ->
    exists w' : World Assisted.Container,
      clicks Assisted.handleClick n uid w = (Return tt, w') /\
      Assisted.pieces (this w') !! piece
      = Some (PuzzlePiece.set_selectedValue
                (Nat.iter n next_in_cycle (PuzzlePiece.selectedValue p)) p) /\
      (forall j, j <> piece ->
         Assisted.pieces (this w') !! j = Assisted.pieces (this w) !! j).
Proof.
  induction n as [|n IH]; intros w p Hfind.
  - exists w. split; [reflexivity|]. split; [|done].
    apply list_find_Some in Hfind as (Hp & _). rewrite Hp. by destruct p.
  - cbn [clicks]. unfold bind at 1.
    rewrite (Assisted_handleClick_found uid w piece p) by done.
    set (v := next_in_cycle (PuzzlePiece.selectedValue p)).
    destruct (IH (assisted_select piece v w) (PuzzlePiece.set_selectedValue v p))
      as (w' & Hclicks & Hpiece & Hothers).
    { cbn [this assisted_select]. rewrite refresh_pieces.
      by apply find_alter. }
    exists w'. split; [done|]. rewrite Nat.iter_succ_r. split; [exact Hpiece|].
    intros j Hj. rewrite Hothers by done.
    cbn [this assisted_select]. rewrite refresh_pieces.
    cbn [Assisted.pieces Assisted.with_pieces].
    by rewrite list_lookup_alter_ne.
Qed.

(** X13: in the revision with assist mode the selected value of any
    piece, revealed or not, goes round the cyclic order with the
    clicks: every fourth click on the same key leaves the collection of
    pieces as it was. *)
Theorem Assisted_four_clicks (uid : string) (w : World Assisted.Container)
    (piece : ref) (p : PuzzlePiece) :
  find (has_key uid) (Assisted.pieces (this w)) = Some (piece, p) ->
  exists w' : World Assisted.Container,
    clicks Assisted.handleClick (length Assisted.SELECTABLE_VALUES) uid w
    = (Return tt, w') /\
    Assisted.pieces (this w') = Assisted.pieces (this w).
Proof.
  intros Hfind.
  destruct (Assisted_clicks uid piece 4 w p Hfind) as (w' & Hclicks & Hp & Hothers).
  exists w'. split; [exact Hclicks|].
  apply list_eq. intros j. destruct (decide (j = piece)) as [->|Hne].
  - rewrite Hp. apply list_find_Some in Hfind as (Hlook & _). rewrite Hlook.
    f_equal. destruct p as [? ? ? ? ? ? [|[]]]; reflexivity.
  - by apply Hothers.
Qed.

Lemma Assisted_four_clicks_witness :
  exists w' : World Assisted.Container,
    clicks Assisted.handleClick (length Assisted.SELECTABLE_VALUES)
      "[3,3]" started_world
    = (Return tt, w') /\
    Assisted.pieces (this w') = Assisted.pieces (this started_world).
Proof.
  apply (Assisted_four_clicks "[3,3]" started_world 0%nat
           (Grid.nth_piece Grid.example_world 0)).
  vm_compute. reflexivity.
Defined.

(** X14: in the revision with assist mode a click always moves the
    selected value, so a valid puzzle is no longer valid after a click
    on any of its pieces. *)
Theorem Assisted_click_invalidates (uid : string) (w : World Assisted.Container)
    (piece : ref) (p : PuzzlePiece) :
  find (has_key uid) (Assisted.pieces (this w)) = Some (piece, p) ->
  Assisted.checkValidity (this w) = true ->
  exists w' : World Assisted.Container,
    Assisted.handleClick uid w = (Return tt, w') /\
    Assisted.checkValidity (this w') = false.
Proof.
  intros Hfind Hvalid. eexists. split; [by apply Assisted_handleClick_found|].
  apply not_true_is_false. intros Hvalid'.
  apply checkValidity_Forall in Hvalid, Hvalid'.
  cbn [this assisted_select] in Hvalid'. rewrite refresh_pieces in Hvalid'.
  cbn [Assisted.pieces Assisted.with_pieces] in Hvalid'.
  apply list_find_Some in Hfind as (Hp & _).
  rewrite list.Forall_forall in Hvalid, Hvalid'.
  assert (Hsel : PuzzlePiece.selectedValue p = Sel (PuzzlePiece.value p)).
  { apply Hvalid. by eapply list_elem_of_lookup_2. }
  specialize (Hvalid'
                (PuzzlePiece.set_selectedValue
                   (next_in_cycle (PuzzlePiece.selectedValue p)) p)).
  cbn [PuzzlePiece.selectedValue PuzzlePiece.value
       PuzzlePiece.set_selectedValue] in Hvalid'.
  rewrite Hsel in Hvalid'.
  assert (Hnext : next_in_cycle (Sel (PuzzlePiece.value p))
                  = Sel (PuzzlePiece.value p)).
  { apply Hvalid'. eapply list_elem_of_lookup_2.
    rewrite list_lookup_alter, decide_True, Hp by done.
    reflexivity. }
  destruct (PuzzlePiece.value p); discriminate.
Qed.

End AssistedClicks.

(** * More on reset and on the fills *)

Section MoreReset.

Lemma Assisted_click_invalidates_witness :
  exists w' : World Assisted.Container,
    Assisted.handleClick "[3,3]" revealed_world = (Return tt, w') /\
    Assisted.checkValidity (this w') = false.
Proof.
  apply (Assisted_click_invalidates "[3,3]" revealed_world 0%nat revealed_piece);
    vm_compute; reflexivity.
Defined.

Lemma reset_piece_idempotent (p : PuzzlePiece) :
  reset_piece (reset_piece p) = reset_piece p.
Proof.
  unfold reset_piece. destruct (PuzzlePiece.revealed p) eqn:Hrev.
  - by rewrite Hrev.
  - cbn. by rewrite Hrev.
Qed.

Lemma reset_piece_fresh (p : PuzzlePiece) :
  unrevealed_empty p -> reset_piece p = p.
Proof.
  unfold unrevealed_empty, reset_piece. intros Hp.
  destruct (PuzzlePiece.revealed p) eqn:Hrev; [done|].
  destruct p as [? ? ? ? ? ? sel]. cbn in *. by rewrite Hp.
Qed.

(** X15: [reset] done twice leaves the pieces [reset] done once
    leaves, and it leaves the collection as it was when no unrevealed
    piece had anything selected, as right after [generatePieces]. *)
Theorem reset_settles (w : World Assisted.Container) :
  (exists w1 w2 : World Assisted.Container,
     Assisted.reset w = (Return tt, w1) /\
     (Assisted.reset >> Assisted.reset) w = (Return tt, w2) /\
     Assisted.pieces (this w2) = Assisted.pieces (this w1) /\
     (Forall unrevealed_empty (Assisted.pieces (this w)) ->
      Assisted.pieces (this w1) = Assisted.pieces (this w))) /\
  (exists w1 w2 : World Assisted.Container,
     Assisted.generatePieces w = (Return tt, w1) /\
     (Assisted.generatePieces >> Assisted.reset) w = (Return tt, w2) /\
     Assisted.pieces (this w2) = Assisted.pieces (this w1)).
Proof.
  assert (Hfresh : forall l : list PuzzlePiece,
             Forall unrevealed_empty l -> reset_piece <$> l = l).
  { intros l Hl. rewrite <- (list_fmap_id l) at 2.
    apply Forall_fmap_ext_1. eapply list.Forall_impl; [exact Hl|].
    intros p Hp. by apply reset_piece_fresh. }
  split.
  - destruct (reset_pieces w) as (w1 & Hreset1 & Hpieces1 & _).
    destruct (reset_pieces w1) as (w2 & Hreset2 & Hpieces2 & _).
    exists w1, w2. split; [done|]. split.
    { unfold bind. by rewrite Hreset1. }
    split.
    + rewrite Hpieces2, Hpieces1, <- list_fmap_compose.
      apply list_fmap_ext. intros _ p _. apply reset_piece_idempotent.
    + intros Hl. rewrite Hpieces1. by apply Hfresh.
  - destruct (_generatePieces_Forall fresh_selection w
                (piece_at_fresh_selection (this w)))
      as (ps & w0 & Hgen & _ & Hps).
    set (w1 := {| this := Assisted.with_pieces ps (this w0);
                  random_source := random_source w0;
                  random_calls := random_calls w0 |}).
    assert (Hgen1 : Assisted.generatePieces w = (Return tt, w1)).
    { unfold Assisted.generatePieces, bind at 1. by rewrite Hgen. }
    destruct (reset_pieces w1) as (w2 & Hreset2 & Hpieces2 & _).
    exists w1, w2. split; [done|]. split.
    { unfold bind. by rewrite Hgen1. }
    rewrite Hpieces2. apply Hfresh. cbn [w1 this Assisted.pieces Assisted.with_pieces].
    eapply list.Forall_impl; [exact Hps|].
    intros p Hp Hrev. unfold fresh_selection in Hp. by rewrite Hrev in Hp.
Qed.

(** X16: [reset] undoes the clicks on unrevealed pieces only: after a
    click on a piece and a reset, an unrevealed piece has nothing
    selected, and a revealed piece keeps the value the click gave it. *)
Theorem click_then_reset (uid : string) (w : World Assisted.Container)
    (piece : ref) (p : PuzzlePiece) :
  find (has_key uid) (Assisted.pieces (this w)) = Some (piece, p) ->
  exists w' : World Assisted.Container,
    (Assisted.handleClick uid >> Assisted.reset) w = (Return tt, w') /\
    Assisted.pieces (this w') !! piece
    = Some (PuzzlePiece.set_selectedValue
              (if PuzzlePiece.revealed p
               then next_in_cycle (PuzzlePiece.selectedValue p)
               else Empty) p).
Proof.
  intros Hfind.
  destruct (reset_pieces
              (assisted_select piece
                 (next_in_cycle (PuzzlePiece.selectedValue p)) w))
    as (w' & Hreset & Hpieces & _).
  exists w'. split.
  { unfold bind. by rewrite (Assisted_handleClick_found uid w piece p). }
  rewrite Hpieces. cbn [this assisted_select]. rewrite refresh_pieces.
  cbn [Assisted.pieces Assisted.with_pieces].
  apply list_find_Some in Hfind as (Hp & _).
  rewrite list_lookup_fmap, list_lookup_alter, decide_True, Hp by done.
  cbn. f_equal. unfold reset_piece. cbn.
  by destruct (PuzzlePiece.revealed p).
Qed.

Lemma click_then_reset_witness :
  exists w' : World Assisted.Container,
    (Assisted.handleClick "[3,3]" >> Assisted.reset) revealed_world
    = (Return tt, w') /\
    Assisted.pieces (this w') !! 0%nat
    = Some (PuzzlePiece.set_selectedValue
              (if PuzzlePiece.revealed revealed_piece
               then next_in_cycle (PuzzlePiece.selectedValue revealed_piece)
               else Empty) revealed_piece).
Proof.
  apply (click_then_reset "[3,3]" revealed_world 0%nat revealed_piece).
  vm_compute. reflexivity.
Defined.

Lemma piece_at_fill_consistent (self : Assisted.Container)
    (index random1 random2 : JS.number) :
  fill_consistent (Assisted.piece_at self index random1 random2).
Proof. reflexivity. Qed.

Lemma fill_consistent_fmap (f : PuzzlePiece -> PuzzlePiece)
    (l : list PuzzlePiece) :
  (forall p, fill_consistent p -> fill_consistent (f p)) ->
  Forall fill_consistent l -> Forall fill_consistent (f <$> l).
Proof.
  intros Hf Hl. apply Forall_fmap. eapply list.Forall_impl; [exact Hl|].
  intros p Hp. by apply Hf.
Qed.

Lemma fill_consistent_alter (v : SelectableValues) (i : nat)
    (l : list PuzzlePiece) :
  Forall fill_consistent l ->
  Forall fill_consistent (alter (PuzzlePiece.set_selectedValue v) i l).
Proof.
  intros Hl. apply Forall_alter; [done|]. intros p _ Hp. exact Hp.
Qed.

(** X17: the fill of every piece says whether the piece is revealed:
    [generatePieces] makes it so, whatever the dimensions, and a click,
    [reset] and the assist button keep it so. *)
Theorem fill_stays_consistent (uid : string) (w : World Assisted.Container) :
  Forall fill_consistent
    (Assisted.pieces (this (snd (Assisted.generatePieces w)))) /\
  (Forall fill_consistent (Assisted.pieces (this w)) ->
   Forall fill_consistent
     (Assisted.pieces (this (snd (Assisted.handleClick uid w)))) /\
   Forall fill_consistent
     (Assisted.pieces (this (snd (Assisted.reset w)))) /\
   Forall fill_consistent
     (Assisted.pieces (this (snd (Assisted.handleAssistClick w))))).
Proof.
  split.
  - destruct (_generatePieces_Forall fill_consistent w
                (piece_at_fill_consistent (this w)))
      as (ps & w0 & Hgen & _ & Hps).
    unfold Assisted.generatePieces, bind at 1. by rewrite Hgen.
  - intros Hl. repeat split.
    + destruct (find (has_key uid) (Assisted.pieces (this w)))
        as [[piece p]|] eqn:Hfind.
      * rewrite (Assisted_handleClick_found uid w piece p) by done.
        cbn [snd this assisted_select]. rewrite refresh_pieces.
        by apply fill_consistent_alter.
      * unfold Assisted.handleClick, bind at 1, get_this at 1.
        fold (has_key uid). by rewrite Hfind.
    + destruct (reset_pieces w) as (w' & Hreset & Hpieces & _).
      rewrite Hreset. cbn [snd]. rewrite Hpieces.
      apply fill_consistent_fmap; [|done].
      intros p Hp. unfold reset_piece.
      by destruct (PuzzlePiece.revealed p).
    + exact Hl.
Qed.

End MoreReset.

(** * More on the revisions that lock the revealed pieces *)

Section LockedRevisions.

(** X18: in both revisions that lock the revealed pieces, clicking an
    unrevealed piece that has nothing selected one time more than the
    index of its value in [SHAPES] selects its value. *)
Theorem clicks_reach_value (uid : string) (w : World Unassisted.Container)
    (piece : ref) (p : PuzzlePiece) :
  find (has_key uid) (Unassisted.pieces (this w)) = Some (piece, p) ->
  PuzzlePiece.revealed p = false ->
  PuzzlePiece.selectedValue p = Empty ->
  (exists w' : World Unassisted.Container,
     clicks Cycling.handleClick
       (S (Z.to_nat (JS.indexOf (PuzzlePiece.value p) Unassisted.SHAPES))) uid w
     = (Return tt, w') /\
     Unassisted.pieces (this w') !! piece
     = Some (PuzzlePiece.set_selectedValue (Sel (PuzzlePiece.value p)) p)) /\
  (exists w' : World Unassisted.Container,
     clicks Rotating.handleClick
       (S (Z.to_nat (JS.indexOf (PuzzlePiece.value p) Unassisted.SHAPES))) uid w
     = (Return tt, w') /\
     Unassisted.pieces (this w') !! piece
     = Some (PuzzlePiece.set_selectedValue (Sel (PuzzlePiece.value p)) p)).
Proof.
  intros Hfind Hrev Hsel. split.
  - destruct (clicks_hidden Cycling.handleClick next_in_cycle uid piece
                (fun w p => Cycling_handleClick_hidden uid w piece p)
                (S (Z.to_nat (JS.indexOf (PuzzlePiece.value p) Unassisted.SHAPES)))
                w p Hfind Hrev) as (w' & Hclicks & Hp & _).
    exists w'. split; [done|]. rewrite Hp, Hsel.
    by destruct (PuzzlePiece.value p).
  - destruct (clicks_hidden Rotating.handleClick next_in_rotation uid piece
                (fun w p => Rotating_handleClick_hidden uid w piece p)
                (S (Z.to_nat (JS.indexOf (PuzzlePiece.value p) Unassisted.SHAPES)))
                w p Hfind Hrev) as (w' & Hclicks & Hp & _).
    exists w'. split; [done|]. rewrite Hp, Hsel.
    by destruct (PuzzlePiece.value p).
Qed.

Lemma clicks_reach_value_witness :
  (exists w' : World Unassisted.Container,
     clicks Cycling.handleClick
       (S (Z.to_nat (JS.indexOf (PuzzlePiece.value single_hidden_piece)
                       Unassisted.SHAPES))) "[3,3]" single_hidden_world
     = (Return tt, w') /\
     Unassisted.pieces (this w') !! 0%nat
     = Some (PuzzlePiece.set_selectedValue
               (Sel (PuzzlePiece.value single_hidden_piece))
               single_hidden_piece)) /\
  (exists w' : World Unassisted.Container,
     clicks Rotating.handleClick
       (S (Z.to_nat (JS.indexOf (PuzzlePiece.value single_hidden_piece)
                       Unassisted.SHAPES))) "[3,3]" single_hidden_world
     = (Return tt, w') /\
     Unassisted.pieces (this w') !! 0%nat
     = Some (PuzzlePiece.set_selectedValue
               (Sel (PuzzlePiece.value single_hidden_piece))
               single_hidden_piece)).
Proof.
  apply (clicks_reach_value "[3,3]" single_hidden_world 0%nat single_hidden_piece);
    vm_compute; reflexivity.
Defined.

Lemma locked_frame_refl (p : PuzzlePiece) : locked_frame p p.
Proof. by repeat split. Qed.

Lemma locked_frame_trans (p q r : PuzzlePiece) :
  locked_frame p q -> locked_frame q r -> locked_frame p r.
Proof.
  intros (H1 & Hk & Hc & Hv & Hr & Hf & Hs) (H1' & Hk' & Hc' & Hv' & Hr' & Hf' & Hs').
  repeat split; try congruence.
  intros Hrev. rewrite H1' by congruence. by apply H1.
Qed.

Lemma locked_frame_lists_trans (l1 l2 l3 : list PuzzlePiece) :
  Forall2 locked_frame l1 l2 -> Forall2 locked_frame l2 l3 ->
  Forall2 locked_frame l1 l3.
Proof.
  intros H12. revert l3. induction H12 as [|p q l1 l2 Hpq _ IH]; intros l3 H23.
  - by inversion H23.
  - inversion H23 as [|? r ? l3' Hqr H23']; subst.
    constructor; [by eapply locked_frame_trans|by apply IH].
Qed.

Lemma locked_frame_select (l : list PuzzlePiece) (i : nat) (p : PuzzlePiece)
    (v : SelectableValues) :
  l !! i = Some p -> PuzzlePiece.revealed p = false ->
  Forall2 locked_frame l (alter (PuzzlePiece.set_selectedValue v) i l).
Proof.
  intros Hp Hrev. apply Forall2_same_length_lookup_2.
  { by rewrite length_alter. }
  intros j x y Hx Hy. destruct (decide (i = j)) as [<-|Hne].
  - rewrite list_lookup_alter, decide_True, Hx in Hy by done.
    injection Hy as <-. assert (x = p) as -> by congruence.
    repeat split. congruence.
  - rewrite list_lookup_alter_ne in Hy by done.
    assert (x = y) as -> by congruence. apply locked_frame_refl.
Qed.

Lemma locked_click (handleClick : string -> M Unassisted.Container unit)
    (next : SelectableValues -> SelectableValues) :
  (forall uid w,
     find (has_key uid) (Unassisted.pieces (this w)) = None ->
     handleClick uid w = (Throw JS.TypeError, w)) ->
  (forall uid w piece p,
     find (has_key uid) (Unassisted.pieces (this w)) = Some (piece, p) ->
     PuzzlePiece.revealed p = true -> handleClick uid w = (Return tt, w)) ->
  (forall uid w piece p,
     find (has_key uid) (Unassisted.pieces (this w)) = Some (piece, p) ->
     PuzzlePiece.revealed p = false ->
     handleClick uid w
     = (Return tt, select piece (next (PuzzlePiece.selectedValue p)) w)) ->
  forall (uids : list string) (w : World Unassisted.Container),
    Forall2 locked_frame
      (Unassisted.pieces (this w))
      (Unassisted.pieces (this (snd (click_all handleClick uids w)))) /\
    Unassisted.hints (this (snd (click_all handleClick uids w)))
    = Unassisted.hints (this w).
Proof.
  intros Hmiss Hrevealed Hhidden. unfold click_all.
  induction uids as [|uid uids IH]; intros w.
  - split; [|done]. apply Forall_Forall2_diag, list.Forall_forall.
    intros p _. apply locked_frame_refl.
  - cbn [forEach]. unfold bind.
    destruct (find (has_key uid) (Unassisted.pieces (this w)))
      as [[piece p]|] eqn:Hfind.
    + destruct (PuzzlePiece.revealed p) eqn:Hrev.
      * rewrite (Hrevealed uid w piece p) by done. apply IH.
      * rewrite (Hhidden uid w piece p) by done.
        destruct (IH (select piece (next (PuzzlePiece.selectedValue p)) w))
          as [Hpieces Hhints].
        split; [|by rewrite Hhints].
        eapply locked_frame_lists_trans; [|exact Hpieces].
        apply list_find_Some in Hfind as (Hp & _).
        by eapply locked_frame_select.
    + rewrite (Hmiss uid w) by done. cbn [snd]. split; [|done].
      apply Forall_Forall2_diag, list.Forall_forall.
      intros p _. apply locked_frame_refl.
Qed.

(** X19: in both revisions that lock the revealed pieces, whatever keys
    are clicked and in whatever order, no revealed piece changes, no
    piece changes in anything but its selected value, no piece comes or
    goes, and the hints stay as they were. *)
Theorem clicks_keep_revealed (uids : list string)
    (w : World Unassisted.Container) :
  (Forall2 locked_frame
     (Unassisted.pieces (this w))
     (Unassisted.pieces (this (snd (click_all Cycling.handleClick uids w)))) /\
   Unassisted.hints (this (snd (click_all Cycling.handleClick uids w)))
   = Unassisted.hints (this w)) /\
  (Forall2 locked_frame
     (Unassisted.pieces (this w))
     (Unassisted.pieces (this (snd (click_all Rotating.handleClick uids w)))) /\
   Unassisted.hints (this (snd (click_all Rotating.handleClick uids w)))
   = Unassisted.hints (this w)).
Proof.
  split.
  - apply (locked_click Cycling.handleClick next_in_cycle).
    + intros uid w0 Hfind. unfold Cycling.handleClick, bind at 1, get_this at 1.
      fold (has_key uid). by rewrite Hfind.
    + intros. by eapply Cycling_handleClick_revealed.
    + intros. by apply Cycling_handleClick_hidden.
  - apply (locked_click Rotating.handleClick next_in_rotation).
    + intros uid w0 Hfind. unfold Rotating.handleClick, bind at 1, get_this at 1.
      fold (has_key uid). by rewrite Hfind.
    + intros. by eapply Rotating_handleClick_revealed.
    + intros. by apply Rotating_handleClick_hidden.
Qed.

End LockedRevisions.

(** * The three revisions generate the same puzzle *)

Section Revisions.

Lemma piece_at_alike (sa : Assisted.Container) (su : Unassisted.Container)
    (index random1 random2 : JS.number) :
  Assisted.columns sa = Unassisted.columns su ->
  Assisted.size sa = Unassisted.size su ->
  same_piece (Assisted.piece_at sa index random1 random2)
             (Unassisted.piece_at su index random1 random2).
Proof.
  intros Hcols Hsize. unfold same_piece, Assisted.piece_at, Unassisted.piece_at.
  cbn [PuzzlePiece.key PuzzlePiece.coordinates PuzzlePiece.revealed
       PuzzlePiece.style PuzzlePiece.value PuzzlePiece.selectedValue].
  rewrite Hcols, Hsize. repeat split; reflexivity.
Qed.

Lemma _generatePieces_for_alike (sa : Assisted.Container)
    (su : Unassisted.Container) (count : JS.number) :
  Assisted.columns sa = Unassisted.columns su ->
  Assisted.size sa = Unassisted.size su ->
  forall (fuel : nat) (index : JS.number) (acc acc' : list PuzzlePiece)
         (wa : World Assisted.Container) (wu : World Unassisted.Container),
    this wa = sa -> this wu = su ->
    (forall n, random_source wa n = random_source wu n) ->
    random_calls wa = random_calls wu ->
    Forall2 same_piece acc acc' ->
    exists ps ps' wa' wu',
      Assisted._generatePieces_for fuel count index acc wa = (Return ps, wa') /\
      Unassisted._generatePieces_for fuel count index acc' wu = (Return ps', wu') /\
      Forall2 same_piece ps ps' /\
      this wa' = sa /\ this wu' = su /\
      random_calls wa' = random_calls wu'.
Proof.
  intros Hcols Hsize.
  induction fuel as [|fuel IH]; intros index acc acc' wa wu Ha Hu Hsrc Hcalls Hacc.
  - by exists acc, acc', wa, wu.
  - cbn [Assisted._generatePieces_for Unassisted._generatePieces_for].
    destruct (JS.ltb index count); [|by exists acc, acc', wa, wu].
    unfold bind at 1 4, get_this. unfold bind at 1 3, Math_random at 1 3.
    unfold bind at 1 2, Math_random.
    cbn [this random_source random_calls].
    apply IH; cbn [this random_source random_calls]; try done.
    + by rewrite Hcalls.
    + apply Forall2_app; [done|]. constructor; [|constructor].
      rewrite Ha, Hu, Hcalls, !Hsrc. by apply piece_at_alike.
Qed.

Lemma same_piece_same_cells (ps qs : list PuzzlePiece) :
  Forall2 same_piece ps qs -> same_cells ps qs.
Proof.
  unfold same_cells. apply Forall2_impl.
  intros p q (_ & Hc & _ & _ & Hv & _). by split.
Qed.

Lemma hint_at_alike (sa : Assisted.Container) (su : Unassisted.Container)
    (isRow : bool) (shape : Shape) (index : nat) (coord : JS.number) :
  Assisted.size sa = Unassisted.size su ->
  same_cells (Assisted.pieces sa) (Unassisted.pieces su) ->
  same_hint
    (Assisted.hint_at sa (Assisted.new_PuzzleTally (Assisted.pieces sa))
       isRow shape index coord)
    (Unassisted.hint_at su (Unassisted.new_PuzzleTally (Unassisted.pieces su))
       isRow shape index coord).
Proof.
  intros Hsize Hcells. unfold same_hint, Assisted.hint_at, Unassisted.hint_at.
  unfold Assisted.getRowTally, Assisted.getColumnValueCount,
    Unassisted.getRowTally, Unassisted.getColumnTally.
  rewrite !getValueCount_tally, !getTally_tally.
  rewrite !(tally_same_cells _ _ _ _ _ Hcells), Hsize.
  destruct isRow; repeat split; reflexivity.
Qed.

Lemma _generateHints_alike (sa : Assisted.Container) (su : Unassisted.Container)
    (total start : JS.number) (isRow : bool) :
  Assisted.size sa = Unassisted.size su ->
  same_cells (Assisted.pieces sa) (Unassisted.pieces su) ->
  Forall2 same_hint
    (Assisted._generateHints sa total start isRow)
    (Unassisted._generateHints su total start isRow).
Proof.
  intros Hsize Hcells.
  assert (Hloop : forall shape index fuel coord acc acc',
             Forall2 same_hint acc acc' ->
             Forall2 same_hint
               (Assisted._generateHints_for sa
                  (Assisted.new_PuzzleTally (Assisted.pieces sa))
                  isRow shape index fuel total coord acc)
               (Unassisted._generateHints_for su
                  (Unassisted.new_PuzzleTally (Unassisted.pieces su))
                  isRow shape index fuel total coord acc')).
  { intros shape index fuel. induction fuel as [|fuel IH]; intros coord acc acc' Hacc.
    - done.
    - cbn [Assisted._generateHints_for Unassisted._generateHints_for].
      destruct (JS.ltb coord total); [|done].
      apply IH, Forall2_app; [done|]. constructor; [|constructor].
      by apply hint_at_alike. }
  unfold Assisted._generateHints, Unassisted._generateHints,
    Assisted.SHAPES, Unassisted.SHAPES. cbn [forEach_indexed].
  repeat apply Hloop. constructor.
Qed.

(** X20: set up with the same dimensions, size and values to come from
    [Math.random()], the revision with assist mode and the revisions
    without it generate the same puzzle: [connectedCallback] returns in
    both, the pieces agree one by one in everything but the fill
    colour, the hints agree one by one in key, coordinates, content,
    shape and style, and as many random values have been drawn. *)
Theorem revisions_generate_alike (wa : World Assisted.Container)
    (wu : World Unassisted.Container) :
  same_setup wa wu ->
  exists wa' wu',
    Assisted.connectedCallback wa = (Return tt, wa') /\
    Unassisted.connectedCallback wu = (Return tt, wu') /\
    Forall2 same_piece (Assisted.pieces (this wa')) (Unassisted.pieces (this wu')) /\
    Forall2 same_hint (Assisted.hints (this wa')) (Unassisted.hints (this wu')) /\
    random_calls wa' = random_calls wu'.
Proof.
  intros (Hcols & Hrows & Hsize & Hsrc & Hcalls).
  destruct (_generatePieces_for_alike (this wa) (this wu)
              (Assisted.columns (this wa) * Assisted.rows (this wa))%Q
              Hcols Hsize
              (JS.turns 0%Q (Assisted.columns (this wa) * Assisted.rows (this wa))%Q)
              0%Q [] [] wa wu eq_refl eq_refl Hsrc Hcalls)
    as (ps & ps' & wa1 & wu1 & Hgena & Hgenu & Hps & Ha & Hu & Hcalls1);
    [constructor|].
  rewrite Hcols, Hrows in Hgenu at 1.
  rewrite Hcols, Hrows in Hgenu at 1.
  eexists. eexists. split; [|split].
  - unfold Assisted.connectedCallback, bind at 1, Assisted.generatePieces,
      bind at 1, Assisted._generatePieces, bind at 1, get_this at 1.
    rewrite Hgena. reflexivity.
  - unfold Unassisted.connectedCallback, bind at 1, Unassisted.generatePieces,
      bind at 1, Unassisted._generatePieces, bind at 1, get_this at 1.
    rewrite Hgenu. reflexivity.
  - cbn [this random_calls Assisted.pieces Assisted.hints Assisted.with_hints
         Assisted.with_pieces Unassisted.pieces Unassisted.hints
         Unassisted.with_hints Unassisted.with_pieces update_this].
    split; [done|]. split; [|done].
    rewrite Ha, Hu.
    unfold Assisted.generateColumnHints, Assisted.generateRowHints,
      Unassisted.generateColumnHints, Unassisted.generateRowHints.
    cbn [Assisted.columns Assisted.rows Assisted._columns Assisted._rows
         Assisted.with_pieces Unassisted.columns Unassisted.rows
         Unassisted._columns Unassisted._rows Unassisted.with_pieces].
    fold (Assisted.columns (this wa)). fold (Assisted.rows (this wa)).
    fold (Unassisted.columns (this wu)). fold (Unassisted.rows (this wu)).
    rewrite Hcols, Hrows.
    apply Forall2_app; apply _generateHints_alike; try done;
      by apply same_piece_same_cells.
Qed.

Lemma revisions_generate_alike_witness :
  exists wa' wu',
    Assisted.connectedCallback Grid.example_world = (Return tt, wa') /\
    Unassisted.connectedCallback unassisted_example_world = (Return tt, wu') /\
    Forall2 same_piece (Assisted.pieces (this wa')) (Unassisted.pieces (this wu')) /\
    Forall2 same_hint (Assisted.hints (this wa')) (Unassisted.hints (this wu')) /\
    random_calls wa' = random_calls wu'.
Proof.
  apply (revisions_generate_alike Grid.example_world unassisted_example_world).
  repeat split; reflexivity.
Defined.

End Revisions.

(** * The styles, the shape component and the first hints *)

Section Styles.

Lemma strip_whitespace_app (a b : string) :
  JS.strip_whitespace (a +:+ b)
  = JS.strip_whitespace a +:+ JS.strip_whitespace b.
Proof.
  induction a as [|c a IH]; [done|].
  simpl. destruct (JS.is_whitespace c); simpl; by rewrite IH.
Qed.

Lemma whitespace_separator (c : ascii) :
  JS.is_whitespace c = true -> separator c.
Proof.
  intros Hc. split.
  - intros ->. vm_compute in Hc. discriminate.
  - intros d Hd. subst c. unfold pretty_N_char in Hc.
    repeat case_match; vm_compute in Hc; discriminate.
Qed.

Lemma strip_whitespace_avoids (s : string) :
  (forall c, JS.is_whitespace c = true -> avoids c s) ->
  JS.strip_whitespace s = s.
Proof.
  induction s as [|c s IH]; intros Hs; [done|].
  cbn [JS.strip_whitespace].
  destruct (JS.is_whitespace c) eqn:Hc.
  - destruct (Hs c Hc) as [Hne _]. done.
  - f_equal. apply IH. intros c' Hc'. by destruct (Hs c' Hc').
Qed.

Lemma strip_whitespace_toString (z : Z) :
  JS.strip_whitespace (JS.toString (JS.of_int z)) = JS.toString (JS.of_int z).
Proof.
  rewrite toString_of_int. apply strip_whitespace_avoids.
  intros c Hc. by apply pretty_Z_avoids, whitespace_separator.
Qed.

(** X21: for a cell with integer coordinates and an integer size, all
    safe integers and the grid lines after them as well,
    [computeGridItemStyle] gives the grid lines column+1 / column+2 and
    row+1 / row+2 and the size in pixels, with no white space left. *)
Theorem computeGridItemStyle_integer (size x y : Z) :
  isSafeInteger size ->
  isSafeInteger x -> isSafeInteger (x + 2) ->
  isSafeInteger y -> isSafeInteger (y + 2) ->
  computeGridItemStyle (JS.of_int size)
    {| column := JS.of_int x; row := JS.of_int y |} 1%Q 1%Q
  = "grid-column:" +:+ JS.toString (JS.of_int (x + 1))
    +:+ "/" +:+ JS.toString (JS.of_int (x + 2))
    +:+ ";grid-row:" +:+ JS.toString (JS.of_int (y + 1))
    +:+ "/" +:+ JS.toString (JS.of_int (y + 2))
    +:+ ";width:" +:+ JS.toString (JS.of_int size)
    +:+ "px;height:" +:+ JS.toString (JS.of_int size) +:+ "px;".
Proof.
  intros _ _ _ _ _.
  unfold computeGridItemStyle. cbn [column row].
  change 1%Q with (JS.of_int 1).
  rewrite !of_int_add, !of_int_mul, Z.mul_1_r.
  replace (x + 1 + 1) with (x + 2) by lia.
  replace (y + 1 + 1) with (y + 2) by lia.
  rewrite !strip_whitespace_app, !strip_whitespace_toString.
  generalize (JS.toString (JS.of_int (x + 1))) (JS.toString (JS.of_int (x + 2)))
    (JS.toString (JS.of_int (y + 1))) (JS.toString (JS.of_int (y + 2)))
    (JS.toString (JS.of_int size)).
  reflexivity.
Qed.

Lemma computeGridItemStyle_integer_witness :
  computeGridItemStyle (JS.of_int 70)
    {| column := JS.of_int 3; row := JS.of_int 4 |} 1%Q 1%Q
  = "grid-column:" +:+ JS.toString (JS.of_int (3 + 1))
    +:+ "/" +:+ JS.toString (JS.of_int (3 + 2))
    +:+ ";grid-row:" +:+ JS.toString (JS.of_int (4 + 1))
    +:+ "/" +:+ JS.toString (JS.of_int (4 + 2))
    +:+ ";width:" +:+ JS.toString (JS.of_int 70)
    +:+ "px;height:" +:+ JS.toString (JS.of_int 70) +:+ "px;".
Proof.
  apply (computeGridItemStyle_integer 70 3 4);
    unfold isSafeInteger, MAX_SAFE_INTEGER; lia.
Defined.

(** X22: for integer dimensions and an integer size, safe integers
    whose grid totals and pixel totals are safe integers as well,
    [gridContainerStyle] gives a grid of columns+numShapes by
    rows+numShapes cells of that size, with no white space left, in the
    three revisions alike. *)
Theorem gridContainerStyle_integer (c r size : Z)
    (sa : Assisted.Container) (su : Unassisted.Container) :
  isSafeInteger c -> isSafeInteger r -> isSafeInteger size ->
  isSafeInteger (c + 3) -> isSafeInteger (r + 3) ->
  isSafeInteger ((c + 3) * size) -> isSafeInteger ((r + 3) * size) ->
  Assisted.gridContainerStyle
    (Assisted.with_columns (JS.of_int c)
       (Assisted.with_rows (JS.of_int r)
          (Assisted.with_size (JS.of_int size) sa)))
  = "grid-template-columns:repeat(" +:+ JS.toString (JS.of_int (c + 3))
    +:+ ",1fr);grid-template-rows:repeat(" +:+ JS.toString (JS.of_int (r + 3))
    +:+ ",1fr);width:" +:+ JS.toString (JS.of_int ((c + 3) * size))
    +:+ "px;height:" +:+ JS.toString (JS.of_int ((r + 3) * size)) +:+ "px;" /\
  Unassisted.gridContainerStyle
    (Unassisted.with_columns (JS.of_int c)
       (Unassisted.with_rows (JS.of_int r)
          (Unassisted.with_size (JS.of_int size) su)))
  = Assisted.gridContainerStyle
      (Assisted.with_columns (JS.of_int c)
         (Assisted.with_rows (JS.of_int r)
            (Assisted.with_size (JS.of_int size) sa))).
Proof.
  intros _ _ _ _ _ _ _.
  unfold Assisted.gridContainerStyle, Unassisted.gridContainerStyle.
  cbn [Assisted.columns Assisted.rows Assisted.size Assisted._columns
       Assisted._rows Assisted._size Assisted.with_columns Assisted.with_rows
       Assisted.with_size Unassisted.columns Unassisted.rows Unassisted.size
       Unassisted._columns Unassisted._rows Unassisted._size
       Unassisted.with_columns Unassisted.with_rows Unassisted.with_size].
  change Assisted.SHAPES_length with (JS.of_int 3).
  change Unassisted.SHAPES_length with (JS.of_int 3).
  split; [|reflexivity].
  rewrite !of_int_add, !of_int_mul.
  rewrite !strip_whitespace_app, !strip_whitespace_toString.
  generalize (JS.toString (JS.of_int (c + 3))) (JS.toString (JS.of_int (r + 3)))
    (JS.toString (JS.of_int ((c + 3) * size)))
    (JS.toString (JS.of_int ((r + 3) * size))).
  reflexivity.
Qed.

Lemma gridContainerStyle_integer_witness :
  Assisted.gridContainerStyle
    (Assisted.with_columns (JS.of_int 2)
       (Assisted.with_rows (JS.of_int 3)
          (Assisted.with_size (JS.of_int 70) Assisted.initial)))
  = "grid-template-columns:repeat(" +:+ JS.toString (JS.of_int (2 + 3))
    +:+ ",1fr);grid-template-rows:repeat(" +:+ JS.toString (JS.of_int (3 + 3))
    +:+ ",1fr);width:" +:+ JS.toString (JS.of_int ((2 + 3) * 70))
    +:+ "px;height:" +:+ JS.toString (JS.of_int ((3 + 3) * 70)) +:+ "px;" /\
  Unassisted.gridContainerStyle
    (Unassisted.with_columns (JS.of_int 2)
       (Unassisted.with_rows (JS.of_int 3)
          (Unassisted.with_size (JS.of_int 70) Unassisted.initial)))
  = Assisted.gridContainerStyle
      (Assisted.with_columns (JS.of_int 2)
         (Assisted.with_rows (JS.of_int 3)
            (Assisted.with_size (JS.of_int 70) Assisted.initial))).
Proof.
  apply (gridContainerStyle_integer 2 3 70 Assisted.initial Unassisted.initial);
    unfold isSafeInteger, MAX_SAFE_INTEGER; lia.
Defined.

(** X23: the three getters of the shape component exclude each other:
    none holds before [value] is set, and once it is set exactly the
    getter of that shape holds. *)
Theorem shape_getters_exclusive (self : ShapeComponent.t) :
  (ShapeComponent.value self = None ->
   ShapeComponent.isCircle self = false /\
   ShapeComponent.isSquare self = false /\
   ShapeComponent.isTriangle self = false) /\
  (forall s : Shape,
     ShapeComponent.value self = Some s ->
     ShapeComponent.isCircle self = bool_decide (s = circle) /\
     ShapeComponent.isSquare self = bool_decide (s = square) /\
     ShapeComponent.isTriangle self = bool_decide (s = triangle)) /\
  (ShapeComponent.isCircle self && ShapeComponent.isSquare self = false) /\
  (ShapeComponent.isCircle self && ShapeComponent.isTriangle self = false) /\
  (ShapeComponent.isSquare self && ShapeComponent.isTriangle self = false).
Proof.
  unfold ShapeComponent.isCircle, ShapeComponent.isSquare,
    ShapeComponent.isTriangle.
  destruct (ShapeComponent.value self) as [v|].
  - split; [done|]. split; [|by destruct v].
    intros s [= <-]. by destruct v.
  - by repeat split.
Qed.

Lemma fresh_tallies (ps : list PuzzlePiece) (axis : Axis) (line : JS.number)
    (shape : Shape) :
  Forall fresh_selection ps ->
  (selected_tally ps axis line shape <= tally ps axis line shape)%nat /\
  (tally ps axis line shape = selected_tally ps axis line shape
   <-> forall p, p ∈ ps ->
         (coordinate_of axis (PuzzlePiece.coordinates p) == line)%Q ->
         PuzzlePiece.value p = shape -> PuzzlePiece.revealed p = true).
Proof.
  induction 1 as [|p ps Hp _ [IHle IHeq]].
  - split; [done|]. split; [|done]. intros _ p Hin. by apply not_elem_of_nil in Hin.
  - cbn [tally selected_tally]. unfold fresh_selection in Hp.
    assert (Hrest : (forall q, q ∈ p :: ps ->
                       (coordinate_of axis (PuzzlePiece.coordinates q) == line)%Q ->
                       PuzzlePiece.value q = shape ->
                       PuzzlePiece.revealed q = true)
                    <-> ((coordinate_of axis (PuzzlePiece.coordinates p) == line)%Q ->
                         PuzzlePiece.value p = shape ->
                         PuzzlePiece.revealed p = true)
                        /\ (forall q, q ∈ ps ->
                              (coordinate_of axis (PuzzlePiece.coordinates q)
                               == line)%Q ->
                              PuzzlePiece.value q = shape ->
                              PuzzlePiece.revealed q = true)).
    { split.
      - intros Hall. split; [apply Hall, list_elem_of_here|].
        intros q Hq. by apply Hall, list_elem_of_further.
      - intros [Hhead Htail] q [->|Hq]%elem_of_cons; [done|by apply Htail]. }
    rewrite Hrest, <- IHeq.
    destruct (Qeq_dec _ _) as [Hline|Hline].
    + destruct (decide (PuzzlePiece.value p = shape)) as [Hv|Hv];
        destruct (PuzzlePiece.revealed p) eqn:Hrev; rewrite Hp;
        repeat case_decide; try congruence; split; try lia;
        split; try (intros [Hhead ?]); try (specialize (Hhead Hline Hv));
        try done; try lia; try (intros ?; split; [done|lia]).
    + destruct (PuzzlePiece.revealed p) eqn:Hrev; split; try lia;
        (split; [intros ?; split; [done|lia] | intros [_ ?]; lia]).
Qed.

(** X24: right after [connectedCallback] with assist mode on, whatever
    the dimensions, a hint has the complete fill exactly when every
    piece of its shape on its line is revealed. *)
Theorem first_hints_show_revealed_lines (w : World Assisted.Container) :
  Assisted.enableAssist (this w) = true ->
  exists w' : World Assisted.Container,
    Assisted.connectedCallback w = (Return tt, w') /\
    Assisted.hints (this w')
    = Assisted.generateColumnHints (this w')
      ++ Assisted.generateRowHints (this w') /\
    Forall (fresh_fill_rule (this w') false)
           (Assisted.generateColumnHints (this w')) /\
    Forall (fresh_fill_rule (this w') true)
           (Assisted.generateRowHints (this w')).
Proof.
  intros Hassist.
  destruct (_generatePieces_Forall fresh_selection w
              (piece_at_fresh_selection (this w)))
    as (ps & w0 & Hgen & Hthis & Hps).
  eexists. split.
  { unfold Assisted.connectedCallback, bind at 1, Assisted.generatePieces,
      bind at 1. rewrite Hgen. reflexivity. }
  cbn [this update_this].
  set (self := Assisted.with_hints _ _).
  assert (Hself : Assisted.enableAssist self = true).
  { cbn. by rewrite Hthis. }
  assert (Hfresh : Forall fresh_selection (Assisted.pieces self)) by exact Hps.
  split; [apply hints_current_with_hints|].
  split; apply Assisted_generateHints_Forall; intros shape index coord;
    pose proof (hint_at_fill_rule self) as Hrule.
  - destruct (Hrule false shape index coord) as (Hiff & _).
    unfold fresh_fill_rule. rewrite Hiff.
    rewrite hint_at_line, hint_at_shape in *.
    destruct (fresh_tallies (Assisted.pieces self) (axis_of false) coord shape
                Hfresh) as [_ Heq].
    rewrite Heq. split; [by intros [? _]|by intros ?; split].
  - destruct (Hrule true shape index coord) as (Hiff & _).
    unfold fresh_fill_rule. rewrite Hiff.
    rewrite hint_at_line, hint_at_shape in *.
    destruct (fresh_tallies (Assisted.pieces self) (axis_of true) coord shape
                Hfresh) as [_ Heq].
    rewrite Heq. split; [by intros [? _]|by intros ?; split].
Qed.

Lemma first_hints_show_revealed_lines_witness :
  exists w' : World Assisted.Container,
    Assisted.connectedCallback assisting_world = (Return tt, w') /\
    Assisted.hints (this w')
    = Assisted.generateColumnHints (this w')
      ++ Assisted.generateRowHints (this w') /\
    Forall (fresh_fill_rule (this w') false)
           (Assisted.generateColumnHints (this w')) /\
    Forall (fresh_fill_rule (this w') true)
           (Assisted.generateRowHints (this w')).
Proof.
  apply (first_hints_show_revealed_lines assisting_world). reflexivity.
Defined.

End Styles.

(** * The pieces and the random source *)

Module Draws.
Import Assisted.
Import Grid.
Import AssistedPieces.

(** X25: a puzzle generated for integer dimensions is read off the
    values of [Math.random()] two by two: the piece of linear index i
    is revealed exactly when the value of rank 2i from the first one
    drawn is above [REVEAL_PROBABILITY], its shape is the one the value
    of rank 2i+1 picks, and its selected value and fill follow from the
    two. *)
Theorem generated_piece_draws (w : World Container) (c r : Z) :
  0 <= c * r ->
  columns (this w) = JS.of_int c -> rows (this w) = JS.of_int r ->
  exists w' : World Container,
    generatePieces w = (Return tt, w') /\
    forall (i : nat) (p : PuzzlePiece),
      pieces (this w') !! i = Some p ->
      PuzzlePiece.revealed p
      = JS.ltb REVEAL_PROBABILITY
          (JS.draw_value (random_source w (random_calls w + 2 * i))) /\
      PuzzlePiece.value p
      = Unassisted.getRandomShape
          (JS.draw_value (random_source w (random_calls w + 2 * i + 1))) /\
      PuzzlePiece.selectedValue p
      = (if PuzzlePiece.revealed p then Sel (PuzzlePiece.value p) else Empty) /\
      PuzzlePiece.fill p
      = (if PuzzlePiece.revealed p then REVEALED_FILL else SELECTED_FILL).
Proof.
  intros Hcr Hcols Hrows. eexists. split.
  { unfold generatePieces, bind at 1.
    rewrite (_generatePieces_integer w c r) by done. reflexivity. }
  cbn [this pieces with_pieces update_this drawn].
  intros i p Hp.
  change (map (nth_piece w)) with (fmap (M := list) (nth_piece w)) in Hp.
  rewrite list_lookup_fmap in Hp.
  destruct (seq 0 (Z.to_nat (c * r)) !! i) as [j|] eqn:Hj; [|done].
  apply lookup_seq in Hj as [-> _]. injection Hp as <-.
  repeat split; reflexivity.
Qed.

Lemma generated_piece_draws_witness :
  exists w' : World Container,
    generatePieces example_world = (Return tt, w') /\
    forall (i : nat) (p : PuzzlePiece),
      pieces (this w') !! i = Some p ->
      PuzzlePiece.revealed p
      = JS.ltb REVEAL_PROBABILITY
          (JS.draw_value
             (random_source example_world (random_calls example_world + 2 * i))) /\
      PuzzlePiece.value p
      = Unassisted.getRandomShape
          (JS.draw_value
             (random_source example_world
                (random_calls example_world + 2 * i + 1))) /\
      PuzzlePiece.selectedValue p
      = (if PuzzlePiece.revealed p then Sel (PuzzlePiece.value p) else Empty) /\
      PuzzlePiece.fill p
      = (if PuzzlePiece.revealed p then REVEALED_FILL else SELECTED_FILL).
Proof.
  apply (generated_piece_draws example_world 2 3);
    [lia | reflexivity | reflexivity].
Defined.

End Draws.
